(** * IP spoofing detector (spoofing/spoofing.cpp): model and properties

    The detector reads flow records, runs three filters over each one
    (bogon prefixes, symmetric routing, new-flow count) and forwards the
    records a filter flags.  This file embeds the functions of
    [spoofing.cpp] as Rocq functions and states the properties of the
    design document against them.

    Conventions of the embedding.
    - Unsigned machine integers are [Z] with the wrap-around written out.
    - An address ([ip_addr_t], a union of byte, 32-bit and 64-bit views
      over the same 16 bytes) is the list of its 16 bytes; the wider views
      are little-endian readings, as on the x86-64 hosts the module runs on.
    - A local variable read before it is written (the source has several)
      is an explicit argument holding its indeterminate value.
    - An access outside a vector or table, which C++ leaves undefined, is
      the result [Undefined]. *)

From Stdlib Require Import ZArith Lia List Bool String Ascii.
From stdpp Require Import base option list gmap.

Local Open Scope Z_scope.

(** ** Machine arithmetic *)

Definition ones32 : Z := 0xFFFFFFFF.
Definition ones64 : Z := 0xFFFFFFFFFFFFFFFF.

Definition wrap32 (x : Z) : Z := x mod 2 ^ 32.
Definition wrap64 (x : Z) : Z := x mod 2 ^ 64.

(** Conversion of an unsigned 64-bit value to [int], as in
    [int valid = a & b]: the low 32 bits, read in two's complement. *)
Definition to_int (x : Z) : Z :=
  let y := x mod 2 ^ 32 in
  if y <? 2 ^ 31 then y else y - 2 ^ 32.

(** [x >> n] on [uint64_t].  C++ defines it for [0 <= n < 64] only; for
    any other count the value is whatever [undef] says, so that nothing
    proved below depends on it unless it is stated for one [undef]. *)
Definition shr64 (undef : Z -> Z -> Z) (x n : Z) : Z :=
  if (0 <=? n) && (n <? 64) then Z.shiftr x n else undef x n.

(** The x86-64 [shr] instruction keeps the low six bits of the count. *)
Definition shr64_x86 (x n : Z) : Z := Z.shiftr x (Z.land n 63).

(** ** Mask tables *)

(** [ipv4_mask_map_t]: 33 entries.  Entry 0 is stored first, the loop
    fills entries 1..32; the shift counts [32 - i] lie in 0..31. *)
Definition create_v4_mask_map : list Z :=
  0 :: map (fun i => Z.shiftr ones32 (32 - i)) (seqZ 1 32).

(** [ipv6_mask_map_t]: 129 entries of two 64-bit words, [m[i][0]] first.
    The branch test is [i < 64], and both branches shift by [64 - i]. *)
Definition create_v6_mask_map (undef : Z -> Z -> Z) : list (Z * Z) :=
  (0, 0) ::
  map (fun i =>
         if i <? 64
         then (shr64 undef ones64 (64 - i), 0)
         else (ones64, shr64 undef ones64 (64 - i)))
      (seqZ 1 128).

Definition v4_mask_at (m : list Z) (L : Z) : option Z := m !! Z.to_nat L.
Definition v6_mask_at (m : list (Z * Z)) (L : Z) : option (Z * Z) :=
  m !! Z.to_nat L.

(** The formulas of the design document, word for word: left shifts of
    an all-ones word, truncated to the word size. *)
Definition spec_mask_v4 (L : Z) : Z :=
  if L =? 0 then 0 else wrap32 (Z.shiftl ones32 (32 - L)).

Definition spec_mask_v6 (L : Z) : Z * Z :=
  if L <=? 64
  then (wrap64 (Z.shiftl ones64 (64 - L)), 0)
  else (ones64, wrap64 (Z.shiftl ones64 (128 - L))).

(** ** Results of code that can leave defined behaviour *)

(** [Undefined]: an access outside a vector or a table.  [Timeout]: a
    loop of the model ran out of fuel; [search_loop_no_timeout] shows the
    searches never do. *)
Inductive result (A : Type) : Type :=
  | Ret (a : A)
  | Undefined
  | Timeout.
Arguments Ret {A} a.
Arguments Undefined {A}.
Arguments Timeout {A}.

Definition bind {A B : Type} (m : result A) (k : A -> result B) : result B :=
  match m with
  | Ret a => k a
  | Undefined => Undefined
  | Timeout => Timeout
  end.

Notation "x <~ m ;; k" := (bind m (fun x => k))
  (at level 100, m at next level, right associativity).

(** [v[i]] on a [std::vector] or an array, no bounds check in the source. *)
Definition index {A : Type} (v : list A) (i : Z) : result A :=
  if i <? 0 then Undefined
  else match v !! Z.to_nat i with
       | Some x => Ret x
       | None => Undefined
       end.

(** ** Addresses *)

(** Modelled from the spec: the declaration of [ip_addr_t] is in
    ipaddr.h, which is not among the sources.  The design document gives
    16 bytes seen as [ui8[16]], [ui32[4]] and [ui64[2]], all aliasing the
    same storage.  The record holds the [ui64] view; the byte and 32-bit
    views are derived from it. *)
Record ip_addr_t : Type := mk_ip { ui64_0 : Z; ui64_1 : Z }.

Fixpoint le_split (n : nat) (w : Z) : list Z :=
  match n with
  | O => []
  | S n' => w mod 256 :: le_split n' (w / 256)
  end.

Fixpoint le_combine (bs : list Z) : Z :=
  match bs with
  | [] => 0
  | b :: bs' => b mod 256 + 256 * le_combine bs'
  end.

(** The byte view [ui8[16]]. *)
Definition ui8 (a : ip_addr_t) : list Z :=
  le_split 8 (ui64_0 a) ++ le_split 8 (ui64_1 a).

Definition ip_of_bytes (bs : list Z) : ip_addr_t :=
  {| ui64_0 := le_combine (take 8 bs); ui64_1 := le_combine (take 8 (drop 8 bs)) |}.

(** The lane [ui32[2]], where an IPv4 address lives: the low half of
    [ui64[1]]. *)
Definition ui32_2 (a : ip_addr_t) : Z := ui64_1 a mod 2 ^ 32.
Definition ui32_3 (a : ip_addr_t) : Z := (ui64_1 a / 2 ^ 32) mod 2 ^ 32.

Definition set_ui32_2 (a : ip_addr_t) (v : Z) : ip_addr_t :=
  {| ui64_0 := ui64_0 a; ui64_1 := 2 ^ 32 * ui32_3 a + v mod 2 ^ 32 |}.
Definition set_ui64_0 (a : ip_addr_t) (v : Z) : ip_addr_t :=
  {| ui64_0 := v mod 2 ^ 64; ui64_1 := ui64_1 a |}.
Definition set_ui64_1 (a : ip_addr_t) (v : Z) : ip_addr_t :=
  {| ui64_0 := ui64_0 a; ui64_1 := v mod 2 ^ 64 |}.

(** [memcmp(p, q, n)] over two byte sequences: the sign of the result is
    that of the first pair of bytes that differ. *)
Fixpoint memcmp (p q : list Z) (n : nat) : Z :=
  match n, p, q with
  | S n', x :: p', y :: q' => if x =? y then memcmp p' q' n' else x - y
  | _, _, _ => 0
  end.

(** ** Prefixes and flow records *)

(** Modelled from the spec: [ip_prefix_t] is declared in spoofing.h,
    which is not among the sources: an address and a prefix length. *)
Record ip_prefix_t : Type := mk_prefix { ip : ip_addr_t; pref_length : Z }.

(** Modelled from the spec: [ur_basic_flow_t] is declared in unirec.h,
    which is not among the sources.  The design document gives the
    fields the detector reads: two addresses, the 64-bit [first] and
    [linkbitfield], and [dirbitfield].  [other_fields] stands for the
    bytes of the fields it never reads (ports, protocol, counters). *)
Record ur_basic_flow_t : Type := mk_flow {
  src_addr : ip_addr_t;
  dst_addr : ip_addr_t;
  first : Z;
  linkbitfield : Z;
  dirbitfield : Z;
  other_fields : list Z
}.

(** The two filter results, distinct constants of spoofing.h. *)
Inductive verdict : Type := SPOOF_POSITIVE | SPOOF_NEGATIVE.

Global Instance verdict_eq_dec : EqDecision verdict.
Proof. solve_decision. Defined.

(** ** The binary search shared by the four prefix lookups *)

(** State of a search when it stops: whether it stopped on an equal
    comparison, the last comparison result, the last midpoint and the
    contents of the local [masked]. *)
Record search_exit : Type := mk_exit {
  hit : bool;
  search_result : Z;
  mid : Z;
  masked : ip_addr_t
}.

Section Search.
(** One iteration at midpoint [mid]: the new contents of [masked] and
    the [memcmp] result. *)
Variable probe : ip_addr_t -> Z -> result (Z * ip_addr_t).

Fixpoint search_loop (fuel : nat) (begin end_ : Z) (st : search_exit)
    : result search_exit :=
  if begin <=? end_ then
    match fuel with
    | O => Timeout
    | S fuel' =>
        let m := Z.shiftr (begin + end_) 1 in
        rm <~ probe (masked st) m ;;
        let st' := mk_exit false (fst rm) m (snd rm) in
        if fst rm <? 0 then search_loop fuel' (m + 1) end_ st'
        else if fst rm =? 0 then Ret (mk_exit true (fst rm) m (snd rm))
        else search_loop fuel' begin (m - 1) st'
    end
  else Ret st.

(** [begin = 0; end = prefix_list.size() - 1; while (begin <= end) ...]
    with the locals [search_result], [mid] and [masked] holding
    [r0], [m0] and [masked0] on entry.  The indices are those of a
    prefix list, far below the range of [int], so [begin + end] is exact. *)
Definition search (size : nat) (r0 m0 : Z) (masked0 : ip_addr_t)
    : result search_exit :=
  search_loop size 0 (Z.of_nat size - 1) (mk_exit false r0 m0 masked0).
End Search.

(** ** Bogon prefix filter *)

(** Loop body of the IPv4 lookups on address [a]: lane 2 of [a] is
    masked into [masked.ui32[2]] and the four bytes compared. *)
Definition v4_probe (mm : list Z) (pl : list ip_prefix_t) (a : ip_addr_t)
    (masked : ip_addr_t) (m : Z) : result (Z * ip_addr_t) :=
  p <~ index pl m ;;
  msk <~ index mm (pref_length p) ;;
  let masked' := set_ui32_2 masked (Z.land (ui32_2 a) msk) in
  Ret (memcmp (drop 8 (ui8 (ip p))) (drop 8 (ui8 masked')) 4, masked').

(** Loop body of [v6_bogon_filter]: up to 64 bits the first half is
    masked and compared, beyond that the second half is masked and all
    16 bytes of [masked] compared. *)
Definition v6_bogon_probe (mm : list (Z * Z)) (pl : list ip_prefix_t)
    (a : ip_addr_t) (masked : ip_addr_t) (m : Z) : result (Z * ip_addr_t) :=
  p <~ index pl m ;;
  msk <~ index mm (pref_length p) ;;
  if pref_length p <=? 64 then
    let masked' := set_ui64_0 masked (Z.land (ui64_0 a) (fst msk)) in
    Ret (memcmp (ui8 (ip p)) (ui8 masked') 8, masked')
  else
    let masked' := set_ui64_1 masked (Z.land (ui64_1 a) (snd msk)) in
    Ret (memcmp (ui8 (ip p)) (ui8 masked') 16, masked').

(** Loop body of the lookup inside [check_new_flows_v6]: the branch test
    is [pref_length > 64] with the same two branches in the same order. *)
Definition v6_new_flows_probe (mm : list (Z * Z)) (pl : list ip_prefix_t)
    (a : ip_addr_t) (masked : ip_addr_t) (m : Z) : result (Z * ip_addr_t) :=
  p <~ index pl m ;;
  msk <~ index mm (pref_length p) ;;
  if 64 <? pref_length p then
    let masked' := set_ui64_0 masked (Z.land (ui64_0 a) (fst msk)) in
    Ret (memcmp (ui8 (ip p)) (ui8 masked') 8, masked')
  else
    let masked' := set_ui64_1 masked (Z.land (ui64_1 a) (snd msk)) in
    Ret (memcmp (ui8 (ip p)) (ui8 masked') 16, masked').

Definition verdict_of_hit (st : search_exit) : verdict :=
  if hit st then SPOOF_POSITIVE else SPOOF_NEGATIVE.

(** [masked0]: the contents of the uninitialised local [masked].  The
    local [mask_result] is written before it is read. *)
Definition v4_bogon_filter (checked : ur_basic_flow_t)
    (prefix_list : list ip_prefix_t) (v4mm : list Z) (masked0 : ip_addr_t)
    : result verdict :=
  st <~ search (v4_probe v4mm prefix_list (src_addr checked))
               (length prefix_list) 0 0 masked0 ;;
  Ret (verdict_of_hit st).

Definition v6_bogon_filter (checked : ur_basic_flow_t)
    (prefix_list : list ip_prefix_t) (v6mm : list (Z * Z)) (masked0 : ip_addr_t)
    : result verdict :=
  st <~ search (v6_bogon_probe v6mm prefix_list (src_addr checked))
               (length prefix_list) 0 0 masked0 ;;
  Ret (verdict_of_hit st).

(** ** Symmetric routing filter *)

(** Modelled from the spec: [sym_src_t] is declared in spoofing.h, which
    is not among the sources; the design document gives two unsigned
    64-bit fields, the link mask and the time last seen. *)
Record sym_src_t : Type := mk_sym { link : Z; timestamp : Z }.

Global Instance sym_src_eq_dec : EqDecision sym_src_t.
Proof. solve_decision. Defined.

(** Modelled from the spec: [ip_get_v4_as_int] of ipaddr.h, which is not
    among the sources.  The four bytes of lane 2 are in network order and
    the aggregation key of 203.0.113.1 is 203.0.113.0, so the integer is
    their most-significant-byte-first reading. *)
Definition ip_get_v4_as_int (a : ip_addr_t) : Z :=
  le_combine (rev (le_split 4 (ui32_2 a))).

(** Modelled from the spec: [ip_from_16_bytes_le] of ipaddr.h, which is
    not among the sources: the address whose 16 bytes are the given ones
    in reverse order.  Followed by the exchange of the two halves it
    byte-swaps each 64-bit half, the normalisation the design document
    describes. *)
Definition ip_from_16_bytes_le (a : ip_addr_t) : ip_addr_t :=
  ip_of_bytes (rev (ui8 a)).

(** [tmp = a.ui64[1]; a.ui64[1] = a.ui64[0]; a.ui64[0] = tmp;] *)
Definition swap_halves (a : ip_addr_t) : ip_addr_t :=
  {| ui64_0 := ui64_1 a; ui64_1 := ui64_0 a |}.

Definition high32_mask : Z := 0xFFFFFFFF00000000.

(** The test [((record->first & 0xFFFFFFFF00000000) - timestamp) < rw_time]
    in 64-bit unsigned arithmetic. *)
Definition within_rw_time (first_ ts rw_time : Z) : bool :=
  wrap64 (Z.land first_ high32_mask - ts) <? rw_time.

(** [src.insert(pair(key, rec))]: [std::map::insert] adds the pair only
    when the key is absent. *)
Definition map_insert_if_absent (key : Z) (rec : sym_src_t)
    (src : gmap Z sym_src_t) : gmap Z sym_src_t :=
  match src !! key with
  | Some _ => src
  | None => <[key := rec]> src
  end.

Definition check_symetry_v4 (record : ur_basic_flow_t)
    (src : gmap Z sym_src_t) (rw_time : Z) : verdict * gmap Z sym_src_t :=
  if dirbitfield record =? 0 then
    let v4_numeric := Z.land (ip_get_v4_as_int (dst_addr record)) 0xFFFFFF00 in
    match src !! v4_numeric with
    | Some e =>
        if within_rw_time (first record) (timestamp e) rw_time then
          (SPOOF_NEGATIVE,
           <[v4_numeric := {| link := Z.lor (link e) (linkbitfield record);
                              timestamp := first record |}]> src)
        else
          (SPOOF_NEGATIVE,
           map_insert_if_absent v4_numeric
             {| link := linkbitfield record; timestamp := first record |} src)
    | None =>
        (SPOOF_NEGATIVE,
         map_insert_if_absent v4_numeric
           {| link := linkbitfield record; timestamp := first record |} src)
    end
  else
    let v4_numeric := Z.land (ip_get_v4_as_int (src_addr record)) 0xFFFFFF00 in
    match src !! v4_numeric with
    | Some e =>
        let valid := to_int (Z.land (link e) (linkbitfield record)) in
        if valid =? 0 then (SPOOF_POSITIVE, src) else (SPOOF_NEGATIVE, src)
    | None => (SPOOF_NEGATIVE, src)
    end.

(** The first statements of [check_symetry_v6], which assign to the two
    address fields of the record it was handed. *)
Definition swap_address_halves (record : ur_basic_flow_t) : ur_basic_flow_t :=
  {| src_addr := swap_halves (ip_from_16_bytes_le (src_addr record));
     dst_addr := swap_halves (ip_from_16_bytes_le (dst_addr record));
     first := first record;
     linkbitfield := linkbitfield record;
     dirbitfield := dirbitfield record;
     other_fields := other_fields record |}.

(** The record is normalised in place, so the function also returns the
    record as it leaves it.  [ts0] is the content of the field
    [src_rec.timestamp], which the function never writes. *)
Definition check_symetry_v6 (record : ur_basic_flow_t)
    (src : gmap Z sym_src_t) (rw_time : Z) (ts0 : Z)
    : verdict * ur_basic_flow_t * gmap Z sym_src_t :=
  let record := swap_address_halves record in
  if dirbitfield record =? 0 then
    let key := ui64_0 (dst_addr record) in
    match src !! key with
    | Some e =>
        if within_rw_time (first record) (timestamp e) rw_time then
          (SPOOF_NEGATIVE, record,
           <[key := {| link := Z.lor (link e) (linkbitfield record);
                       timestamp := timestamp e |}]> src)
        else
          (SPOOF_NEGATIVE, record,
           map_insert_if_absent key
             {| link := linkbitfield record; timestamp := ts0 |} src)
    | None =>
        (SPOOF_NEGATIVE, record,
         map_insert_if_absent key
           {| link := linkbitfield record; timestamp := ts0 |} src)
    end
  else
    let key := ui64_0 (src_addr record) in
    match src !! key with
    | Some e =>
        let valid := to_int (Z.land (link e) (linkbitfield record)) in
        if valid =? 0 then (SPOOF_POSITIVE, record, src)
        else (SPOOF_NEGATIVE, record, src)
    | None => (SPOOF_NEGATIVE, record, src)
    end.

(** ** New-flow count filter *)

(** The Bloom filter class ([bloom_filter], an external library) through
    the three operations the detector uses.  Keys are the
    [INET6_ADDRSTRLEN] bytes of the buffer [ip_key]. *)
Class Bloom (B : Type) : Type := {
  bloom_new : B;
  bloom_contains : B -> list Z -> bool;
  bloom_insert : B -> list Z -> B
}.

(** What every Bloom filter guarantees: no false negatives. *)
Class BloomNoFalseNegative (B : Type) `{Bloom B} : Prop :=
  bloom_insert_contains : forall (b : B) (k : list Z),
    bloom_contains (bloom_insert b k) k = true.

(** Modelled from the spec: [flow_count_t] is declared in spoofing.h,
    which is not among the sources: a Bloom filter and a count.  The
    count is taken to be [unsigned], like the threshold it is compared
    with, so [count++] wraps at 2^32. *)
Record flow_count_t (B : Type) : Type := mk_count { sources : B; count : Z }.
Arguments mk_count {B} _ _.
Arguments sources {B} _.
Arguments count {B} _.

(** [flow_filter_t]: the vector of buckets.  Its field [timestamp] is
    only read into the local [tf], which nothing uses (the swap it was
    meant to drive is commented out), so the model leaves it out. *)
Record flow_filter_t (B : Type) : Type :=
  mk_filter { flows : list (flow_count_t B) }.
Arguments mk_filter {B} _.
Arguments flows {B} _.

(** [flow_filter_t filter[2]] read through the globals [bf_active] (0)
    and [bf_learning] (1).  Only [swap_filters] assigns the two globals,
    and its calls are commented out, so the two roles are fixed fields. *)
Record filter_pair (B : Type) : Type :=
  mk_pair { bf_active : flow_filter_t B; bf_learning : flow_filter_t B }.
Arguments mk_pair {B} _ _.
Arguments bf_active {B} _.
Arguments bf_learning {B} _.

Definition INET6_ADDRSTRLEN : nat := 46.

(** [ip_to_str(&masked, ip_key)]: the text and its terminating NUL are
    written at the start of the buffer, the rest keeps what it held. *)
Definition write_str (buf : list Z) (text : list Z) : list Z :=
  take INET6_ADDRSTRLEN (text ++ 0 :: drop (S (length text)) buf).

Section NewFlows.
Context {B : Type} `{Bloom B}.

(** [ip_to_str] of ipaddr.h, which is not among the sources: the
    characters of the canonical text of an address. *)
Variable ip_to_str : ip_addr_t -> list Z.

(** [create_nflow_filters(length, filters)]: [length] fresh buckets
    with count 0 are pushed on both sides. *)
Definition create_nflow_filters (length : nat) (filters : filter_pair B)
    : filter_pair B :=
  Nat.iter length
    (fun fs =>
       {| bf_active := mk_filter (flows (bf_active fs) ++ [mk_count bloom_new 0]);
          bf_learning := mk_filter (flows (bf_learning fs) ++ [mk_count bloom_new 0]) |})
    filters.

(** The part of [check_new_flows_v4] and [check_new_flows_v6] after the
    lookup, on the aggregated address [masked]: probe the active bucket
    at index [m], insert on both sides and count. *)
Definition count_new_flow (threshold : Z) (filter : filter_pair B)
    (m : Z) (masked : ip_addr_t) (ip_key0 : list Z)
    : result (verdict * filter_pair B) :=
  let ip_key := write_str ip_key0 (ip_to_str masked) in
  fa <~ index (flows (bf_active filter)) m ;;
  if bloom_contains (sources fa) ip_key then Ret (SPOOF_NEGATIVE, filter)
  else
    fl <~ index (flows (bf_learning filter)) m ;;
    let fa' := mk_count (bloom_insert (sources fa) ip_key) (wrap32 (count fa + 1)) in
    let fl' := mk_count (bloom_insert (sources fl) ip_key) (wrap32 (count fl + 1)) in
    let filter' :=
      {| bf_active := mk_filter (<[Z.to_nat m := fa']> (flows (bf_active filter)));
         bf_learning := mk_filter (<[Z.to_nat m := fl']> (flows (bf_learning filter))) |} in
    if threshold <? count fa' then Ret (SPOOF_POSITIVE, filter')
    else Ret (SPOOF_NEGATIVE, filter').

(** [masked0], [r0], [m0] and [ip_key0]: the contents of the
    uninitialised locals [masked], [search_result], [mid] and [ip_key].
    The lookup runs on the destination address. *)
Definition check_new_flows_v4 (record : ur_basic_flow_t) (threshold : Z)
    (filter : filter_pair B) (mm : list Z) (prefix_list : list ip_prefix_t)
    (masked0 : ip_addr_t) (r0 m0 : Z) (ip_key0 : list Z)
    : result (verdict * filter_pair B) :=
  st <~ search (v4_probe mm prefix_list (dst_addr record))
               (length prefix_list) r0 m0 masked0 ;;
  if negb (search_result st =? 0) then Ret (SPOOF_NEGATIVE, filter)
  else
    m24 <~ index mm 24 ;;
    let masked := src_addr record in
    let masked := set_ui32_2 masked (Z.land (ui32_2 masked) m24) in
    count_new_flow threshold filter (mid st) masked ip_key0.

(** The lookup runs on the source address. *)
Definition check_new_flows_v6 (record : ur_basic_flow_t) (threshold : Z)
    (filter : filter_pair B) (mm : list (Z * Z)) (prefix_list : list ip_prefix_t)
    (masked0 : ip_addr_t) (r0 m0 : Z) (ip_key0 : list Z)
    : result (verdict * filter_pair B) :=
  st <~ search (v6_new_flows_probe mm prefix_list (src_addr record))
               (length prefix_list) r0 m0 masked0 ;;
  if negb (search_result st =? 0) then Ret (SPOOF_NEGATIVE, filter)
  else
    m64 <~ index mm 64 ;;
    let masked := src_addr record in
    let masked := set_ui64_0 masked (Z.land (ui64_0 masked) (fst m64)) in
    let masked := set_ui64_1 masked (Z.land (ui64_1 masked) 0) in
    count_new_flow threshold filter (mid st) masked ip_key0.
End NewFlows.

(** ** The detector: state, configuration and the body of the main loop *)

(** What [main] loads and computes before the loop and never changes. *)
Record config : Type := mk_config {
  bogon_list_v4 : list ip_prefix_t;
  bogon_list_v6 : list ip_prefix_t;
  spec_list_v4 : list ip_prefix_t;
  spec_list_v6 : list ip_prefix_t;
  v4_masks : list Z;
  v6_masks : list (Z * Z);
  sym_rw_time : Z;
  nf_threshold : Z
}.

(** What the filters update from one record to the next. *)
Record detector (B : Type) : Type := mk_detector {
  v4_route_sym : gmap Z sym_src_t;
  v6_route_sym : gmap Z sym_src_t;
  v4_flows : filter_pair B;
  v6_flows : filter_pair B
}.
Arguments mk_detector {B} _ _ _ _.
Arguments v4_route_sym {B} _.
Arguments v6_route_sym {B} _.
Arguments v4_flows {B} _.
Arguments v6_flows {B} _.

(** The contents, during one iteration, of the locals the filters read
    before writing them. *)
Record indeterminate : Type := mk_indet {
  bogon_masked : ip_addr_t;
  spec_masked : ip_addr_t;
  sym_timestamp : Z;
  nf_masked : ip_addr_t;
  nf_search_result : Z;
  nf_mid : Z;
  nf_ip_key : list Z
}.

Section Pipeline.
Context {B : Type} `{Bloom B}.

(** [ip_is4] and [ip_to_str] of ipaddr.h, which is not among the
    sources. *)
Variable ip_is4 : ip_addr_t -> bool.
Variable ip_to_str : ip_addr_t -> list Z.

(** Stage 1 of the loop: the bogon list, then for an inbound record
    that it lets through, the list of specific networks. *)
Definition bogon_stage (cfg : config) (g : indeterminate)
    (record : ur_basic_flow_t) : result verdict :=
  if ip_is4 (src_addr record) then
    retval <~ v4_bogon_filter record (bogon_list_v4 cfg) (v4_masks cfg)
                (bogon_masked g) ;;
    if bool_decide (retval = SPOOF_NEGATIVE) && (dirbitfield record =? 1)
    then v4_bogon_filter record (spec_list_v4 cfg) (v4_masks cfg) (spec_masked g)
    else Ret retval
  else
    retval <~ v6_bogon_filter record (bogon_list_v6 cfg) (v6_masks cfg)
                (bogon_masked g) ;;
    if bool_decide (retval = SPOOF_NEGATIVE) && (dirbitfield record =? 1)
    then v6_bogon_filter record (spec_list_v6 cfg) (v6_masks cfg) (spec_masked g)
    else Ret retval.

(** Stage 2: the record may come back changed (IPv6). *)
Definition symetry_stage (cfg : config) (g : indeterminate)
    (d : detector B) (record : ur_basic_flow_t)
    : verdict * ur_basic_flow_t * detector B :=
  if ip_is4 (src_addr record) then
    let '(retval, src) :=
      check_symetry_v4 record (v4_route_sym d) (sym_rw_time cfg) in
    (retval, record, mk_detector src (v6_route_sym d) (v4_flows d) (v6_flows d))
  else
    let '(retval, record', src) :=
      check_symetry_v6 record (v6_route_sym d) (sym_rw_time cfg) (sym_timestamp g) in
    (retval, record', mk_detector (v4_route_sym d) src (v4_flows d) (v6_flows d)).

(** Stage 3, on the record as stage 2 left it. *)
Definition new_flows_stage (cfg : config) (g : indeterminate)
    (d : detector B) (record : ur_basic_flow_t)
    : result (verdict * detector B) :=
  if ip_is4 (src_addr record) then
    rf <~ check_new_flows_v4 ip_to_str record (nf_threshold cfg) (v4_flows d)
            (v4_masks cfg) (spec_list_v4 cfg)
            (nf_masked g) (nf_search_result g) (nf_mid g) (nf_ip_key g) ;;
    Ret (fst rf, mk_detector (v4_route_sym d) (v6_route_sym d) (snd rf) (v6_flows d))
  else
    rf <~ check_new_flows_v6 ip_to_str record (nf_threshold cfg) (v6_flows d)
            (v6_masks cfg) (spec_list_v6 cfg)
            (nf_masked g) (nf_search_result g) (nf_mid g) (nf_ip_key g) ;;
    Ret (fst rf, mk_detector (v4_route_sym d) (v6_route_sym d) (v4_flows d) (snd rf)).

(** One iteration of the main loop on a record of the right size: the
    new state and the record handed to [trap_send_data], if any.  (The
    counters the loop keeps for its closing report are left out.) *)
Definition process_record (cfg : config) (g : indeterminate)
    (d : detector B) (record : ur_basic_flow_t)
    : result (detector B * option ur_basic_flow_t) :=
  retval <~ bogon_stage cfg g record ;;
  if bool_decide (retval = SPOOF_POSITIVE) then Ret (d, Some record)
  else
    let '(retval, record, d) := symetry_stage cfg g d record in
    if bool_decide (retval = SPOOF_POSITIVE) then Ret (d, Some record)
    else
      rd <~ new_flows_stage cfg g d record ;;
      if bool_decide (fst rd = SPOOF_POSITIVE) then Ret (snd rd, Some record)
      else Ret (snd rd, None).

(** The loop over the records received, each with the contents of the
    uninitialised locals of its iteration; the records sent are
    collected in order. *)
Fixpoint run (cfg : config) (d : detector B)
    (input : list (indeterminate * ur_basic_flow_t))
    : result (detector B * list ur_basic_flow_t) :=
  match input with
  | [] => Ret (d, [])
  | (g, record) :: rest =>
      ds <~ process_record cfg g d record ;;
      dr <~ run cfg (fst ds) rest ;;
      Ret (fst dr, match snd ds with
                   | Some r => r :: snd dr
                   | None => snd dr
                   end)
  end.

(** The state on entry to the loop: empty symmetry maps and one pair of
    empty buckets per watched prefix. *)
Definition initial_detector (cfg : config) : detector B :=
  let empty := mk_pair (mk_filter []) (mk_filter []) in
  mk_detector ∅ ∅
    (create_nflow_filters (length (spec_list_v4 cfg)) empty)
    (create_nflow_filters (length (spec_list_v6 cfg)) empty).
End Pipeline.

(** ** Start-up: options, prefix files, entry to the loop *)

(** Return values of the TRAP library calls, as far as [main] tells them
    apart. *)
Inductive trap_status : Type :=
  | TRAP_E_OK
  | TRAP_E_HELP
  | TRAP_E_error (code : Z).

(** The integer behind a status (0 and 20 are the values of trap.h). *)
Definition trap_code (s : trap_status) : Z :=
  match s with
  | TRAP_E_OK => 0
  | TRAP_E_HELP => 20
  | TRAP_E_error code => code
  end.

(** [load_pref] documents its results: 0 if everything goes smoothly,
    else 1. *)
Definition ALL_OK : Z := 0.
Definition BOGON_FILE_ERROR : Z := 1.
Definition EXIT_SUCCESS : Z := 0.
Definition EXIT_FAILURE : Z := 1.
(** Defaults, as the help text of the module gives them. *)
Definition SYM_RW_DEFAULT : Z := 45.
Definition NEW_FLOW_DEFAULT : Z := 1000.

(** The locals the [getopt] loop assigns. *)
Record options : Type := mk_options {
  b_flag : bool;
  bog_filename : string;
  cnet_filename : string;
  opt_sym_rw_time : Z;
  opt_nf_threshold : Z
}.

(** How [main] leaves its start-up part. *)
Inductive startup : Type :=
  | Exit (code : Z)
  | EnterLoop (cfg : config).

Definition sort_by_prefix_v4 (addr1 addr2 : ip_prefix_t) : bool :=
  memcmp (drop 8 (ui8 (ip addr1))) (drop 8 (ui8 (ip addr2))) 4 <? 0.

Definition sort_by_prefix_v6 (addr1 addr2 : ip_prefix_t) : bool :=
  memcmp (ui8 (ip addr1)) (ui8 (ip addr2)) 16 <? 0.

(** [std::sort] with a comparator, as an insertion sort (the order the
    library gives to elements that compare equal is not specified). *)
Fixpoint insert_by {A : Type} (lt : A -> A -> bool) (x : A) (l : list A) : list A :=
  match l with
  | [] => [x]
  | y :: l' => if lt x y then x :: y :: l' else y :: insert_by lt x l'
  end.

Definition sort_by {A : Type} (lt : A -> A -> bool) (l : list A) : list A :=
  foldr (insert_by lt) [] l.

Section Startup.
(** The result of a 64-bit shift by a count outside 0..63. *)
Variable shr_undef : Z -> Z -> Z.
(** [ip_is4] of ipaddr.h and [atoi] of the C library. *)
Variable ip_is4 : ip_addr_t -> bool.
Variable atoi : string -> Z.
(** The files that can be opened, by name, with their contents. *)
Variable open_file : string -> option string.
(** The reading loop of [load_pref] on the contents of an opened file
    ([getline], [ip_from_str], [strtoul]): the prefixes in file order. *)
Variable read_prefixes : string -> list ip_prefix_t.

(** One pass of the [getopt] loop per option found; on ['?'] the inner
    tests compare the same variable with ['b'] and ['t'] and fail. *)
Definition getopt_step (o : options) (arg : ascii * string) : options :=
  let '(argret, optarg) := arg in
  if Ascii.eqb argret "b" then
    mk_options true optarg (cnet_filename o) (opt_sym_rw_time o) (opt_nf_threshold o)
  else if Ascii.eqb argret "c" then
    mk_options (b_flag o) (bog_filename o) optarg (opt_sym_rw_time o) (opt_nf_threshold o)
  else if Ascii.eqb argret "s" then
    mk_options (b_flag o) (bog_filename o) (cnet_filename o)
               (wrap32 (atoi optarg)) (opt_nf_threshold o)
  else if Ascii.eqb argret "t" then
    mk_options (b_flag o) (bog_filename o) (cnet_filename o)
               (opt_sym_rw_time o) (wrap32 (atoi optarg))
  else o.

Definition getopt_loop (args : list (ascii * string)) : options :=
  fold_left getopt_step args (mk_options false EmptyString EmptyString 0 0).

(** [load_pref]: the return value, the two lists and what was written
    to [cerr]. *)
Definition load_pref (prefix_list_v4 prefix_list_v6 : list ip_prefix_t)
    (bogon_file : string)
    : Z * list ip_prefix_t * list ip_prefix_t * list string :=
  match open_file bogon_file with
  | None =>
      (BOGON_FILE_ERROR, prefix_list_v4, prefix_list_v6,
       ["ERROR: File with bogon prefixes couldn't be loaded. Unable to continue."%string])
  | Some contents =>
      let prefs := read_prefixes contents in
      let l4 := prefix_list_v4 ++ filter (fun p => ip_is4 (ip p) = true) prefs in
      let l6 := prefix_list_v6 ++ filter (fun p => ip_is4 (ip p) = false) prefs in
      (ALL_OK, sort_by sort_by_prefix_v4 l4, sort_by sort_by_prefix_v6 l6, [])
  end.

(** [main] up to the loop: how it ends and what it wrote to [cerr]. *)
Definition main_startup (parse_params : trap_status)
    (args : list (ascii * string)) (init : trap_status)
    : startup * list string :=
  match parse_params with
  | TRAP_E_HELP => (Exit EXIT_SUCCESS, [])
  | TRAP_E_error _ =>
      (Exit (trap_code parse_params), ["ERROR: Cannot parse input parameters"%string])
  | TRAP_E_OK =>
      let o := getopt_loop args in
      if negb (b_flag o) then
        (Exit EXIT_FAILURE,
         ["ERROR: Bogon file not specified. Unable to continue."%string])
      else
        let sym_rw_time :=
          if opt_sym_rw_time o =? 0 then SYM_RW_DEFAULT else opt_sym_rw_time o in
        let nf_threshold :=
          if opt_nf_threshold o =? 0 then NEW_FLOW_DEFAULT else opt_nf_threshold o in
        match init with
        | TRAP_E_HELP | TRAP_E_error _ =>
            (Exit (trap_code init), ["ERROR: TRAP couldn't be initialized"%string])
        | TRAP_E_OK =>
            let v4_masks := create_v4_mask_map in
            let v6_masks := create_v6_mask_map shr_undef in
            let '(retval, bogon_list_v4, bogon_list_v6, err1) :=
              load_pref [] [] (bog_filename o) in
            (* the second call assigns the same variable *)
            let '(retval, spec_list_v4, spec_list_v6, err2) :=
              load_pref [] [] (cnet_filename o) in
            if retval =? BOGON_FILE_ERROR then (Exit retval, err1 ++ err2)
            else
              (EnterLoop (mk_config bogon_list_v4 bogon_list_v6
                                    spec_list_v4 spec_list_v6
                                    v4_masks v6_masks sym_rw_time nf_threshold),
               err1 ++ err2)
        end
  end.
End Startup.

(** ** Runs: sequences of records and reachable states *)

(** The symmetric-route filter run over a sequence of IPv4 records. *)
Fixpoint learn_v4 (records : list ur_basic_flow_t) (src : gmap Z sym_src_t)
    (rw_time : Z) : gmap Z sym_src_t :=
  match records with
  | [] => src
  | record :: rest => learn_v4 rest (snd (check_symetry_v4 record src rw_time)) rw_time
  end.

(** Outbound records to one aggregated destination [key], each passing
    the window test of the code against the time stored by the one
    before it ([ts] for the first). *)
Fixpoint within_window_chain (key rw_time ts : Z) (records : list ur_basic_flow_t)
    : Prop :=
  match records with
  | [] => True
  | record :: rest =>
      dirbitfield record = 0
      /\ Z.land (ip_get_v4_as_int (dst_addr record)) 0xFFFFFF00 = key
      /\ within_rw_time (first record) ts rw_time = true
      /\ within_window_chain key rw_time (first record) rest
  end.

(** The counts of the active side and of the learning side, index by
    index. *)
Definition counts_agree {B : Type} (p : filter_pair B) : Prop :=
  count <$> flows (bf_active p) = count <$> flows (bf_learning p).

(** The states the loop can be in before it reads a record: the state on
    entry, and every state an iteration leaves. *)
Inductive reachable {B : Type} `{Bloom B}
    (ip_is4 : ip_addr_t -> bool) (ip_to_str : ip_addr_t -> list Z)
    (cfg : config) : detector B -> Prop :=
  | reach_init : reachable ip_is4 ip_to_str cfg (initial_detector cfg)
  | reach_step g d record d' out :
      reachable ip_is4 ip_to_str cfg d ->
      process_record ip_is4 ip_to_str cfg g d record = Ret (d', out) ->
      reachable ip_is4 ip_to_str cfg d'.

(** ** Concrete stand-ins for the parts outside the sources

    The properties below are stated for every Bloom filter, every family
    test and every text rendering; these instances serve to evaluate the
    model on concrete records. *)

(** Modelled from the spec: [ip_is4] of ipaddr.h, which is not among the
    sources.  The design document places an IPv4 address in lane 2 of the
    16 bytes; this stand-in tells the family by the other lanes, the
    first half zero and lane 3 all ones. *)
Definition unirec_ip_is4 (a : ip_addr_t) : bool :=
  (ui64_0 a mod 2 ^ 64 =? 0) && (ui32_3 a =? ones32).

(** The address a.b.c.d in the 16 bytes: lane 2 holds it, lane 3 is all
    ones. *)
Definition v4_addr (a b c d : Z) : ip_addr_t :=
  ip_of_bytes [0; 0; 0; 0; 0; 0; 0; 0; a; b; c; d; 255; 255; 255; 255].

(** An exact set of keys: a Bloom filter without false positives. *)
Definition exact_set : Type := list (list Z).

Global Instance exact_set_bloom : Bloom exact_set := {|
  bloom_new := [];
  bloom_contains := fun b k => bool_decide (k ∈ b);
  bloom_insert := fun b k => k :: b
|}.

Global Instance exact_set_no_false_negative : BloomNoFalseNegative exact_set.
Proof.
  intros b k. cbn. apply bool_decide_eq_true. apply list_elem_of_here.
Qed.

(** The 16 bytes of an address as its text: enough to tell aggregated
    addresses apart. *)
Definition bytes_as_text (a : ip_addr_t) : list Z := ui8 a.

(** ** Concrete records and tables used by the examples below *)

(** Outbound and inbound records between 192.0.2.5 and 203.0.113.1, and
    between 2001:db8:1::9 and 2001:db8::1, on the given link bits at the
    given second. *)
Definition outbound_203 (link_ seconds : Z) : ur_basic_flow_t :=
  mk_flow (v4_addr 192 0 2 5) (v4_addr 203 0 113 1)
          (seconds * 2 ^ 32) link_ 0 [].

Definition v6_2001_db8_1 : ip_addr_t :=
  ip_of_bytes [0x20; 0x01; 0x0d; 0xb8; 0; 0; 0; 0; 0; 0; 0; 0; 0; 0; 0; 1].

Definition outbound_v6 (link_ seconds : Z) : ur_basic_flow_t :=
  mk_flow (ip_of_bytes [0x20; 0x01; 0x0d; 0xb8; 0; 1; 0; 0; 0; 0; 0; 0; 0; 0; 0; 9])
          v6_2001_db8_1 (seconds * 2 ^ 32) link_ 0 [].

Definition inbound_203 (link_ seconds : Z) : ur_basic_flow_t :=
  mk_flow (v4_addr 203 0 113 1) (v4_addr 192 0 2 5)
          (seconds * 2 ^ 32) link_ 1 [].

Definition inbound_v6 (link_ seconds : Z) : ur_basic_flow_t :=
  mk_flow v6_2001_db8_1
          (ip_of_bytes [0x20; 0x01; 0x0d; 0xb8; 0; 1; 0; 0; 0; 0; 0; 0; 0; 0; 0; 9])
          (seconds * 2 ^ 32) link_ 1 [].

(** The single watched prefix 2001:db8::/64. *)
Definition watch_2001_db8_64 : list ip_prefix_t :=
  [mk_prefix (ip_of_bytes [0x20; 0x01; 0x0d; 0xb8; 0; 0; 0; 0;
                           0; 0; 0; 0; 0; 0; 0; 0]) 64].

(** The single watched prefix 192.0.2.0/24, and an inbound record to
    192.0.2.10 from a.b.c.d. *)
Definition watch_192_0_2 : list ip_prefix_t :=
  [mk_prefix (v4_addr 192 0 2 0) 24].

Definition inbound_to_192_0_2_10 (a b c d : Z) : ur_basic_flow_t :=
  mk_flow (v4_addr a b c d) (v4_addr 192 0 2 10) 0 1 1 [].

(** One pair of empty buckets, as [create_nflow_filters] makes for one
    watched prefix, over exact sets. *)
Definition one_bucket_pair : filter_pair exact_set :=
  create_nflow_filters 1 (mk_pair (mk_filter []) (mk_filter [])).

(** Configurations of the examples: the bogon list {10.0.0.0/8}; no list
    at all; the watched list {192.0.2.0/24} with threshold 2. *)
Definition cfg_bogon_10 : config :=
  mk_config [mk_prefix (v4_addr 10 0 0 0) 8] [] [] []
            create_v4_mask_map (create_v6_mask_map shr64_x86) 45 1000.

Definition cfg_no_lists : config :=
  mk_config [] [] [] []
            create_v4_mask_map (create_v6_mask_map shr64_x86) 45 1000.

Definition cfg_watch_192_0_2 : config :=
  mk_config [] [] watch_192_0_2 []
            create_v4_mask_map (create_v6_mask_map shr64_x86) 45 2.

(** Contents of the uninitialised locals for the examples; the unset
    [search_result] holds a value other than 0. *)
Definition locals_7 : indeterminate :=
  mk_indet (mk_ip 7 7) (mk_ip 7 7) 7 (mk_ip 7 7) 7 7 (replicate 46 7).

(** The record of the first scenario: 10.1.2.3 to 8.8.8.8, outbound. *)
Definition from_10_1_2_3 : ur_basic_flow_t :=
  mk_flow (v4_addr 10 1 2 3) (v4_addr 8 8 8 8) 0 1 0 [].

(** The state after one inbound record to the watched network. *)
Definition detector_after_one_flow : detector exact_set :=
  match process_record unirec_ip_is4 bytes_as_text cfg_watch_192_0_2 locals_7
          (initial_detector cfg_watch_192_0_2) (inbound_to_192_0_2_10 10 0 0 1) with
  | Ret (d, _) => d
  | _ => initial_detector cfg_watch_192_0_2
  end.

(** A file system in which exactly one file, of the given name and
    contents, can be opened. *)
Definition only_file (name contents : string) : string -> option string :=
  fun asked => if String.eqb asked name then Some contents else None.

(** The prefix 172.16.0.0/12 and a record from 172.20.1.1, an address of
    its range; the prefix fc00::/7 and a record from fd00::1, an address
    of its range. *)
Definition prefix_172_16_12 : ip_prefix_t := mk_prefix (v4_addr 172 16 0 0) 12.

Definition from_172_20_1_1 : ur_basic_flow_t :=
  mk_flow (v4_addr 172 20 1 1) (v4_addr 8 8 8 8) 0 1 0 [].

Definition prefix_fc00_7 : ip_prefix_t :=
  mk_prefix (ip_of_bytes [0xfc; 0; 0; 0; 0; 0; 0; 0; 0; 0; 0; 0; 0; 0; 0; 0]) 7.

Definition from_fd00_1 : ur_basic_flow_t :=
  mk_flow (ip_of_bytes [0xfd; 0; 0; 0; 0; 0; 0; 0; 0; 0; 0; 0; 0; 0; 0; 1])
          v6_2001_db8_1 0 1 1 [].

(** A 32-bit value as the integer read from its bytes stored most
    significant byte first (what [htonl] gives on a little-endian
    machine). *)
Definition network_order_32 (x : Z) : Z := le_combine (rev (le_split 4 x)).

(** The watched prefix 2001:db8:1::/64, and a configuration with the
    bogon list {10.0.0.0/8} and one watched prefix per family. *)
Definition watch_2001_db8_1_64 : list ip_prefix_t :=
  [mk_prefix (ip_of_bytes [0x20; 0x01; 0x0d; 0xb8; 0; 1; 0; 0;
                           0; 0; 0; 0; 0; 0; 0; 0]) 64].

Definition cfg_watch_both : config :=
  mk_config [mk_prefix (v4_addr 10 0 0 0) 8] [] watch_192_0_2 watch_2001_db8_1_64
            create_v4_mask_map (create_v6_mask_map shr64_x86) 45 1000.

(** An inbound record whose source, 2001:db8:1::7, is an address of the
    watched network. *)
Definition inbound_v6_inside (link_ seconds : Z) : ur_basic_flow_t :=
  mk_flow (ip_of_bytes [0x20; 0x01; 0x0d; 0xb8; 0; 1; 0; 0; 0; 0; 0; 0; 0; 0; 0; 7])
          (ip_of_bytes [0x20; 0x01; 0x0d; 0xb8; 0; 1; 0; 0; 0; 0; 0; 0; 0; 0; 0; 9])
          (seconds * 2 ^ 32) link_ 1 [].

(** The state after an outbound record to 203.0.113.1 and an outbound
    record to 2001:db8::1, both on link 2 at second 1000. *)
Definition detector_after_outbound_both : detector exact_set :=
  match run unirec_ip_is4 bytes_as_text cfg_watch_both
          (initial_detector cfg_watch_both)
          [(locals_7, outbound_203 2 1000); (locals_7, outbound_v6 2 1000)] with
  | Ret (d, _) => d
  | _ => initial_detector cfg_watch_both
  end.

(** ** Notions used to state further properties *)

(** Two runs of a search stop the same way: same kind of result and, when
    they return, the same [hit], [search_result] and [mid]. *)
Definition same_outcome (x y : result search_exit) : Prop :=
  match x, y with
  | Ret s, Ret t =>
      hit s = hit t /\ search_result s = search_result t /\ mid s = mid t
  | Undefined, Undefined => True
  | Timeout, Timeout => True
  | _, _ => False
  end.

(** A loop body whose comparison does not depend on what [masked] held. *)
Definition blind_probe (probe : ip_addr_t -> Z -> result (Z * ip_addr_t)) : Prop :=
  forall s s' m,
    match probe s m, probe s' m with
    | Ret rt, Ret rt' => fst rt = fst rt'
    | Undefined, Undefined => True
    | Timeout, Timeout => True
    | _, _ => False
    end.

(** The four bytes of lane 2 read most significant byte first: the
    number of an IPv4 address. *)
Definition v4_number (a : ip_addr_t) : Z :=
  le_combine (rev (le_split 4 (ui32_2 a))).

(** The numbers of the addresses of an IPv4 prefix run from [v4_first] up
    to, and not including, [v4_past_last]. *)
Definition v4_first (p : ip_prefix_t) : Z := v4_number (ip p).
Definition v4_past_last (p : ip_prefix_t) : Z :=
  v4_number (ip p) + 2 ^ (32 - pref_length p).

(** A prefix of whole bytes (/0, /8, /16, /24 or /32) whose address has
    no bit set beyond its length. *)
Definition v4_whole_bytes (p : ip_prefix_t) : Prop :=
  (exists k, 0 <= k <= 4 /\ pref_length p = 8 * k)
  /\ v4_first p mod 2 ^ (32 - pref_length p) = 0.

(** A list of prefixes in increasing order whose ranges do not overlap. *)
Definition v4_disjoint_increasing (pl : list ip_prefix_t) : Prop :=
  forall (i j : nat) (p q : ip_prefix_t),
    (i < j)%nat -> pl !! i = Some p -> pl !! j = Some q ->
    v4_past_last p <= v4_first q.

(** The mask tables have the sizes of [ipv4_mask_map_t] and
    [ipv6_mask_map_t] and every prefix length of the lists is an index of
    its table. *)
Definition lengths_in_tables (cfg : config) : Prop :=
  length (v4_masks cfg) = 33%nat
  /\ length (v6_masks cfg) = 129%nat
  /\ Forall (fun p => 0 <= pref_length p <= 32)
            (bogon_list_v4 cfg ++ spec_list_v4 cfg)
  /\ Forall (fun p => 0 <= pref_length p <= 128)
            (bogon_list_v6 cfg ++ spec_list_v6 cfg).

(** Both sides hold one bucket per watched prefix, for both families. *)
Definition buckets_fit {B : Type} (cfg : config) (d : detector B) : Prop :=
  length (flows (bf_active (v4_flows d))) = length (spec_list_v4 cfg)
  /\ length (flows (bf_learning (v4_flows d))) = length (spec_list_v4 cfg)
  /\ length (flows (bf_active (v6_flows d))) = length (spec_list_v6 cfg)
  /\ length (flows (bf_learning (v6_flows d))) = length (spec_list_v6 cfg).

(** The states the loop can be in after exactly [n] iterations. *)
Inductive reachable_in {B : Type} `{Bloom B}
    (ip_is4 : ip_addr_t -> bool) (ip_to_str : ip_addr_t -> list Z)
    (cfg : config) : nat -> detector B -> Prop :=
  | reach_in_init : reachable_in ip_is4 ip_to_str cfg 0 (initial_detector cfg)
  | reach_in_step n g d record d' out :
      reachable_in ip_is4 ip_to_str cfg n d ->
      process_record ip_is4 ip_to_str cfg g d record = Ret (d', out) ->
      reachable_in ip_is4 ip_to_str cfg (S n) d'.

(** Every active count lies between 0 and [n]. *)
Definition counts_at_most {B : Type} (n : nat) (d : detector B) : Prop :=
  Forall (fun c => 0 <= c <= Z.of_nat n) (count <$> flows (bf_active (v4_flows d)))
  /\ Forall (fun c => 0 <= c <= Z.of_nat n) (count <$> flows (bf_active (v6_flows d))).

(** The state after two inbound records to the watched network from
    different /24 networks. *)
Definition detector_after_two_flows : detector exact_set :=
  match process_record unirec_ip_is4 bytes_as_text cfg_watch_192_0_2 locals_7
          detector_after_one_flow (inbound_to_192_0_2_10 10 0 1 1) with
  | Ret (d, _) => d
  | _ => detector_after_one_flow
  end.

(** Every entry of [src] is still in [src'], with at least its link bits
    set. *)
Definition links_kept (src src' : gmap Z sym_src_t) : Prop :=
  forall (k : Z) (e : sym_src_t),
    src !! k = Some e ->
    exists e', src' !! k = Some e' /\ Z.land (link e) (link e') = link e.

(** The sixteen bytes of an address read most significant byte first. *)
Definition v6_number (a : ip_addr_t) : Z := le_combine (rev (ui8 a)).

(** A list in non-decreasing order of [key]. *)
Fixpoint ordered_by {A : Type} (key : A -> Z) (l : list A) : Prop :=
  match l with
  | [] => True
  | x :: l' => Forall (fun y => key x <= key y) l' /\ ordered_by key l'
  end.

(** ** Releasing the Bloom filters *)

(** For [destroy_filters] a bucket holds the address of its Bloom filter
    ([bloom_filter *sources]) and [live] is the set of the addresses that
    were allocated and not yet deleted.  [delete] on an address that is
    not live (deleted before, or never allocated) is undefined. *)
Definition delete_object (p : positive) (live : gset positive)
    : result (gset positive) :=
  if decide (p ∈ live) then Ret (live ∖ {[p]}) else Undefined.

(** The loop of [destroy_filters] from index [i], with [todo] iterations
    left: the filter of the active side, then that of the learning side. *)
Fixpoint destroy_loop (filters : filter_pair positive) (i : Z) (todo : nat)
    (live : gset positive) : result (gset positive) :=
  match todo with
  | O => Ret live
  | S todo' =>
      fa <~ index (flows (bf_active filters)) i ;;
      live1 <~ delete_object (sources fa) live ;;
      fl <~ index (flows (bf_learning filters)) i ;;
      live2 <~ delete_object (sources fl) live1 ;;
      destroy_loop filters (i + 1) todo' live2
  end.

(** [destroy_filters]: the loop runs over the size of the active vector;
    both calls of [clear] after it are on the active vector. *)
Definition destroy_filters (filters : filter_pair positive) (live : gset positive)
    : result (filter_pair positive * gset positive) :=
  live' <~ destroy_loop filters 0 (length (flows (bf_active filters))) live ;;
  Ret (mk_pair (mk_filter []) (bf_learning filters), live').

(** A pair of two buckets each, over four filters. *)
Definition four_filters : filter_pair positive :=
  mk_pair (mk_filter [mk_count 1%positive 0; mk_count 2%positive 3])
          (mk_filter [mk_count 3%positive 0; mk_count 4%positive 3]).

(** ** The main loop over what [trap_get_data] delivers *)

(** One pass of the [while] loop as the module sees it: the value of
    [stop] at the loop test, what [trap_get_data] returns and stores in
    [data_size] and [data], and the contents of the uninitialised locals
    of the pass. *)
Record delivery : Type := mk_delivery {
  stop_seen : bool;
  get_retval : Z;
  data_size : Z;
  locals : indeterminate;
  data : ur_basic_flow_t
}.

(** The ways out of the loop ([no_more_input]: the deliveries observed
    are used up). *)
Inductive loop_end : Type :=
  | stop_set
  | trap_terminated
  | receive_error (retval : Z)
  | end_of_data
  | wrong_data_size (received : Z)
  | no_more_input.

Section MainLoop.
Context {B : Type} `{Bloom B}.
Variable ip_is4 : ip_addr_t -> bool.
Variable ip_to_str : ip_addr_t -> list Z.
(** [TRAP_E_TERMINATED] of trap.h and [sizeof(ur_basic_flow_t)] of
    unirec.h, which are not among the sources. *)
Variable TRAP_E_TERMINATED : Z.
Variable sizeof_ur_basic_flow_t : Z.

(** The tests at the head of the loop body: the loop condition, the
    return value of [trap_get_data], the size of the data. *)
Definition loop_exit (m : delivery) : option loop_end :=
  if stop_seen m then Some stop_set
  else if negb (get_retval m =? trap_code TRAP_E_OK) then
    if get_retval m =? TRAP_E_TERMINATED then Some trap_terminated
    else Some (receive_error (get_retval m))
  else if negb (data_size m =? sizeof_ur_basic_flow_t) then
    if data_size m <=? 1 then Some end_of_data
    else Some (wrong_data_size (data_size m))
  else None.

(** The loop: the state it ends in, the records sent, and the way out.
    (What is written to [cerr] on the way out is left out.) *)
Fixpoint main_loop (cfg : config) (d : detector B) (input : list delivery)
    : result (detector B * list ur_basic_flow_t * loop_end) :=
  match input with
  | [] => Ret (d, [], no_more_input)
  | m :: rest =>
      match loop_exit m with
      | Some why => Ret (d, [], why)
      | None =>
          ds <~ process_record ip_is4 ip_to_str cfg (locals m) d (data m) ;;
          dr <~ main_loop cfg (fst ds) rest ;;
          Ret (fst (fst dr),
               match snd ds with
               | Some r => r :: snd (fst dr)
               | None => snd (fst dr)
               end,
               snd dr)
      end
  end.
End MainLoop.

(** A delivery of a record of 88 bytes, and the end-of-data message. *)
Definition deliver_88 (g : indeterminate) (record : ur_basic_flow_t) : delivery :=
  mk_delivery false 0 88 g record.
Definition deliver_end (g : indeterminate) (record : ur_basic_flow_t) : delivery :=
  mk_delivery false 0 1 g record.

(** * Properties *)

(** ** The scenarios of the design document, evaluated *)

(** Bogon set {10.0.0.0/8}: the record from 10.1.2.3 is flagged. *)
Example scenario_v4_bogon_hit :
  bogon_stage unirec_ip_is4 cfg_bogon_10 locals_7 from_10_1_2_3 = Ret SPOOF_POSITIVE.
Proof. reflexivity. Qed.

(** Outbound learning on link 2, then an inbound record on link 2: both
    NEGATIVE, and the entry of 203.0.113.0 holds link 2. *)
Example scenario_learning_then_confirmation :
  exists d,
    run (B := exact_set) unirec_ip_is4 bytes_as_text cfg_no_lists
        (initial_detector cfg_no_lists)
        [(locals_7, outbound_203 2 1000); (locals_7, inbound_203 2 1000)]
    = Ret (d, [])
    /\ link <$> v4_route_sym d !! 0xCB007100 = Some 2.
Proof. eexists. split; [vm_compute; reflexivity|reflexivity]. Qed.

(** The same learning, then an inbound record on link 4 ten seconds
    later: it is flagged and sent. *)
Example scenario_asymmetric_inbound :
  exists d,
    run (B := exact_set) unirec_ip_is4 bytes_as_text cfg_no_lists
        (initial_detector cfg_no_lists)
        [(locals_7, outbound_203 2 1000); (locals_7, inbound_203 4 1010)]
    = Ret (d, [inbound_203 4 1010]).
Proof. eexists. vm_compute; reflexivity. Qed.

(** Watched set {192.0.2.0/24}, threshold 2, three sources in distinct
    /24 networks: the third record is flagged and the count is 3. *)
Example scenario_new_flow_threshold :
  exists d,
    run (B := exact_set) unirec_ip_is4 bytes_as_text cfg_watch_192_0_2
        (initial_detector cfg_watch_192_0_2)
        [(locals_7, inbound_to_192_0_2_10 10 0 0 1);
         (locals_7, inbound_to_192_0_2_10 10 0 1 1);
         (locals_7, inbound_to_192_0_2_10 10 0 2 1)]
    = Ret (d, [inbound_to_192_0_2_10 10 0 2 1])
    /\ count <$> flows (bf_active (v4_flows d)) = [3].
Proof. eexists. split; [vm_compute; reflexivity|reflexivity]. Qed.

(** Bogon prefix 2001:db8::/32: the record from 2001:db8:1::1 is
    flagged. *)
Example scenario_v6_bogon_hit :
  v6_bogon_filter
    (mk_flow (ip_of_bytes [0x20; 0x01; 0x0d; 0xb8; 0; 1; 0; 0; 0; 0; 0; 0; 0; 0; 0; 1])
             v6_2001_db8_1 0 1 0 [])
    [mk_prefix (ip_of_bytes [0x20; 0x01; 0x0d; 0xb8; 0; 0; 0; 0;
                             0; 0; 0; 0; 0; 0; 0; 0]) 32]
    (create_v6_mask_map shr64_x86) (mk_ip 7 7)
  = Ret SPOOF_POSITIVE.
Proof. reflexivity. Qed.

(** ** Bounded quantification by evaluation *)

Lemma Forall_seqZ_elim (P : Z -> Prop) (a n : Z) :
  Forall P (seqZ a n) -> forall L, a <= L < a + n -> P L.
Proof.
  intros HF L HL. rewrite Forall_forall in HF. apply HF.
  apply elem_of_seqZ. lia.
Qed.

Ltac by_evaluation := apply (bool_decide_unpack _); vm_compute; exact I.

(** ** The tables, entry by entry *)

Lemma v4_mask_entries :
  Forall (fun L => v4_mask_at create_v4_mask_map L = Some (Z.ones L)) (seqZ 0 33).
Proof. by_evaluation. Qed.

Lemma v4_mask_entries_shift :
  Forall (fun L => Z.ones L = Z.shiftr ones32 (32 - L)) (seqZ 0 33).
Proof. by_evaluation. Qed.

Lemma v6_mask_entries_low_half (undef : Z -> Z -> Z) :
  Forall (fun L => v6_mask_at (create_v6_mask_map undef) L
                   = Some (Z.shiftr ones64 (64 - L), 0)) (seqZ 0 64).
Proof.
  repeat (apply Forall_cons; split; [reflexivity|]). apply Forall_nil. done.
Qed.

Lemma v6_mask_entries_high_half (undef : Z -> Z -> Z) :
  Forall (fun L => fst <$> v6_mask_at (create_v6_mask_map undef) L = Some ones64)
         (seqZ 64 65).
Proof.
  repeat (apply Forall_cons; split; [reflexivity|]). apply Forall_nil. done.
Qed.

Lemma v6_mask_entries_first_word (undef : Z -> Z -> Z) :
  Forall (fun L => fst <$> v6_mask_at (create_v6_mask_map undef) L
                   = Some (Z.ones (Z.min L 64))) (seqZ 0 129).
Proof.
  repeat (apply Forall_cons; split; [reflexivity|]). apply Forall_nil. done.
Qed.

(** The second word of entry 64 is all ones (the count [64 - 64] is 0 and
    the test [i < 64] sends 64 to the second branch); from 65 on it is
    the result of a shift by a negative count. *)
Lemma v6_mask_entry_64 (undef : Z -> Z -> Z) :
  v6_mask_at (create_v6_mask_map undef) 64 = Some (ones64, ones64).
Proof. reflexivity. Qed.

Lemma v6_mask_entry_65 (undef : Z -> Z -> Z) :
  v6_mask_at (create_v6_mask_map undef) 65 = Some (ones64, undef ones64 (-1)).
Proof. reflexivity. Qed.

(** ** Monotonicity of the parts of the tables that are defined *)

Lemma v4_mask_monotone (L : Z) :
  1 <= L <= 32 ->
  exists m m', v4_mask_at create_v4_mask_map L = Some m
            /\ v4_mask_at create_v4_mask_map (L - 1) = Some m'
            /\ Z.land m m' = m'.
Proof.
  intros HL.
  assert (HF : Forall (fun L =>
            exists m m', v4_mask_at create_v4_mask_map L = Some m
                      /\ v4_mask_at create_v4_mask_map (L - 1) = Some m'
                      /\ Z.land m m' = m') (seqZ 1 32)).
  { repeat (apply Forall_cons; split;
            [eexists _, _; split; [reflexivity|split; reflexivity]|]).
    apply Forall_nil. done. }
  apply (Forall_seqZ_elim _ _ _ HF). lia.
Qed.

Lemma v6_mask_first_word_monotone (undef : Z -> Z -> Z) (L : Z) :
  1 <= L <= 128 ->
  exists m m', fst <$> v6_mask_at (create_v6_mask_map undef) L = Some m
            /\ fst <$> v6_mask_at (create_v6_mask_map undef) (L - 1) = Some m'
            /\ Z.land m m' = m'.
Proof.
  intros HL.
  assert (HF : Forall (fun L =>
            exists m m', fst <$> v6_mask_at (create_v6_mask_map undef) L = Some m
                      /\ fst <$> v6_mask_at (create_v6_mask_map undef) (L - 1) = Some m'
                      /\ Z.land m m' = m') (seqZ 1 128)).
  { repeat (apply Forall_cons; split;
            [eexists _, _; split; [reflexivity|split; reflexivity]|]).
    apply Forall_nil. done. }
  apply (Forall_seqZ_elim _ _ _ HF). lia.
Qed.

Lemma v6_mask_second_word_monotone_to_64 (undef : Z -> Z -> Z) (L : Z) :
  1 <= L <= 64 ->
  exists m m', snd <$> v6_mask_at (create_v6_mask_map undef) L = Some m
            /\ snd <$> v6_mask_at (create_v6_mask_map undef) (L - 1) = Some m'
            /\ Z.land m m' = m'.
Proof.
  intros HL.
  assert (HF : Forall (fun L =>
            exists m m', snd <$> v6_mask_at (create_v6_mask_map undef) L = Some m
                      /\ snd <$> v6_mask_at (create_v6_mask_map undef) (L - 1) = Some m'
                      /\ Z.land m m' = m') (seqZ 1 64)).
  { repeat (apply Forall_cons; split;
            [eexists _, _; split; [reflexivity|split; reflexivity]|]).
    apply Forall_nil. done. }
  apply (Forall_seqZ_elim _ _ _ HF). lia.
Qed.

(** ** The mask tables hold right shifts *)

(** The tables hold right shifts of the all-ones word: for every L in
    0..32 the IPv4 entry is 0xFFFFFFFF >> (32-L), which is 0 at L = 0;
    for every L in 0..63 the IPv6 entry has first word ~0 >> (64-L) and
    second word 0; for every L in 64..128 the first word is ~0.  This
    holds whatever a shift by an out-of-range count gives. *)
Lemma mask_tables_shift_right (undef : Z -> Z -> Z) (L : Z) :
  0 <= L <= 128 ->
  (L <= 32 -> v4_mask_at create_v4_mask_map L = Some (Z.shiftr ones32 (32 - L)))
  /\ (L < 64 -> v6_mask_at (create_v6_mask_map undef) L
                = Some (Z.shiftr ones64 (64 - L), 0))
  /\ (64 <= L -> fst <$> v6_mask_at (create_v6_mask_map undef) L = Some ones64).
Proof.
  intros HL. split; [|split]; intros HL'.
  - rewrite <- (Forall_seqZ_elim _ _ _ v4_mask_entries_shift L) by lia.
    apply (Forall_seqZ_elim _ _ _ v4_mask_entries). lia.
  - apply (Forall_seqZ_elim _ _ _ (v6_mask_entries_low_half undef)). lia.
  - apply (Forall_seqZ_elim _ _ _ (v6_mask_entries_high_half undef)). lia.
Qed.

(** ** C6: monotonicity of the masks *)

(** C6 at L = 65: the second word of entry 64 is all ones and that of
    entry 65 is the result of shifting by -1, so the equality
    [m65 & m64 = m64] needs that undefined shift to give all ones; with
    the count taken modulo 64 it gives 1 and the equality fails. *)
Theorem C6_second_word_not_monotone_at_65 :
  (forall undef,
     snd <$> v6_mask_at (create_v6_mask_map undef) 64 = Some ones64
     /\ snd <$> v6_mask_at (create_v6_mask_map undef) 65 = Some (undef ones64 (-1)))
  /\ snd <$> v6_mask_at (create_v6_mask_map shr64_x86) 65 = Some 1
  /\ Z.land 1 ones64 <> ones64.
Proof.
  split; [intros undef; split; reflexivity|].
  split; [reflexivity|]. discriminate.
Qed.

(** ** C2: learning from outbound records *)

(** The outbound branch always answers NEGATIVE. *)
Lemma check_symetry_v4_outbound_negative record src rw_time :
  dirbitfield record = 0 ->
  fst (check_symetry_v4 record src rw_time) = SPOOF_NEGATIVE.
Proof.
  intros Hd. unfold check_symetry_v4. rewrite Hd. cbn [Z.eqb].
  destruct (src !! _); [destruct (within_rw_time _ _ _)|]; reflexivity.
Qed.

Lemma check_symetry_v6_outbound_negative record src rw_time ts0 :
  dirbitfield record = 0 ->
  fst (fst (check_symetry_v6 record src rw_time ts0)) = SPOOF_NEGATIVE.
Proof.
  intros Hd. unfold check_symetry_v6. cbn [swap_address_halves dirbitfield].
  rewrite Hd. cbn [Z.eqb].
  destruct (src !! _); [destruct (within_rw_time _ _ _)|]; reflexivity.
Qed.

(** An entry inside the rewrite window takes the record's link bits and
    its time (IPv4). *)
Lemma check_symetry_v4_outbound_update record src rw_time e :
  dirbitfield record = 0 ->
  let key := Z.land (ip_get_v4_as_int (dst_addr record)) 0xFFFFFF00 in
  src !! key = Some e ->
  within_rw_time (first record) (timestamp e) rw_time = true ->
  snd (check_symetry_v4 record src rw_time) !! key
  = Some {| link := Z.lor (link e) (linkbitfield record);
            timestamp := first record |}.
Proof.
  intros Hd key He Hw. unfold check_symetry_v4. rewrite Hd. cbn [Z.eqb].
  fold key. rewrite He, Hw. cbn [snd]. apply lookup_insert_eq.
Qed.

(** A key that is absent gets the record's link bits and time (IPv4). *)
Lemma check_symetry_v4_outbound_new record src rw_time :
  dirbitfield record = 0 ->
  let key := Z.land (ip_get_v4_as_int (dst_addr record)) 0xFFFFFF00 in
  src !! key = None ->
  snd (check_symetry_v4 record src rw_time) !! key
  = Some {| link := linkbitfield record; timestamp := first record |}.
Proof.
  intros Hd key He. unfold check_symetry_v4. rewrite Hd. cbn [Z.eqb].
  fold key. rewrite He. cbn [snd]. unfold map_insert_if_absent. rewrite He.
  apply lookup_insert_eq.
Qed.

(** An entry outside the rewrite window stays as it is: the insertion
    that should replace it does nothing on a key that is present. *)
Lemma check_symetry_v4_outbound_stale record src rw_time e :
  dirbitfield record = 0 ->
  src !! Z.land (ip_get_v4_as_int (dst_addr record)) 0xFFFFFF00 = Some e ->
  within_rw_time (first record) (timestamp e) rw_time = false ->
  check_symetry_v4 record src rw_time = (SPOOF_NEGATIVE, src).
Proof.
  intros Hd He Hw. unfold check_symetry_v4. rewrite Hd. cbn [Z.eqb].
  rewrite He, Hw. unfold map_insert_if_absent. rewrite He. reflexivity.
Qed.

(** ** Symmetry learning (IPv4) *)

(** Outbound records to one aggregated destination that each pass the
    window test accumulate their link bits by OR in the entry. *)
Lemma learn_v4_accumulates (records : list ur_basic_flow_t) :
  forall (src : gmap Z sym_src_t) (rw_time key : Z) (e : sym_src_t),
    src !! key = Some e ->
    within_window_chain key rw_time (timestamp e) records ->
    link <$> learn_v4 records src rw_time !! key
    = Some (fold_left Z.lor (linkbitfield <$> records) (link e)).
Proof.
  induction records as [|record rest IH]; intros src rw_time key e He Hch.
  - cbn. rewrite He. reflexivity.
  - destruct Hch as (Hd & Hk & Hw & Hrest). cbn [learn_v4 fmap list_fmap fold_left].
    subst key.
    pose proof (check_symetry_v4_outbound_update record src rw_time e Hd He Hw) as Hu.
    cbv zeta in Hu.
    apply (IH _ rw_time _ _ Hu). exact Hrest.
Qed.

(** The first of them, on a key that is absent, starts the entry. *)
Lemma learn_v4_from_absent (record : ur_basic_flow_t)
    (rest : list ur_basic_flow_t) (src : gmap Z sym_src_t) (rw_time : Z) :
  let key := Z.land (ip_get_v4_as_int (dst_addr record)) 0xFFFFFF00 in
  dirbitfield record = 0 ->
  src !! key = None ->
  within_window_chain key rw_time (first record) rest ->
  link <$> learn_v4 (record :: rest) src rw_time !! key
  = Some (fold_left Z.lor (linkbitfield <$> rest) (linkbitfield record)).
Proof.
  intros key Hd Hn Hch. cbn [learn_v4].
  pose proof (check_symetry_v4_outbound_new record src rw_time Hd Hn) as Hu.
  cbv zeta in Hu. fold key in Hu.
  exact (learn_v4_accumulates rest _ rw_time key _ Hu Hch).
Qed.

(** C2 on the code.  (a) IPv4: the first record creates the entry
    {link 2, time 1000 s}; the second comes 100 s later, outside the
    window of 45, and the entry is still {link 2, time 1000 s}, not
    {link 4, time 1100 s}.  (b) IPv6: the entry created holds the
    record's link bits and, as time, whatever the unwritten field held. *)
Theorem C2_stale_entry_kept_and_v6_time_unset :
  (let m1 := snd (check_symetry_v4 (outbound_203 2 1000) ∅ 45) in
   let m2 := snd (check_symetry_v4 (outbound_203 4 1100) m1 45) in
   m1 !! 0xCB007100 = Some (mk_sym 2 (1000 * 2 ^ 32))
   /\ within_rw_time (first (outbound_203 4 1100)) (1000 * 2 ^ 32) 45 = false
   /\ m2 !! 0xCB007100 = Some (mk_sym 2 (1000 * 2 ^ 32)))
  /\ (forall ts0,
        snd (check_symetry_v6 (outbound_v6 2 1000) ∅ 45 ts0)
          !! ui64_0 (swap_halves (ip_from_16_bytes_le v6_2001_db8_1))
        = Some (mk_sym 2 ts0)).
Proof.
  split; [split; [|split]|intros ts0]; reflexivity.
Qed.

(** ** C4: the check of inbound records *)

Lemma to_int_zero (x : Z) : (to_int x =? 0) = (x mod 2 ^ 32 =? 0).
Proof.
  unfold to_int. cbv zeta.
  pose proof (Z.mod_pos_bound x (2 ^ 32) ltac:(lia)) as Hb.
  destruct (x mod 2 ^ 32 <? 2 ^ 31) eqn:Hlt; [reflexivity|].
  apply Z.ltb_ge in Hlt.
  destruct (Z.eqb_spec (x mod 2 ^ 32 - 2 ^ 32) 0) as [He|He];
    destruct (Z.eqb_spec (x mod 2 ^ 32) 0) as [He'|He']; try reflexivity; lia.
Qed.

(** What the inbound branch computes: POSITIVE exactly when the low 32
    bits of the AND are zero, NEGATIVE when the key is absent; the map is
    not touched. *)
Lemma check_symetry_v4_inbound record src rw_time :
  dirbitfield record <> 0 ->
  check_symetry_v4 record src rw_time
  = (match src !! Z.land (ip_get_v4_as_int (src_addr record)) 0xFFFFFF00 with
     | Some e =>
         if Z.land (link e) (linkbitfield record) mod 2 ^ 32 =? 0
         then SPOOF_POSITIVE else SPOOF_NEGATIVE
     | None => SPOOF_NEGATIVE
     end, src).
Proof.
  intros Hd. unfold check_symetry_v4.
  destruct (Z.eqb_spec (dirbitfield record) 0) as [|_]; [contradiction|].
  destruct (src !! _) as [e|]; [|reflexivity].
  cbv zeta. rewrite to_int_zero. destruct (_ =? 0); reflexivity.
Qed.

Lemma check_symetry_v6_inbound record src rw_time ts0 :
  dirbitfield record <> 0 ->
  check_symetry_v6 record src rw_time ts0
  = (match src !! ui64_0 (src_addr (swap_address_halves record)) with
     | Some e =>
         if Z.land (link e) (linkbitfield record) mod 2 ^ 32 =? 0
         then SPOOF_POSITIVE else SPOOF_NEGATIVE
     | None => SPOOF_NEGATIVE
     end, swap_address_halves record, src).
Proof.
  intros Hd. unfold check_symetry_v6. cbv zeta.
  change (dirbitfield (swap_address_halves record)) with (dirbitfield record).
  change (linkbitfield (swap_address_halves record)) with (linkbitfield record).
  destruct (Z.eqb_spec (dirbitfield record) 0) as [|_]; [contradiction|].
  destruct (src !! _) as [e|]; [|reflexivity].
  rewrite to_int_zero. destruct (_ =? 0); reflexivity.
Qed.

(** C4 on the code: an outbound record on link bit 32 teaches the entry
    {link 2^32}; an inbound record from the same network on the same link
    has a non-zero 64-bit AND with it, and is answered POSITIVE, for IPv4
    and for IPv6: the AND is stored in an [int] before the test. *)
Theorem C4_link_test_keeps_low_32_bits :
  (let m := snd (check_symetry_v4 (outbound_203 (2 ^ 32) 1000) ∅ 45) in
   m !! 0xCB007100 = Some (mk_sym (2 ^ 32) (1000 * 2 ^ 32))
   /\ Z.land (2 ^ 32) (linkbitfield (inbound_203 (2 ^ 32) 1001)) = 2 ^ 32
   /\ check_symetry_v4 (inbound_203 (2 ^ 32) 1001) m 45 = (SPOOF_POSITIVE, m))
  /\ (let m := snd (check_symetry_v6 (outbound_v6 (2 ^ 32) 1000) ∅ 45 0) in
      let key := ui64_0 (swap_halves (ip_from_16_bytes_le v6_2001_db8_1)) in
      m !! key = Some (mk_sym (2 ^ 32) 0)
      /\ fst (fst (check_symetry_v6 (inbound_v6 (2 ^ 32) 1001) m 45 0))
         = SPOOF_POSITIVE).
Proof.
  split; [split; [|split]|split]; reflexivity.
Qed.

(** ** The search loop *)

Section SearchFacts.
Variable probe : ip_addr_t -> Z -> result (Z * ip_addr_t).

Lemma midpoint_between (b e : Z) :
  b <= e -> b <= Z.shiftr (b + e) 1 <= e.
Proof.
  intros Hbe. rewrite Z.shiftr_div_pow2 by lia. change (2 ^ 1) with 2.
  split.
  - apply Z.div_le_lower_bound; lia.
  - apply Z.div_le_upper_bound; lia.
Qed.

(** The fuel [search] hands to the loop is never used up. *)
Lemma search_loop_no_timeout (fuel : nat) :
  (forall s m, probe s m <> Timeout) ->
  forall b e st,
    e - b + 1 <= Z.of_nat fuel ->
    search_loop probe fuel b e st <> Timeout.
Proof.
  intros Hp. induction fuel as [|fuel IH]; intros b e st Hsz; cbn [search_loop].
  - destruct (Z.leb_spec b e); [lia|discriminate].
  - destruct (Z.leb_spec b e) as [Hbe|]; [|discriminate].
    pose proof (midpoint_between b e Hbe) as Hm.
    destruct (probe (masked st) (Z.shiftr (b + e) 1)) as [[r mk]| |] eqn:Hpr;
      cbn [bind fst snd]; [|discriminate|exfalso; exact (Hp _ _ Hpr)].
    destruct (r <? 0); [apply IH; lia|].
    destruct (r =? 0); [discriminate|apply IH; lia].
Qed.

Lemma search_no_timeout (size : nat) (r0 m0 : Z) (masked0 : ip_addr_t) :
  (forall s m, probe s m <> Timeout) ->
  search probe size r0 m0 masked0 <> Timeout.
Proof. intros Hp. apply search_loop_no_timeout; [exact Hp|lia]. Qed.

(** How a search can stop: on an equal comparison at a midpoint of the
    interval; without entering the loop, the locals untouched; or after
    a last comparison that was not equal. *)
Lemma search_loop_exit (fuel : nat) :
  forall b e st0 st,
    search_loop probe fuel b e st0 = Ret st ->
    (hit st = true /\ search_result st = 0 /\ b <= mid st <= e)
    \/ (e < b /\ st = st0)
    \/ (hit st = false /\ b <= e /\ search_result st <> 0).
Proof.
  induction fuel as [|fuel IH]; intros b e st0 st; cbn [search_loop].
  - destruct (Z.leb_spec b e); [discriminate|].
    intros [= <-]. right. left. split; [lia|reflexivity].
  - destruct (Z.leb_spec b e) as [Hbe|]; 
      [|intros [= <-]; right; left; split; [lia|reflexivity]].
    pose proof (midpoint_between b e Hbe) as Hm.
    destruct (probe (masked st0) (Z.shiftr (b + e) 1)) as [[r mk]| |];
      cbn [bind fst snd]; [|discriminate|discriminate].
    destruct (Z.ltb_spec r 0) as [Hneg|Hnneg].
    { intros Hs. apply IH in Hs.
      destruct Hs as [(Hh & Hr & Hmid)|[(Hlt & ->)|(Hh & Hle & Hr)]].
      - left. repeat split; try assumption; lia.
      - right. right. cbn. repeat split; lia.
      - right. right. repeat split; try assumption; lia. }
    destruct (Z.eqb_spec r 0) as [Hz|Hnz].
    { intros [= <-]. left. cbn. repeat split; lia. }
    intros Hs. apply IH in Hs.
    destruct Hs as [(Hh & Hr & Hmid)|[(Hlt & ->)|(Hh & Hle & Hr)]].
    + left. repeat split; try assumption; lia.
    + right. right. cbn. repeat split; lia.
    + right. right. repeat split; try assumption; lia.
Qed.

(** On a list that is not empty the loop runs, so the search stops
    either on a match, with [search_result] 0 and [mid] an index of the
    list, or without one, with [search_result] not 0, whatever the
    locals held on entry. *)
Lemma search_nonempty_exit (size : nat) (r0 m0 : Z) (masked0 : ip_addr_t)
    (st : search_exit) :
  size <> O ->
  search probe size r0 m0 masked0 = Ret st ->
  (hit st = true /\ search_result st = 0
   /\ 0 <= mid st < Z.of_nat size)
  \/ (hit st = false /\ search_result st <> 0).
Proof.
  intros Hsz Hs. apply search_loop_exit in Hs.
  destruct Hs as [(Hh & Hr & Hmid)|[(Hlt & _)|(Hh & _ & Hr)]].
  - left. repeat split; try assumption; lia.
  - lia.
  - right. split; assumption.
Qed.

(** A list of one prefix that does not compare equal. *)
Lemma search_singleton_miss (r0 m0 : Z) (masked0 : ip_addr_t)
    (r : Z) (mk : ip_addr_t) :
  probe masked0 0 = Ret (r, mk) -> r <> 0 ->
  search probe 1 r0 m0 masked0 = Ret (mk_exit false r 0 mk).
Proof.
  intros Hp Hr. unfold search. change (Z.of_nat 1 - 1) with 0.
  cbn [search_loop]. change (0 <=? 0) with true. cbv iota.
  change (Z.shiftr (0 + 0) 1) with 0. cbn [masked]. rewrite Hp.
  cbn [bind fst snd].
  destruct (Z.ltb_spec r 0) as [Hneg|Hnneg]; [reflexivity|].
  destruct (Z.eqb_spec r 0) as [|_]; [contradiction|]. reflexivity.
Qed.

(** On the empty list the loop does not run and the locals come out as
    they went in. *)
Lemma search_empty (r0 m0 : Z) (masked0 : ip_addr_t) :
  search probe 0 r0 m0 masked0 = Ret (mk_exit false r0 m0 masked0).
Proof. reflexivity. Qed.
End SearchFacts.

(** ** C5: the lookup of the IPv6 new-flow filter against that of the bogon filter *)

Lemma memcmp_zero_take (n : nat) :
  forall p q : list Z,
    memcmp p q n = 0 ->
    (n <= length p)%nat -> (n <= length q)%nat ->
    take n p = take n q.
Proof.
  induction n as [|n IH]; intros p q Hc Hp Hq; [reflexivity|].
  destruct p as [|x p]; [cbn in Hp; lia|].
  destruct q as [|y q]; [cbn in Hq; lia|].
  cbn [memcmp] in Hc. cbn [take]. cbn [length] in Hp, Hq.
  destruct (Z.eqb_spec x y) as [->|Hne]; [|lia].
  f_equal. apply IH; [assumption|lia|lia].
Qed.

(** The two loop bodies differ in their branch test only: they agree on
    a prefix exactly when they take the same branch. *)
Lemma v6_probes_same_branch mm pl a masked m p :
  index pl m = Ret p ->
  (pref_length p <=? 64) = (64 <? pref_length p) ->
  v6_new_flows_probe mm pl a masked m = v6_bogon_probe mm pl a masked m.
Proof.
  intros Hp Hb. unfold v6_new_flows_probe, v6_bogon_probe.
  rewrite Hp. cbn [bind]. rewrite Hb. reflexivity.
Qed.

(** No prefix length takes the same branch in both. *)
Lemma v6_probes_branch_tests_opposite (len : Z) :
  (len <=? 64) = negb (64 <? len).
Proof. destruct (Z.leb_spec len 64), (Z.ltb_spec 64 len); try reflexivity; lia. Qed.

(** C5 on the code: with 2001:db8::/64 as the only prefix and a record
    from 2001:db8::1, the search of [v6_bogon_filter] stops on a match at
    index 0 and the filter answers POSITIVE, while the search of
    [check_new_flows_v6] on the same address and list stops without a
    match and the filter answers NEGATIVE, whatever the mask table holds
    beyond entry 64 and whatever the uninitialised locals held.  For this
    length of at most 64 the bogon filter masks and compares the first
    half; the new-flow filter masks the second half (with the all-ones
    second word of entry 64) and compares all 16 bytes. *)
Theorem C5_new_flows_lookup_misses_what_bogon_lookup_finds :
  forall (B : Type) (HB : Bloom B) (ip_to_str : ip_addr_t -> list Z)
         (undef : Z -> Z -> Z) (masked0 : ip_addr_t) (r0 m0 : Z)
         (threshold : Z) (filter : filter_pair B) (ip_key0 : list Z),
    let record := inbound_v6 1 0 in
    let mm := create_v6_mask_map undef in
    src_addr record = v6_2001_db8_1
    /\ (exists st,
          search (v6_bogon_probe mm watch_2001_db8_64 (src_addr record))
                 1 r0 m0 masked0 = Ret st
          /\ hit st = true /\ mid st = 0)
    /\ v6_bogon_filter record watch_2001_db8_64 mm masked0 = Ret SPOOF_POSITIVE
    /\ (exists st,
          search (v6_new_flows_probe mm watch_2001_db8_64 (src_addr record))
                 1 r0 m0 masked0 = Ret st
          /\ hit st = false /\ search_result st <> 0)
    /\ check_new_flows_v6 ip_to_str record threshold filter mm watch_2001_db8_64
                          masked0 r0 m0 ip_key0
       = Ret (SPOOF_NEGATIVE, filter).
Proof.
  intros B HB ip_to_str undef [h l] r0 m0 threshold filter ip_key0 record mm.
  set (P := ip_of_bytes [0x20; 0x01; 0x0d; 0xb8; 0; 0; 0; 0;
                          0; 0; 0; 0; 0; 0; 0; 0]).
  set (mk' := set_ui64_1 (mk_ip h l) (Z.land (ui64_1 v6_2001_db8_1) ones64)).
  assert (Hp : v6_new_flows_probe mm watch_2001_db8_64 (src_addr record)
                 (mk_ip h l) 0
               = Ret (memcmp (ui8 P) (ui8 mk') 16, mk')) by reflexivity.
  assert (Hr : memcmp (ui8 P) (ui8 mk') 16 <> 0).
  { intros Hc. apply memcmp_zero_take in Hc; [|cbn; lia|cbn; lia].
    apply (f_equal (drop 15)) in Hc. discriminate Hc. }
  pose proof (search_singleton_miss _ r0 m0 _ _ _ Hp Hr) as Hs.
  split; [reflexivity|].
  split; [eexists; split; [reflexivity|]; split; reflexivity|].
  split; [reflexivity|].
  split; [eexists; split; [exact Hs|]; split; [reflexivity|exact Hr]|].
  unfold check_new_flows_v6.
  change (length watch_2001_db8_64) with 1%nat. rewrite Hs. cbn [bind search_result].
  destruct (Z.eqb_spec (memcmp (ui8 P) (ui8 mk') 16) 0) as [He|_];
    [contradiction|reflexivity].
Qed.

(** ** C3: the new-flow filter *)

Section NewFlowsFacts.
Context {B : Type} `{Bloom B}.
Variable ip_to_str : ip_addr_t -> list Z.

(** A key the active bucket already holds: NEGATIVE, nothing changes. *)
Lemma count_new_flow_present threshold filter m masked ip_key0 fa :
  index (flows (bf_active filter)) m = Ret fa ->
  bloom_contains (sources fa) (write_str ip_key0 (ip_to_str masked)) = true ->
  count_new_flow ip_to_str threshold filter m masked ip_key0
  = Ret (SPOOF_NEGATIVE, filter).
Proof.
  intros Hfa Hc. unfold count_new_flow. rewrite Hfa. cbn [bind].
  rewrite Hc. reflexivity.
Qed.

(** A key the active bucket does not hold: it is inserted on both
    sides, both counts go up by one and the answer is POSITIVE exactly
    when the new active count is above the threshold. *)
Lemma count_new_flow_absent threshold filter m masked ip_key0 fa fl :
  index (flows (bf_active filter)) m = Ret fa ->
  index (flows (bf_learning filter)) m = Ret fl ->
  let ip_key := write_str ip_key0 (ip_to_str masked) in
  bloom_contains (sources fa) ip_key = false ->
  let fa' := mk_count (bloom_insert (sources fa) ip_key) (wrap32 (count fa + 1)) in
  let fl' := mk_count (bloom_insert (sources fl) ip_key) (wrap32 (count fl + 1)) in
  count_new_flow ip_to_str threshold filter m masked ip_key0
  = Ret (if threshold <? count fa' then SPOOF_POSITIVE else SPOOF_NEGATIVE,
         mk_pair (mk_filter (<[Z.to_nat m := fa']> (flows (bf_active filter))))
                 (mk_filter (<[Z.to_nat m := fl']> (flows (bf_learning filter))))).
Proof.
  intros Hfa Hfl ip_key Hc fa' fl'. unfold count_new_flow. rewrite Hfa.
  cbn [bind]. fold ip_key. rewrite Hc, Hfl. cbn [bind]. fold fa' fl'.
  destruct (threshold <? count fa'); reflexivity.
Qed.

(** With a watched list that is not empty, a lookup that finds no
    prefix gives NEGATIVE and changes nothing, whatever the
    uninitialised locals held. *)
Lemma check_new_flows_v4_miss record threshold filter mm prefix_list
    masked0 r0 m0 ip_key0 st :
  prefix_list <> [] ->
  search (v4_probe mm prefix_list (dst_addr record))
         (length prefix_list) r0 m0 masked0 = Ret st ->
  hit st = false ->
  check_new_flows_v4 ip_to_str record threshold filter mm prefix_list
                     masked0 r0 m0 ip_key0
  = Ret (SPOOF_NEGATIVE, filter).
Proof.
  intros Hne Hs Hh. unfold check_new_flows_v4. rewrite Hs. cbn [bind].
  apply search_nonempty_exit in Hs; [|destruct prefix_list; [contradiction|discriminate]].
  destruct Hs as [(Hh' & _)|(_ & Hr)]; [congruence|].
  destruct (Z.eqb_spec (search_result st) 0); [contradiction|reflexivity].
Qed.

Lemma check_new_flows_v6_miss record threshold filter mm prefix_list
    masked0 r0 m0 ip_key0 st :
  prefix_list <> [] ->
  search (v6_new_flows_probe mm prefix_list (src_addr record))
         (length prefix_list) r0 m0 masked0 = Ret st ->
  hit st = false ->
  check_new_flows_v6 ip_to_str record threshold filter mm prefix_list
                     masked0 r0 m0 ip_key0
  = Ret (SPOOF_NEGATIVE, filter).
Proof.
  intros Hne Hs Hh. unfold check_new_flows_v6. rewrite Hs. cbn [bind].
  apply search_nonempty_exit in Hs; [|destruct prefix_list; [contradiction|discriminate]].
  destruct Hs as [(Hh' & _)|(_ & Hr)]; [congruence|].
  destruct (Z.eqb_spec (search_result st) 0); [contradiction|reflexivity].
Qed.

(** The same key bytes offered twice to the same bucket are counted
    once: after the first insertion the probe of the active bucket
    answers true. *)
Lemma count_new_flow_same_key_twice `{!BloomNoFalseNegative B}
    threshold filter m masked ip_key0 v filter' :
  count_new_flow ip_to_str threshold filter m masked ip_key0 = Ret (v, filter') ->
  count_new_flow ip_to_str threshold filter' m masked ip_key0
  = Ret (SPOOF_NEGATIVE, filter').
Proof.
  unfold count_new_flow at 1. set (ip_key := write_str ip_key0 (ip_to_str masked)).
  unfold index.
  destruct (Z.ltb_spec m 0) as [|Hm]; [discriminate|].
  destruct (flows (bf_active filter) !! Z.to_nat m) as [fa|] eqn:Hfa;
    [|discriminate].
  cbn [bind].
  destruct (bloom_contains (sources fa) ip_key) eqn:Hc.
  { intros [= <- <-]. apply count_new_flow_present with (fa := fa); [|exact Hc].
    unfold index. destruct (Z.ltb_spec m 0); [lia|]. rewrite Hfa. reflexivity. }
  destruct (flows (bf_learning filter) !! Z.to_nat m) as [fl|] eqn:Hfl;
    [|discriminate].
  cbn [bind]. intros Hr.
  assert (Hf' : filter' =
    mk_pair (mk_filter (<[Z.to_nat m :=
               mk_count (bloom_insert (sources fa) ip_key) (wrap32 (count fa + 1))]>
               (flows (bf_active filter))))
            (mk_filter (<[Z.to_nat m :=
               mk_count (bloom_insert (sources fl) ip_key) (wrap32 (count fl + 1))]>
               (flows (bf_learning filter))))).
  { destruct (_ <? _); injection Hr as _ <-; reflexivity. }
  subst filter'.
  eapply count_new_flow_present.
  - unfold index. destruct (Z.ltb_spec m 0); [lia|]. cbn [bf_active flows].
    rewrite list_lookup_insert_eq; [reflexivity|].
    apply lookup_lt_Some in Hfa. exact Hfa.
  - cbn [sources]. apply bloom_insert_contains.
Qed.
End NewFlowsFacts.

(** The bytes of the key buffer after the text and its NUL are those the
    buffer held before. *)
Lemma write_str_keeps_tail (buf text : list Z) (i : nat) :
  (S (length text) <= i < INET6_ADDRSTRLEN)%nat ->
  write_str buf text !! i = buf !! i.
Proof.
  intros Hi. unfold write_str. rewrite lookup_take_lt by lia.
  rewrite lookup_app_r by lia.
  destruct (i - length text)%nat as [|j] eqn:Hj; [lia|].
  change (drop (S (length text)) buf !! j = buf !! i).
  rewrite lookup_drop. f_equal. lia.
Qed.

(** C3 on the code.  (a) With an empty watched list (and so no bucket)
    the loop does not run and [search_result] is read as it was found;
    when that is 0 the filter does not answer NEGATIVE but goes on to
    index the empty vector of buckets with the unset [mid]; when it is
    not 0 it answers NEGATIVE.  (b) The key offered to the Bloom filter
    is the whole 46-byte buffer, of which only the text is written: the
    same record counted twice, the buffer holding different remnants,
    raises the count twice. *)
Theorem C3_empty_watch_list_and_key_remnants :
  (forall (B : Type) (HB : Bloom B) (ip_to_str : ip_addr_t -> list Z)
          (undef : Z -> Z -> Z) record threshold masked0 m0 ip_key0,
     let no_bucket : filter_pair B := mk_pair (mk_filter []) (mk_filter []) in
     check_new_flows_v4 ip_to_str record threshold no_bucket
       create_v4_mask_map [] masked0 0 m0 ip_key0 = Undefined
     /\ check_new_flows_v6 ip_to_str record threshold no_bucket
          (create_v6_mask_map undef) [] masked0 0 m0 ip_key0 = Undefined
     /\ check_new_flows_v4 ip_to_str record threshold no_bucket
          create_v4_mask_map [] masked0 1 m0 ip_key0
        = Ret (SPOOF_NEGATIVE, no_bucket))
  /\ (let record := inbound_to_192_0_2_10 10 0 0 1 in
      let step filter remnant :=
        check_new_flows_v4 bytes_as_text record 1000 filter create_v4_mask_map
          watch_192_0_2 (mk_ip 0 0) 0 0 (replicate 46 remnant) in
      exists f1 f2,
        step one_bucket_pair 7 = Ret (SPOOF_NEGATIVE, f1)
        /\ step f1 9 = Ret (SPOOF_NEGATIVE, f2)
        /\ count <$> flows (bf_active f1) = [1]
        /\ count <$> flows (bf_active f2) = [2]).
Proof.
  split.
  - intros B HB ip_to_str undef record threshold masked0 m0 ip_key0 no_bucket.
    split; [|split].
    + destruct m0; reflexivity.
    + destruct m0; reflexivity.
    + reflexivity.
  - eexists _, _. split; [vm_compute; reflexivity|].
    split; [vm_compute; reflexivity|]. split; reflexivity.
Qed.

(** ** C8: a record the bogon stage flags changes nothing *)

(** C8: when the bogon/specific-prefix stage answers POSITIVE, the
    iteration hands the record to the output and leaves the whole state
    (both symmetry maps, both pairs of buckets with their filters and
    counts) as it was, whatever the later stages would have read. *)
Theorem C8_bogon_positive_leaves_state {B : Type} `{Bloom B}
    (ip_is4 : ip_addr_t -> bool) (ip_to_str : ip_addr_t -> list Z)
    (cfg : config) (g : indeterminate) (d : detector B)
    (record : ur_basic_flow_t) :
  bogon_stage ip_is4 cfg g record = Ret SPOOF_POSITIVE ->
  process_record ip_is4 ip_to_str cfg g d record = Ret (d, Some record).
Proof.
  intros Hb. unfold process_record. rewrite Hb. reflexivity.
Qed.

(** The first scenario: bogon set {10.0.0.0/8}, record from 10.1.2.3. *)
Lemma C8_bogon_positive_leaves_state_10_1_2_3 :
  bogon_stage unirec_ip_is4 cfg_bogon_10 locals_7 from_10_1_2_3 = Ret SPOOF_POSITIVE
  /\ process_record (B := exact_set) unirec_ip_is4 bytes_as_text cfg_bogon_10
       locals_7 (initial_detector cfg_bogon_10) from_10_1_2_3
     = Ret (initial_detector cfg_bogon_10, Some from_10_1_2_3).
Proof.
  split; [reflexivity|].
  apply (C8_bogon_positive_leaves_state unirec_ip_is4 bytes_as_text
           cfg_bogon_10 locals_7 (initial_detector cfg_bogon_10) from_10_1_2_3).
  reflexivity.
Defined.

(** ** C7: the record that is sent *)

Lemma le_split_range (n : nat) :
  forall w, Forall (fun b => 0 <= b < 256) (le_split n w).
Proof.
  induction n as [|n IH]; intros w; cbn [le_split]; constructor.
  - apply Z.mod_pos_bound. lia.
  - apply IH.
Qed.

Lemma le_split_combine (bs : list Z) :
  Forall (fun b => 0 <= b < 256) bs ->
  le_split (length bs) (le_combine bs) = bs.
Proof.
  induction 1 as [|b bs Hb _ IH]; [reflexivity|].
  cbn [length le_split le_combine].
  rewrite (Z.mod_small b 256) by lia.
  f_equal.
  - rewrite (Z.mul_comm 256), Z.mod_add by lia. apply Z.mod_small. lia.
  - rewrite (Z.mul_comm 256), Z.div_add by lia.
    rewrite (Z.div_small b 256) by lia. exact IH.
Qed.

Lemma length_le_split (n : nat) : forall w, length (le_split n w) = n.
Proof. induction n as [|n IH]; intros w; cbn; [reflexivity|f_equal; apply IH]. Qed.

(** The two statements on an address at the head of [check_symetry_v6],
    in bytes: each 8-byte half is reversed in place. *)
Lemma swap_halves_bytes (a : ip_addr_t) :
  ui8 (swap_halves (ip_from_16_bytes_le a))
  = rev (le_split 8 (ui64_0 a)) ++ rev (le_split 8 (ui64_1 a)).
Proof.
  unfold ui8, swap_halves, ip_from_16_bytes_le, ip_of_bytes, ui8.
  cbn [ui64_0 ui64_1].
  rewrite rev_app_distr.
  assert (Hl : forall w, length (rev (le_split 8 w)) = 8%nat)
    by (intros w; rewrite length_rev; apply length_le_split).
  rewrite drop_app_length' by (symmetry; apply Hl).
  rewrite take_app_length' by (symmetry; apply Hl).
  rewrite (take_ge (rev (le_split 8 (ui64_0 a)))) by (rewrite Hl; lia).
  f_equal.
  - rewrite <- (Hl (ui64_0 a)) at 1. apply le_split_combine.
    apply Forall_rev, le_split_range.
  - rewrite <- (Hl (ui64_1 a)) at 1. apply le_split_combine.
    apply Forall_rev, le_split_range.
Qed.

(** Which record an iteration sends: the one received when the bogon
    stage flags it or [ip_is4] holds of its source, and the one
    [check_symetry_v6] left behind otherwise. *)
Lemma process_record_sends {B : Type} `{Bloom B}
    (ip_is4 : ip_addr_t -> bool) (ip_to_str : ip_addr_t -> list Z)
    (cfg : config) (g : indeterminate) (d d' : detector B)
    (record out : ur_basic_flow_t) :
  process_record ip_is4 ip_to_str cfg g d record = Ret (d', Some out) ->
  (bogon_stage ip_is4 cfg g record = Ret SPOOF_POSITIVE -> out = record)
  /\ (ip_is4 (src_addr record) = true -> out = record)
  /\ (bogon_stage ip_is4 cfg g record = Ret SPOOF_NEGATIVE ->
      ip_is4 (src_addr record) = false ->
      out = swap_address_halves record).
Proof.
  unfold process_record.
  destruct (bogon_stage ip_is4 cfg g record) as [[| ]| |] eqn:Hb;
    cbn [bind]; try discriminate.
  - rewrite bool_decide_eq_true_2 by reflexivity. intros [= _ <-].
    split; [reflexivity|]. split; [reflexivity|discriminate].
  - rewrite bool_decide_eq_false_2 by discriminate.
    unfold symetry_stage.
    destruct (ip_is4 (src_addr record)) eqn:H4.
    + destruct (check_symetry_v4 record (v4_route_sym d) (sym_rw_time cfg))
        as [v src'].
      intros Hr.
      assert (Hout : out = record).
      { destruct (bool_decide (v = SPOOF_POSITIVE)); [congruence|].
        destruct (new_flows_stage _ _ _ _ _ _) as [[v' d'']| |];
          cbn [bind fst snd] in Hr; try discriminate.
        destruct (bool_decide (v' = SPOOF_POSITIVE)); congruence. }
      split; [discriminate|]. split; [intros _; exact Hout|discriminate].
    + destruct (check_symetry_v6 record (v6_route_sym d) (sym_rw_time cfg)
                  (sym_timestamp g)) as [[v record'] src'] eqn:Hs.
      assert (Hrec : record' = swap_address_halves record).
      { unfold check_symetry_v6 in Hs. cbv zeta in Hs.
        repeat match type of Hs with
               | context [if ?c then _ else _] => destruct c
               | context [match ?o with Some _ => _ | None => _ end] => destruct o
               end; congruence. }
      intros Hr.
      assert (Hout : out = record').
      { destruct (bool_decide (v = SPOOF_POSITIVE)); [congruence|].
        destruct (new_flows_stage _ _ _ _ _ _) as [[v' d'']| |];
          cbn [bind fst snd] in Hr; try discriminate.
        destruct (bool_decide (v' = SPOOF_POSITIVE)); congruence. }
      split; [discriminate|]. split; [discriminate|].
      intros _ _. congruence.
Qed.

(** C7 on three records in the state after outbound traffic to
    203.0.113.1 and to 2001:db8::1 on link 2.  The inbound IPv6 record
    from 2001:db8::1 on link 4 passes the first stage, is flagged by
    [check_symetry_v6] and is sent with both addresses rewritten: the
    source bytes 20 01 0d b8 00 .. 00 01 leave as
    00 00 00 00 b8 0d 01 20 01 00 .. 00.  On the two sibling paths the
    record leaves as it came: the inbound IPv6 record from inside the
    watched network, flagged by the first stage, and the inbound IPv4
    record from 203.0.113.1 on link 4, flagged by [check_symetry_v4]. *)
Theorem C7_check_symetry_v6_rewrites_the_sent_record :
  (bogon_stage unirec_ip_is4 cfg_watch_both locals_7 (inbound_v6 4 1001)
   = Ret SPOOF_NEGATIVE
   /\ fst (fst (check_symetry_v6 (inbound_v6 4 1001)
                  (v6_route_sym detector_after_outbound_both) 45 7))
      = SPOOF_POSITIVE
   /\ process_record unirec_ip_is4 bytes_as_text cfg_watch_both locals_7
        detector_after_outbound_both (inbound_v6 4 1001)
      = Ret (detector_after_outbound_both,
             Some (swap_address_halves (inbound_v6 4 1001)))
   /\ ui8 (src_addr (inbound_v6 4 1001))
      = [0x20; 0x01; 0x0d; 0xb8; 0; 0; 0; 0; 0; 0; 0; 0; 0; 0; 0; 1]
   /\ ui8 (src_addr (swap_address_halves (inbound_v6 4 1001)))
      = [0; 0; 0; 0; 0xb8; 0x0d; 0x01; 0x20; 1; 0; 0; 0; 0; 0; 0; 0]
   /\ ui8 (dst_addr (inbound_v6 4 1001))
      = [0x20; 0x01; 0x0d; 0xb8; 0; 1; 0; 0; 0; 0; 0; 0; 0; 0; 0; 9]
   /\ ui8 (dst_addr (swap_address_halves (inbound_v6 4 1001)))
      = [0; 0; 1; 0; 0xb8; 0x0d; 0x01; 0x20; 9; 0; 0; 0; 0; 0; 0; 0]
   /\ swap_address_halves (inbound_v6 4 1001) <> inbound_v6 4 1001)
  /\ (bogon_stage unirec_ip_is4 cfg_watch_both locals_7 (inbound_v6_inside 4 1001)
      = Ret SPOOF_POSITIVE
      /\ process_record unirec_ip_is4 bytes_as_text cfg_watch_both locals_7
           detector_after_outbound_both (inbound_v6_inside 4 1001)
         = Ret (detector_after_outbound_both, Some (inbound_v6_inside 4 1001)))
  /\ (bogon_stage unirec_ip_is4 cfg_watch_both locals_7 (inbound_203 4 1010)
      = Ret SPOOF_NEGATIVE
      /\ fst (check_symetry_v4 (inbound_203 4 1010)
                (v4_route_sym detector_after_outbound_both) 45)
         = SPOOF_POSITIVE
      /\ process_record unirec_ip_is4 bytes_as_text cfg_watch_both locals_7
           detector_after_outbound_both (inbound_203 4 1010)
         = Ret (detector_after_outbound_both, Some (inbound_203 4 1010))).
Proof.
  split; [|split].
  - repeat (split; [vm_compute; reflexivity|]). discriminate.
  - split; vm_compute; reflexivity.
  - repeat (split; [vm_compute; reflexivity|]). vm_compute; reflexivity.
Qed.

(** ** C10: the counts of the two sides *)

Section CountsFacts.
Context {B : Type} `{Bloom B}.
Variable ip_is4 : ip_addr_t -> bool.
Variable ip_to_str : ip_addr_t -> list Z.

(** Both sides are created with as many buckets as asked for, every
    count 0. *)
Lemma create_nflow_filters_counts (n : nat) :
  count <$> flows (bf_active (create_nflow_filters (B := B) n
                                (mk_pair (mk_filter []) (mk_filter []))))
  = replicate n 0
  /\ count <$> flows (bf_learning (create_nflow_filters (B := B) n
                                     (mk_pair (mk_filter []) (mk_filter []))))
     = replicate n 0.
Proof.
  induction n as [|n [IHa IHl]]; [split; reflexivity|].
  unfold create_nflow_filters in *. rewrite Nat.iter_succ.
  cbn [bf_active bf_learning flows].
  rewrite !fmap_app, IHa, IHl, replicate_S_end. split; reflexivity.
Qed.

Lemma create_nflow_filters_agree (n : nat) :
  counts_agree (create_nflow_filters (B := B) n (mk_pair (mk_filter []) (mk_filter []))).
Proof.
  unfold counts_agree.
  destruct (create_nflow_filters_counts n) as [-> ->]. reflexivity.
Qed.

Lemma index_lookup {A : Type} (v : list A) (i : Z) (x : A) :
  index v i = Ret x -> v !! Z.to_nat i = Some x.
Proof.
  unfold index. destruct (i <? 0); [discriminate|].
  destruct (v !! Z.to_nat i); [congruence|discriminate].
Qed.

(** One call either leaves both vectors of counts as they are or adds
    one (modulo 2^32) to the count at the same index on both sides. *)
Lemma count_new_flow_both_or_neither threshold filter m masked ip_key0 v filter' :
  count_new_flow ip_to_str threshold filter m masked ip_key0 = Ret (v, filter') ->
  filter' = filter
  \/ exists ca cl,
       (count <$> flows (bf_active filter)) !! Z.to_nat m = Some ca
       /\ (count <$> flows (bf_learning filter)) !! Z.to_nat m = Some cl
       /\ count <$> flows (bf_active filter')
          = <[Z.to_nat m := wrap32 (ca + 1)]> (count <$> flows (bf_active filter))
       /\ count <$> flows (bf_learning filter')
          = <[Z.to_nat m := wrap32 (cl + 1)]> (count <$> flows (bf_learning filter)).
Proof.
  unfold count_new_flow.
  destruct (index (flows (bf_active filter)) m) as [fa| |] eqn:Hfa;
    cbn [bind]; try discriminate.
  destruct (bloom_contains _ _); [intros [= _ <-]; left; reflexivity|].
  destruct (index (flows (bf_learning filter)) m) as [fl| |] eqn:Hfl;
    cbn [bind]; try discriminate.
  intros Hr. right. exists (count fa), (count fl).
  apply index_lookup in Hfa, Hfl.
  rewrite !list_lookup_fmap, Hfa, Hfl.
  split; [reflexivity|]. split; [reflexivity|].
  destruct (_ <? _); injection Hr as _ <-;
    cbn [bf_active bf_learning flows]; rewrite !list_fmap_insert; split; reflexivity.
Qed.

Lemma count_new_flow_agree threshold filter m masked ip_key0 v filter' :
  counts_agree filter ->
  count_new_flow ip_to_str threshold filter m masked ip_key0 = Ret (v, filter') ->
  counts_agree filter'.
Proof.
  intros Hag Hr. apply count_new_flow_both_or_neither in Hr.
  destruct Hr as [->|(ca & cl & Ha & Hl & Ha' & Hl')]; [exact Hag|].
  unfold counts_agree in *. rewrite Ha', Hl'. rewrite Hag in Ha.
  assert (ca = cl) by congruence. subst cl. rewrite Hag. reflexivity.
Qed.

Lemma check_new_flows_v4_agree record threshold filter mm prefix_list
    masked0 r0 m0 ip_key0 v filter' :
  counts_agree filter ->
  check_new_flows_v4 ip_to_str record threshold filter mm prefix_list
                     masked0 r0 m0 ip_key0 = Ret (v, filter') ->
  counts_agree filter'.
Proof.
  intros Hag. unfold check_new_flows_v4.
  destruct (search _ _ _ _ _) as [st| |]; cbn [bind]; try discriminate.
  destruct (negb _); [intros [= _ <-]; exact Hag|].
  destruct (index mm 24) as [m24| |]; cbn [bind]; try discriminate.
  apply count_new_flow_agree. exact Hag.
Qed.

Lemma check_new_flows_v6_agree record threshold filter mm prefix_list
    masked0 r0 m0 ip_key0 v filter' :
  counts_agree filter ->
  check_new_flows_v6 ip_to_str record threshold filter mm prefix_list
                     masked0 r0 m0 ip_key0 = Ret (v, filter') ->
  counts_agree filter'.
Proof.
  intros Hag. unfold check_new_flows_v6.
  destruct (search _ _ _ _ _) as [st| |]; cbn [bind]; try discriminate.
  destruct (negb _); [intros [= _ <-]; exact Hag|].
  destruct (index mm 64) as [m64| |]; cbn [bind]; try discriminate.
  apply count_new_flow_agree. exact Hag.
Qed.

(** The symmetric-route stage does not touch the buckets. *)
Lemma symetry_stage_flows cfg g (d : detector B) record :
  let d' := snd (symetry_stage ip_is4 cfg g d record) in
  v4_flows d' = v4_flows d /\ v6_flows d' = v6_flows d.
Proof.
  unfold symetry_stage. destruct (ip_is4 (src_addr record)).
  - destruct (check_symetry_v4 _ _ _). split; reflexivity.
  - destruct (check_symetry_v6 _ _ _ _) as [[? ?] ?]. split; reflexivity.
Qed.

Lemma new_flows_stage_agree cfg g (d : detector B) record v d' :
  counts_agree (v4_flows d) -> counts_agree (v6_flows d) ->
  new_flows_stage ip_is4 ip_to_str cfg g d record = Ret (v, d') ->
  counts_agree (v4_flows d') /\ counts_agree (v6_flows d').
Proof.
  intros H4 H6. unfold new_flows_stage.
  destruct (ip_is4 (src_addr record)).
  - destruct (check_new_flows_v4 _ _ _ _ _ _ _ _ _ _) as [[v' f']| |] eqn:Hc;
      cbn [bind fst snd]; try discriminate.
    intros [= _ <-]. cbn [v4_flows v6_flows]. split; [|exact H6].
    eapply check_new_flows_v4_agree; [exact H4|exact Hc].
  - destruct (check_new_flows_v6 _ _ _ _ _ _ _ _ _ _) as [[v' f']| |] eqn:Hc;
      cbn [bind fst snd]; try discriminate.
    intros [= _ <-]. cbn [v4_flows v6_flows]. split; [exact H4|].
    eapply check_new_flows_v6_agree; [exact H6|exact Hc].
Qed.

(** An iteration of the loop keeps the two sides in step. *)
Lemma process_record_agree cfg g (d : detector B) record d' out :
  counts_agree (v4_flows d) -> counts_agree (v6_flows d) ->
  process_record ip_is4 ip_to_str cfg g d record = Ret (d', out) ->
  counts_agree (v4_flows d') /\ counts_agree (v6_flows d').
Proof.
  intros H4 H6. unfold process_record.
  destruct (bogon_stage ip_is4 cfg g record) as [vb| |]; cbn [bind];
    try discriminate.
  destruct (bool_decide (vb = SPOOF_POSITIVE));
    [intros [= <- _]; split; assumption|].
  pose proof (symetry_stage_flows cfg g d record) as Hs. cbv zeta in Hs.
  destruct (symetry_stage ip_is4 cfg g d record) as [[vs record'] ds].
  cbn [snd] in Hs. destruct Hs as [Hs4 Hs6].
  rewrite <- Hs4 in H4. rewrite <- Hs6 in H6.
  destruct (bool_decide (vs = SPOOF_POSITIVE));
    [intros [= <- _]; split; assumption|].
  destruct (new_flows_stage ip_is4 ip_to_str cfg g ds record')
    as [[vn dn]| |] eqn:Hn; cbn [bind fst snd]; try discriminate.
  intros Hr.
  assert (d' = dn) by (destruct (bool_decide _); congruence). subst d'.
  eapply new_flows_stage_agree; [exact H4|exact H6|exact Hn].
Qed.

(** The searches end, so an iteration never runs out of fuel. *)
Lemma v4_probe_no_timeout mm pl a s m : v4_probe mm pl a s m <> Timeout.
Proof.
  unfold v4_probe, index.
  repeat (match goal with
          | |- context [if ?c then _ else _] => destruct c
          | |- context [match ?o with Some _ => _ | None => _ end] => destruct o
          end; cbn [bind]); discriminate.
Qed.

Lemma v6_bogon_probe_no_timeout mm pl a s m : v6_bogon_probe mm pl a s m <> Timeout.
Proof.
  unfold v6_bogon_probe, index.
  repeat (match goal with
          | |- context [if ?c then _ else _] => destruct c
          | |- context [match ?o with Some _ => _ | None => _ end] => destruct o
          end; cbn [bind]); discriminate.
Qed.

Lemma v6_new_flows_probe_no_timeout mm pl a s m :
  v6_new_flows_probe mm pl a s m <> Timeout.
Proof.
  unfold v6_new_flows_probe, index.
  repeat (match goal with
          | |- context [if ?c then _ else _] => destruct c
          | |- context [match ?o with Some _ => _ | None => _ end] => destruct o
          end; cbn [bind]); discriminate.
Qed.
End CountsFacts.

(** C10: in every state the loop can reach, for both address families,
    the active and the learning side hold the same count at every
    watched-prefix index.  (Both sides start with count 0 at every index,
    [create_nflow_filters_counts], and one call of the filter raises both
    counts at one index or neither, [count_new_flow_both_or_neither];
    nothing in the loop swaps or clears a side.) *)
Theorem C10_active_and_learning_counts_equal {B : Type} `{Bloom B}
    (ip_is4 : ip_addr_t -> bool) (ip_to_str : ip_addr_t -> list Z)
    (cfg : config) (d : detector B) :
  reachable ip_is4 ip_to_str cfg d ->
  count <$> flows (bf_active (v4_flows d)) = count <$> flows (bf_learning (v4_flows d))
  /\ count <$> flows (bf_active (v6_flows d)) = count <$> flows (bf_learning (v6_flows d)).
Proof.
  induction 1 as [|g d record d' out _ [IH4 IH6] Hstep].
  - split; apply create_nflow_filters_agree.
  - exact (process_record_agree ip_is4 ip_to_str cfg g d record d' out IH4 IH6 Hstep).
Qed.

(** The state after one record to the watched network: count 1 on both
    sides. *)
Lemma C10_counts_equal_after_one_flow :
  reachable unirec_ip_is4 bytes_as_text cfg_watch_192_0_2 detector_after_one_flow
  /\ count <$> flows (bf_active (v4_flows detector_after_one_flow)) = [1]
  /\ count <$> flows (bf_active (v4_flows detector_after_one_flow))
     = count <$> flows (bf_learning (v4_flows detector_after_one_flow))
  /\ count <$> flows (bf_active (v6_flows detector_after_one_flow))
     = count <$> flows (bf_learning (v6_flows detector_after_one_flow)).
Proof.
  assert (Hr : reachable unirec_ip_is4 bytes_as_text cfg_watch_192_0_2
                 detector_after_one_flow).
  { apply (reach_step unirec_ip_is4 bytes_as_text cfg_watch_192_0_2 locals_7
             (initial_detector cfg_watch_192_0_2) (inbound_to_192_0_2_10 10 0 0 1)
             detector_after_one_flow None).
    - apply reach_init.
    - vm_compute; reflexivity. }
  split; [exact Hr|]. split; [reflexivity|].
  exact (C10_active_and_learning_counts_equal unirec_ip_is4 bytes_as_text
           cfg_watch_192_0_2 detector_after_one_flow Hr).
Defined.

(** ** Every iteration ends *)

Lemma bind_no_timeout {A C : Type} (m : result A) (k : A -> result C) :
  m <> Timeout -> (forall a, k a <> Timeout) -> bind m k <> Timeout.
Proof.
  intros Hm Hk. destruct m; cbn [bind]; [apply Hk|discriminate|].
  exfalso. apply Hm. reflexivity.
Qed.

Section Termination.
Context {B : Type} `{Bloom B}.
Variable ip_is4 : ip_addr_t -> bool.
Variable ip_to_str : ip_addr_t -> list Z.

Lemma index_no_timeout {A : Type} (v : list A) (i : Z) : index v i <> Timeout.
Proof. unfold index. destruct (i <? 0), (v !! Z.to_nat i); discriminate. Qed.

Lemma v4_bogon_filter_no_timeout checked pl mm masked0 :
  v4_bogon_filter checked pl mm masked0 <> Timeout.
Proof.
  apply bind_no_timeout; [|discriminate].
  apply search_no_timeout. apply v4_probe_no_timeout.
Qed.

Lemma v6_bogon_filter_no_timeout checked pl mm masked0 :
  v6_bogon_filter checked pl mm masked0 <> Timeout.
Proof.
  apply bind_no_timeout; [|discriminate].
  apply search_no_timeout. apply v6_bogon_probe_no_timeout.
Qed.

Lemma count_new_flow_no_timeout threshold (filter : filter_pair B) m masked ip_key0 :
  count_new_flow ip_to_str threshold filter m masked ip_key0 <> Timeout.
Proof.
  unfold count_new_flow. apply bind_no_timeout; [apply index_no_timeout|].
  intros fa. destruct (bloom_contains _ _); [discriminate|].
  apply bind_no_timeout; [apply index_no_timeout|].
  intros fl. destruct (_ <? _); discriminate.
Qed.

Lemma process_record_no_timeout cfg g (d : detector B) record :
  process_record ip_is4 ip_to_str cfg g d record <> Timeout.
Proof.
  unfold process_record. apply bind_no_timeout.
  - unfold bogon_stage. destruct (ip_is4 (src_addr record)).
    + apply bind_no_timeout; [apply v4_bogon_filter_no_timeout|].
      intros v. destruct (_ && _);
        [apply v4_bogon_filter_no_timeout|discriminate].
    + apply bind_no_timeout; [apply v6_bogon_filter_no_timeout|].
      intros v. destruct (_ && _);
        [apply v6_bogon_filter_no_timeout|discriminate].
  - intros vb. destruct (bool_decide _); [discriminate|].
    destruct (symetry_stage ip_is4 cfg g d record) as [[vs record'] ds].
    destruct (bool_decide _); [discriminate|].
    apply bind_no_timeout; [|intros rd; destruct (bool_decide _); discriminate].
    unfold new_flows_stage. destruct (ip_is4 (src_addr record')).
    + apply bind_no_timeout; [|discriminate].
      unfold check_new_flows_v4. apply bind_no_timeout.
      * apply search_no_timeout. apply v4_probe_no_timeout.
      * intros st. destruct (negb _); [discriminate|].
        apply bind_no_timeout; [apply index_no_timeout|].
        intros m24. apply count_new_flow_no_timeout.
    + apply bind_no_timeout; [|discriminate].
      unfold check_new_flows_v6. apply bind_no_timeout.
      * apply search_no_timeout. apply v6_new_flows_probe_no_timeout.
      * intros st. destruct (negb _); [discriminate|].
        apply bind_no_timeout; [apply index_no_timeout|].
        intros m64. apply count_new_flow_no_timeout.
Qed.
End Termination.

(** ** C9: start-up with a bogon file that cannot be opened *)

Section StartupFacts.
Variable shr_undef : Z -> Z -> Z.
Variable ip_is4 : ip_addr_t -> bool.
Variable atoi : string -> Z.
Variable open_file : string -> option string.
Variable read_prefixes : string -> list ip_prefix_t.

(** Without [-b] the program stops with a failure status. *)
Lemma main_startup_without_b args init :
  b_flag (getopt_loop atoi args) = false ->
  fst (main_startup shr_undef ip_is4 atoi open_file read_prefixes
         TRAP_E_OK args init) = Exit EXIT_FAILURE.
Proof. intros Hb. unfold main_startup. rewrite Hb. reflexivity. Qed.

(** What decides between leaving and entering the loop, once the
    options are read and the interfaces set up: whether the file named
    by [-c] (the empty name when the option is absent) can be opened. *)
Lemma main_startup_decided_by_second_file args :
  b_flag (getopt_loop atoi args) = true ->
  let o := getopt_loop atoi args in
  match open_file (cnet_filename o) with
  | None =>
      fst (main_startup shr_undef ip_is4 atoi open_file read_prefixes
             TRAP_E_OK args TRAP_E_OK) = Exit BOGON_FILE_ERROR
  | Some _ =>
      exists cfg,
        fst (main_startup shr_undef ip_is4 atoi open_file read_prefixes
               TRAP_E_OK args TRAP_E_OK) = EnterLoop cfg
  end.
Proof.
  intros Hb o. subst o. unfold main_startup. rewrite Hb. cbn [negb].
  unfold load_pref.
  destruct (open_file (cnet_filename _)) as [c|];
    destruct (open_file (bog_filename _)) as [b|]; cbn; eauto.
Qed.
End StartupFacts.

(** C9 on the code.  (a) The file named by [-b] cannot be opened and the
    file named by [-c] can: the message of [load_pref] goes to [cerr],
    and the program enters the loop, with empty bogon lists; the result
    of the first [load_pref] is overwritten by that of the second before
    it is tested.  (b) The bogon file can be opened and [-c] is absent:
    the program stops with status 1. *)
Theorem C9_bogon_file_error_is_overwritten :
  forall (shr_undef : Z -> Z -> Z) (ip_is4 : ip_addr_t -> bool)
         (atoi : string -> Z) (read_prefixes : string -> list ip_prefix_t)
         (contents : string),
    (exists cfg,
       main_startup shr_undef ip_is4 atoi (only_file "nets.txt" contents)
         read_prefixes TRAP_E_OK
         [("b"%char, "bogons.txt"%string); ("c"%char, "nets.txt"%string)] TRAP_E_OK
       = (EnterLoop cfg,
          ["ERROR: File with bogon prefixes couldn't be loaded. Unable to continue."%string])
       /\ bogon_list_v4 cfg = [] /\ bogon_list_v6 cfg = [])
    /\ main_startup shr_undef ip_is4 atoi (only_file "bogons.txt" contents)
         read_prefixes TRAP_E_OK [("b"%char, "bogons.txt"%string)] TRAP_E_OK
       = (Exit 1,
          ["ERROR: File with bogon prefixes couldn't be loaded. Unable to continue."%string]).
Proof.
  intros shr_undef ip_is4 atoi read_prefixes contents. split.
  - eexists. split; [reflexivity|]. split; reflexivity.
  - reflexivity.
Qed.

(** * Further properties of the code *)

(** ** Bytes of words *)

Lemma le_split_take (k : nat) :
  forall (n : nat) (w : Z), (k <= n)%nat -> take k (le_split n w) = le_split k w.
Proof.
  induction k as [|k IH]; intros n w Hk; [reflexivity|].
  destruct n as [|n]; [lia|]. cbn [le_split take]. f_equal. apply IH. lia.
Qed.

Lemma le_split_mod (k : nat) :
  forall w, le_split k (w mod 256 ^ Z.of_nat k) = le_split k w.
Proof.
  induction k as [|k IH]; intros w; [reflexivity|].
  cbn [le_split]. rewrite Nat2Z.inj_succ, Z.pow_succ_r by lia.
  rewrite Z.rem_mul_r by lia.
  pose proof (Z.mod_pos_bound w 256 ltac:(lia)) as Hb.
  f_equal.
  - rewrite (Z.mul_comm 256), Z.mod_add by lia. apply Z.mod_small. exact Hb.
  - rewrite (Z.mul_comm 256), Z.div_add by lia.
    rewrite (Z.div_small (w mod 256) 256) by exact Hb.
    cbn [Z.add]. apply IH.
Qed.

Lemma memcmp_take (n : nat) :
  forall p q : list Z, memcmp (take n p) (take n q) n = memcmp p q n.
Proof.
  induction n as [|n IH]; intros p q; [destruct p; reflexivity|].
  destruct p as [|x p], q as [|y q]; try reflexivity.
  cbn [take memcmp]. rewrite IH. reflexivity.
Qed.

Lemma memcmp_refl (n : nat) : forall p : list Z, memcmp p p n = 0.
Proof.
  induction n as [|n IH]; intros [|x p]; try reflexivity.
  cbn [memcmp]. rewrite Z.eqb_refl. apply IH.
Qed.

(** The four bytes at offset 8 of an address are those of its lane 2. *)
Lemma lane_2_bytes (a : ip_addr_t) :
  take 4 (drop 8 (ui8 a)) = le_split 4 (ui32_2 a).
Proof.
  unfold ui8, ui32_2. rewrite drop_app_length' by (symmetry; apply length_le_split).
  rewrite le_split_take by lia. symmetry. apply (le_split_mod 4).
Qed.

Lemma first_half_bytes (a : ip_addr_t) :
  take 8 (ui8 a) = le_split 8 (ui64_0 a).
Proof.
  unfold ui8. rewrite take_app_length' by (symmetry; apply length_le_split).
  reflexivity.
Qed.

Lemma ui32_2_set (s : ip_addr_t) (v : Z) : ui32_2 (set_ui32_2 s v) = v mod 2 ^ 32.
Proof.
  unfold ui32_2, set_ui32_2. cbn [ui64_1].
  rewrite Z.add_comm, Z.mul_comm, Z.mod_add by lia. apply Z.mod_mod. lia.
Qed.

(** What one step of the IPv4 lookups compares: the lane of the prefix
    with the masked lane of the address, whatever [masked] held. *)
Lemma v4_probe_compares mm pl a s m :
  v4_probe mm pl a s m
  = (p <~ index pl m ;;
     msk <~ index mm (pref_length p) ;;
     Ret (memcmp (le_split 4 (ui32_2 (ip p)))
                 (le_split 4 (Z.land (ui32_2 a) msk)) 4,
          set_ui32_2 s (Z.land (ui32_2 a) msk))).
Proof.
  unfold v4_probe. destruct (index pl m) as [p| |]; cbn [bind]; try reflexivity.
  destruct (index mm (pref_length p)) as [msk| |]; cbn [bind]; try reflexivity.
  do 2 f_equal.
  rewrite <- memcmp_take, !lane_2_bytes, ui32_2_set.
  change (2 ^ 32) with (256 ^ Z.of_nat 4). rewrite le_split_mod. reflexivity.
Qed.

(** What one step of [v6_bogon_filter] compares on a prefix of at most 64
    bits: the first halves, whatever [masked] held. *)
Lemma v6_bogon_probe_compares_short mm pl a s m p :
  index pl m = Ret p -> pref_length p <= 64 ->
  v6_bogon_probe mm pl a s m
  = (msk <~ index mm (pref_length p) ;;
     Ret (memcmp (le_split 8 (ui64_0 (ip p)))
                 (le_split 8 (Z.land (ui64_0 a) (fst msk))) 8,
          set_ui64_0 s (Z.land (ui64_0 a) (fst msk)))).
Proof.
  intros Hp Hl. unfold v6_bogon_probe. rewrite Hp. cbn [bind].
  destruct (index mm (pref_length p)) as [msk| |]; cbn [bind]; try reflexivity.
  destruct (Z.leb_spec (pref_length p) 64); [|lia].
  do 2 f_equal.
  rewrite <- memcmp_take, !first_half_bytes. cbn [set_ui64_0 ui64_0].
  change (2 ^ 64) with (256 ^ Z.of_nat 8). rewrite le_split_mod. reflexivity.
Qed.

(** ** The search loop, continued *)

Section SearchMore.
Variable probe : ip_addr_t -> Z -> result (Z * ip_addr_t).

(** With a blind loop body the search does not depend on the contents of
    [masked] on entry. *)
Lemma search_loop_blind (fuel : nat) :
  blind_probe probe ->
  forall b e st st',
    hit st = hit st' -> search_result st = search_result st' -> mid st = mid st' ->
    same_outcome (search_loop probe fuel b e st) (search_loop probe fuel b e st').
Proof.
  intros Hbl. induction fuel as [|fuel IH]; intros b e st st' Hh Hr Hm;
    cbn [search_loop].
  - destruct (b <=? e); cbn; auto.
  - destruct (b <=? e); [|cbn; auto].
    specialize (Hbl (masked st) (masked st') (Z.shiftr (b + e) 1)).
    destruct (probe (masked st) _) as [[r t]| |],
             (probe (masked st') _) as [[r' t']| |];
      cbn [bind fst snd] in *; try contradiction; try exact I.
    subst r'. destruct (r <? 0); [apply IH; reflexivity|].
    destruct (r =? 0); [cbn; auto|apply IH; reflexivity].
Qed.

Lemma search_blind (size : nat) (r0 m0 : Z) (masked0 masked0' : ip_addr_t) :
  blind_probe probe ->
  same_outcome (search probe size r0 m0 masked0) (search probe size r0 m0 masked0').
Proof. intros Hbl. apply search_loop_blind; [exact Hbl|reflexivity..]. Qed.

(** A search that stops on a match stops on a loop body that compared
    equal at [mid], an index of the interval. *)
Lemma search_loop_hit (fuel : nat) :
  forall b e st0 st,
    hit st0 = false ->
    search_loop probe fuel b e st0 = Ret st ->
    hit st = true ->
    b <= mid st <= e /\ exists s, probe s (mid st) = Ret (0, masked st).
Proof.
  induction fuel as [|fuel IH]; intros b e st0 st Hh0; cbn [search_loop].
  - destruct (b <=? e); [discriminate|]. intros [= <-] Hh. congruence.
  - destruct (Z.leb_spec b e) as [Hbe|]; [|intros [= <-] Hh; congruence].
    pose proof (midpoint_between b e Hbe) as Hm.
    destruct (probe (masked st0) (Z.shiftr (b + e) 1)) as [[r t]| |] eqn:Hp;
      cbn [bind fst snd]; try discriminate.
    destruct (Z.ltb_spec r 0).
    { intros Hs Hh.
      pose proof (fun H0 => IH _ _ _ _ H0 Hs Hh) as Hx.
      destruct (Hx eq_refl) as [Hmid Hex]. split; [lia|exact Hex]. }
    destruct (Z.eqb_spec r 0) as [->|].
    { intros [= <-] _. cbn [mid masked]. split; [exact Hm|]. eauto. }
    intros Hs Hh.
    pose proof (fun H0 => IH _ _ _ _ H0 Hs Hh) as Hx.
      destruct (Hx eq_refl) as [Hmid Hex]. split; [lia|exact Hex].
Qed.

(** A search whose loop body is defined at every index of the interval
    returns. *)
Lemma search_loop_defined (fuel : nat) :
  forall b e st0,
    e - b + 1 <= Z.of_nat fuel ->
    (forall s m, b <= m <= e -> exists rt, probe s m = Ret rt) ->
    exists st, search_loop probe fuel b e st0 = Ret st.
Proof.
  induction fuel as [|fuel IH]; intros b e st0 Hsz Hdef; cbn [search_loop].
  - destruct (Z.leb_spec b e); [lia|eauto].
  - destruct (Z.leb_spec b e) as [Hbe|]; [|eauto].
    pose proof (midpoint_between b e Hbe) as Hm.
    destruct (Hdef (masked st0) _ Hm) as [[r t] ->]. cbn [bind fst snd].
    destruct (r <? 0); [apply IH; [lia|intros; apply Hdef; lia]|].
    destruct (r =? 0); [eauto|apply IH; [lia|intros; apply Hdef; lia]].
Qed.

(** A search over comparisons that are negative before an index range,
    equal inside it and positive after it stops on a match inside the
    range. *)
Lemma search_loop_complete (fuel : nat) :
  forall b e st0 lo hi,
    e - b + 1 <= Z.of_nat fuel ->
    b <= lo <= hi -> hi <= e ->
    (forall s m, b <= m < lo -> exists r t, probe s m = Ret (r, t) /\ r < 0) ->
    (forall s m, lo <= m <= hi -> exists t, probe s m = Ret (0, t)) ->
    (forall s m, hi < m <= e -> exists r t, probe s m = Ret (r, t) /\ 0 < r) ->
    exists st,
      search_loop probe fuel b e st0 = Ret st /\ hit st = true /\ lo <= mid st <= hi.
Proof.
  induction fuel as [|fuel IH]; intros b e st0 lo hi Hsz Hlo Hhi Hneg Hzero Hpos;
    cbn [search_loop].
  - destruct (Z.leb_spec b e); lia.
  - destruct (Z.leb_spec b e) as [Hbe|]; [|lia].
    pose proof (midpoint_between b e Hbe) as Hm.
    set (m := Z.shiftr (b + e) 1) in *.
    destruct (Z.lt_ge_cases m lo) as [Hlt|Hge].
    { destruct (Hneg (masked st0) m ltac:(lia)) as (r & t & -> & Hr).
      cbn [bind fst snd]. destruct (Z.ltb_spec r 0); [|lia].
      apply IH; [lia|lia|lia|intros; apply Hneg; lia|intros; apply Hzero; lia
                |intros; apply Hpos; lia]. }
    destruct (Z.le_gt_cases m hi) as [Hle|Hgt].
    { destruct (Hzero (masked st0) m ltac:(lia)) as (t & ->).
      cbn [bind fst snd]. change (0 <? 0) with false. change (0 =? 0) with true.
      cbv iota. eexists. split; [reflexivity|]. cbn. split; [reflexivity|lia]. }
    destruct (Hpos (masked st0) m ltac:(lia)) as (r & t & -> & Hr).
    cbn [bind fst snd]. destruct (Z.ltb_spec r 0); [lia|].
    destruct (Z.eqb_spec r 0); [lia|].
    apply IH; [lia|lia|lia|intros; apply Hneg; lia|intros; apply Hzero; lia
              |intros; apply Hpos; lia].
Qed.
End SearchMore.

(** ** The IPv4 lookups do not read the uninitialised [masked] *)

Lemma v4_probe_blind mm pl a : blind_probe (v4_probe mm pl a).
Proof.
  intros s s' m. rewrite !v4_probe_compares.
  destruct (index pl m) as [p| |]; cbn [bind]; try exact I.
  destruct (index mm (pref_length p)) as [msk| |]; cbn [bind]; try exact I.
  reflexivity.
Qed.

Lemma v6_bogon_probe_blind mm pl a :
  Forall (fun p => pref_length p <= 64) pl ->
  blind_probe (v6_bogon_probe mm pl a).
Proof.
  intros Hall s s' m.
  destruct (index pl m) as [p| |] eqn:Hp.
  - assert (Hl : pref_length p <= 64).
    { rewrite Forall_forall in Hall. apply Hall.
      apply index_lookup in Hp. eapply list_elem_of_lookup_2. exact Hp. }
    rewrite !(v6_bogon_probe_compares_short _ _ _ _ _ _ Hp Hl).
    destruct (index mm (pref_length p)) as [msk| |]; cbn [bind]; try exact I.
    reflexivity.
  - unfold v6_bogon_probe. rewrite Hp. exact I.
  - unfold v6_bogon_probe. rewrite Hp. exact I.
Qed.

(** The verdict of [v4_bogon_filter] and the result of
    [check_new_flows_v4] are the same whatever the local [masked] held
    when the function was entered. *)
Theorem v4_filters_ignore_unset_masked {B : Type} `{Bloom B}
    (ip_to_str : ip_addr_t -> list Z) (record : ur_basic_flow_t)
    (prefix_list : list ip_prefix_t) (mm : list Z)
    (threshold : Z) (filter : filter_pair B) (r0 m0 : Z) (ip_key0 : list Z)
    (masked0 masked0' : ip_addr_t) :
  v4_bogon_filter record prefix_list mm masked0
  = v4_bogon_filter record prefix_list mm masked0'
  /\ check_new_flows_v4 ip_to_str record threshold filter mm prefix_list
       masked0 r0 m0 ip_key0
     = check_new_flows_v4 ip_to_str record threshold filter mm prefix_list
         masked0' r0 m0 ip_key0.
Proof.
  split.
  - unfold v4_bogon_filter.
    pose proof (search_blind _ (length prefix_list) 0 0 masked0 masked0'
                  (v4_probe_blind mm prefix_list (src_addr record))) as Hs.
    destruct (search _ _ _ _ masked0) as [st| |],
             (search _ _ _ _ masked0') as [st'| |];
      cbn in Hs; try contradiction; try reflexivity.
    cbn [bind]. unfold verdict_of_hit. destruct Hs as (-> & _). reflexivity.
  - unfold check_new_flows_v4.
    pose proof (search_blind _ (length prefix_list) r0 m0 masked0 masked0'
                  (v4_probe_blind mm prefix_list (dst_addr record))) as Hs.
    destruct (search _ _ _ _ masked0) as [st| |],
             (search _ _ _ _ masked0') as [st'| |];
      cbn in Hs; try contradiction; try reflexivity.
    cbn [bind]. destruct Hs as (_ & -> & ->). reflexivity.
Qed.

(** On a list whose prefixes all have at most 64 bits the verdict of
    [v6_bogon_filter] is the same whatever the local [masked] held. *)
Theorem v6_bogon_filter_ignores_unset_masked_on_short_prefixes
    (checked : ur_basic_flow_t) (prefix_list : list ip_prefix_t)
    (v6mm : list (Z * Z)) (masked0 masked0' : ip_addr_t) :
  Forall (fun p => pref_length p <= 64) prefix_list ->
  v6_bogon_filter checked prefix_list v6mm masked0
  = v6_bogon_filter checked prefix_list v6mm masked0'.
Proof.
  intros Hall. unfold v6_bogon_filter.
  pose proof (search_blind _ (length prefix_list) 0 0 masked0 masked0'
                (v6_bogon_probe_blind v6mm prefix_list (src_addr checked) Hall)) as Hs.
  destruct (search _ _ _ _ masked0) as [st| |],
           (search _ _ _ _ masked0') as [st'| |];
    cbn in Hs; try contradiction; try reflexivity.
  cbn [bind]. unfold verdict_of_hit. destruct Hs as (-> & _). reflexivity.
Qed.

(** The list {2001:db8::/64} and two different contents of [masked]. *)
Lemma v6_bogon_filter_ignores_unset_masked_on_2001_db8 :
  Forall (fun p => pref_length p <= 64) watch_2001_db8_64
  /\ v6_bogon_filter (inbound_v6 1 0) watch_2001_db8_64
       (create_v6_mask_map shr64_x86) (mk_ip 7 7)
     = v6_bogon_filter (inbound_v6 1 0) watch_2001_db8_64
         (create_v6_mask_map shr64_x86) (mk_ip 0 9).
Proof.
  assert (Hall : Forall (fun p => pref_length p <= 64) watch_2001_db8_64).
  { repeat constructor. cbn. lia. }
  split; [exact Hall|].
  exact (v6_bogon_filter_ignores_unset_masked_on_short_prefixes
           (inbound_v6 1 0) watch_2001_db8_64 (create_v6_mask_map shr64_x86)
           (mk_ip 7 7) (mk_ip 0 9) Hall).
Defined.

(** ** A POSITIVE verdict of a bogon filter comes from a prefix of the list *)

Lemma search_hit (probe : ip_addr_t -> Z -> result (Z * ip_addr_t))
    (size : nat) (r0 m0 : Z) (masked0 : ip_addr_t) (st : search_exit) :
  search probe size r0 m0 masked0 = Ret st ->
  hit st = true ->
  0 <= mid st < Z.of_nat size /\ exists s, probe s (mid st) = Ret (0, masked st).
Proof.
  intros Hs Hh. unfold search in Hs.
  pose proof (fun H0 => search_loop_hit probe _ _ _ _ _ H0 Hs Hh) as Hx.
  destruct (Hx eq_refl) as [Hmid Hex]. split; [lia|exact Hex].
Qed.

Lemma le_combine_split (n : nat) :
  forall w, le_combine (le_split n w) = w mod 256 ^ Z.of_nat n.
Proof.
  induction n as [|n IH]; intros w.
  - cbn. symmetry. apply Z.mod_1_r.
  - cbn [le_split le_combine]. rewrite IH, Nat2Z.inj_succ, Z.pow_succ_r by lia.
    rewrite Z.rem_mul_r by lia. rewrite Z.mod_mod by lia. reflexivity.
Qed.

Lemma le_split_eq_mod (n : nat) (x y : Z) :
  le_split n x = le_split n y -> x mod 256 ^ Z.of_nat n = y mod 256 ^ Z.of_nat n.
Proof. intros He. rewrite <- !le_combine_split, He. reflexivity. Qed.

Lemma memcmp_le_split_zero (n : nat) (x y : Z) :
  memcmp (le_split n x) (le_split n y) n = 0 ->
  x mod 256 ^ Z.of_nat n = y mod 256 ^ Z.of_nat n.
Proof.
  intros Hc. apply memcmp_zero_take in Hc; [|rewrite length_le_split; lia..].
  rewrite !firstn_all2 in Hc by (rewrite length_le_split; lia).
  apply le_split_eq_mod. exact Hc.
Qed.

(** [v4_bogon_filter] answers POSITIVE only if the list holds a prefix
    whose lane equals the lane of the source address ANDed with the
    table entry of its length. *)
Theorem v4_bogon_filter_positive_sound (checked : ur_basic_flow_t)
    (prefix_list : list ip_prefix_t) (v4mm : list Z) (masked0 : ip_addr_t) :
  v4_bogon_filter checked prefix_list v4mm masked0 = Ret SPOOF_POSITIVE ->
  exists (i : nat) (p : ip_prefix_t) (msk : Z),
    prefix_list !! i = Some p
    /\ v4_mask_at v4mm (pref_length p) = Some msk
    /\ ui32_2 (ip p) = wrap32 (Z.land (ui32_2 (src_addr checked)) msk).
Proof.
  unfold v4_bogon_filter.
  destruct (search _ _ _ _ _) as [st| |] eqn:Hs; cbn [bind]; try discriminate.
  unfold verdict_of_hit. destruct (hit st) eqn:Hh; [intros _|discriminate].
  destruct (search_hit _ _ _ _ _ _ Hs Hh) as [_ [s Hp]].
  rewrite v4_probe_compares in Hp.
  destruct (index prefix_list (mid st)) as [p| |] eqn:Hip; cbn [bind] in Hp;
    try discriminate.
  destruct (index v4mm (pref_length p)) as [msk| |] eqn:Him; cbn [bind] in Hp;
    try discriminate.
  match type of Hp with
  | Ret (?c, _) = _ => assert (Hc : c = 0) by congruence
  end; clear Hp.
  apply (memcmp_le_split_zero 4) in Hc.
  exists (Z.to_nat (mid st)), p, msk.
  split; [apply index_lookup; exact Hip|].
  split; [apply index_lookup; exact Him|].
  unfold wrap32. change (256 ^ Z.of_nat 4) with (2 ^ 32) in Hc. rewrite <- Hc.
  unfold ui32_2. symmetry. apply Z.mod_mod. lia.
Qed.

(** The first scenario: 10.1.2.3 against {10.0.0.0/8}. *)
Lemma v4_bogon_filter_positive_sound_10_1_2_3 :
  v4_bogon_filter from_10_1_2_3 (bogon_list_v4 cfg_bogon_10) create_v4_mask_map
    (mk_ip 7 7) = Ret SPOOF_POSITIVE
  /\ exists (i : nat) (p : ip_prefix_t) (msk : Z),
       bogon_list_v4 cfg_bogon_10 !! i = Some p
       /\ v4_mask_at create_v4_mask_map (pref_length p) = Some msk
       /\ ui32_2 (ip p) = wrap32 (Z.land (ui32_2 (src_addr from_10_1_2_3)) msk).
Proof.
  split; [reflexivity|].
  apply (v4_bogon_filter_positive_sound from_10_1_2_3 (bogon_list_v4 cfg_bogon_10)
           create_v4_mask_map (mk_ip 7 7)).
  reflexivity.
Defined.

(** [v6_bogon_filter] answers POSITIVE only if the list holds a prefix
    that, with at most 64 bits, has its first half equal to the masked
    first half of the source address, or, with more than 64 bits, has its
    second half equal to the masked second half of the source address
    (its first half was then compared with what [masked] held). *)
Theorem v6_bogon_filter_positive_sound (checked : ur_basic_flow_t)
    (prefix_list : list ip_prefix_t) (v6mm : list (Z * Z)) (masked0 : ip_addr_t) :
  v6_bogon_filter checked prefix_list v6mm masked0 = Ret SPOOF_POSITIVE ->
  exists (i : nat) (p : ip_prefix_t) (msk : Z * Z),
    prefix_list !! i = Some p
    /\ v6_mask_at v6mm (pref_length p) = Some msk
    /\ (pref_length p <= 64
        /\ wrap64 (ui64_0 (ip p))
           = wrap64 (Z.land (ui64_0 (src_addr checked)) (fst msk))
        \/ 64 < pref_length p
           /\ wrap64 (ui64_1 (ip p))
              = wrap64 (Z.land (ui64_1 (src_addr checked)) (snd msk))).
Proof.
  unfold v6_bogon_filter.
  destruct (search _ _ _ _ _) as [st| |] eqn:Hs; cbn [bind]; try discriminate.
  unfold verdict_of_hit. destruct (hit st) eqn:Hh; [intros _|discriminate].
  destruct (search_hit _ _ _ _ _ _ Hs Hh) as [_ [s Hp]].
  unfold v6_bogon_probe in Hp.
  destruct (index prefix_list (mid st)) as [p| |] eqn:Hip; cbn [bind] in Hp;
    try discriminate.
  destruct (index v6mm (pref_length p)) as [msk| |] eqn:Him; cbn [bind] in Hp;
    try discriminate.
  exists (Z.to_nat (mid st)), p, msk.
  split; [apply index_lookup; exact Hip|].
  split; [apply index_lookup; exact Him|].
  unfold wrap64. change (2 ^ 64) with (256 ^ Z.of_nat 8).
  destruct (Z.leb_spec (pref_length p) 64) as [Hl|Hl];
    match type of Hp with
    | Ret (?c, _) = _ => assert (Hc : c = 0) by congruence
    end; clear Hp.
  - left. split; [exact Hl|].
    rewrite <- memcmp_take, !first_half_bytes in Hc. cbn [set_ui64_0 ui64_0] in Hc.
    apply memcmp_le_split_zero in Hc. rewrite Hc.
    change (256 ^ Z.of_nat 8) with (2 ^ 64). apply Z.mod_mod. lia.
  - right. split; [exact Hl|].
    apply memcmp_zero_take in Hc;
      [|unfold ui8; rewrite length_app, !length_le_split; lia..].
    apply (f_equal (drop 8)) in Hc. rewrite !skipn_firstn_comm in Hc.
    unfold ui8 in Hc.
    rewrite !drop_app_length' in Hc by (symmetry; apply length_le_split).
    rewrite !firstn_all2 in Hc by (rewrite length_le_split; lia).
    cbn [set_ui64_1 ui64_1] in Hc. apply le_split_eq_mod in Hc. rewrite Hc.
    change (256 ^ Z.of_nat 8) with (2 ^ 64). apply Z.mod_mod. lia.
Qed.

(** The sixth scenario: 2001:db8::1 against {2001:db8::/64}. *)
Lemma v6_bogon_filter_positive_sound_2001_db8 :
  v6_bogon_filter (inbound_v6 1 0) watch_2001_db8_64
    (create_v6_mask_map shr64_x86) (mk_ip 7 7) = Ret SPOOF_POSITIVE
  /\ exists (i : nat) (p : ip_prefix_t) (msk : Z * Z),
       watch_2001_db8_64 !! i = Some p
       /\ v6_mask_at (create_v6_mask_map shr64_x86) (pref_length p) = Some msk
       /\ (pref_length p <= 64
           /\ wrap64 (ui64_0 (ip p))
              = wrap64 (Z.land (ui64_0 (src_addr (inbound_v6 1 0))) (fst msk))
           \/ 64 < pref_length p
              /\ wrap64 (ui64_1 (ip p))
                 = wrap64 (Z.land (ui64_1 (src_addr (inbound_v6 1 0))) (snd msk))).
Proof.
  split; [reflexivity|].
  apply (v6_bogon_filter_positive_sound (inbound_v6 1 0) watch_2001_db8_64
           (create_v6_mask_map shr64_x86) (mk_ip 7 7)).
  reflexivity.
Defined.

(** ** Byte order: [memcmp] against numbers *)

Lemma le_combine_bound (l : list Z) :
  0 <= le_combine l < 256 ^ Z.of_nat (length l).
Proof.
  induction l as [|b l IH]; [cbn; lia|].
  cbn [le_combine length]. rewrite Nat2Z.inj_succ, Z.pow_succ_r by lia.
  pose proof (Z.mod_pos_bound b 256 ltac:(lia)). lia.
Qed.

Lemma le_combine_app (l l' : list Z) :
  le_combine (l ++ l') = le_combine l + 256 ^ Z.of_nat (length l) * le_combine l'.
Proof.
  induction l as [|b l IH]; [cbn [app le_combine length]; lia|].
  cbn [app le_combine length]. rewrite IH, Nat2Z.inj_succ, Z.pow_succ_r by lia.
  ring.
Qed.

Lemma le_combine_zeros (n : nat) : le_combine (replicate n 0) = 0.
Proof. induction n as [|n IH]; [reflexivity|]. cbn [replicate le_combine]. rewrite IH. reflexivity. Qed.

Lemma le_split_zero (n : nat) : le_split n 0 = replicate n 0.
Proof. induction n as [|n IH]; [reflexivity|]. cbn [le_split replicate]. f_equal. exact IH. Qed.

(** The sign of [memcmp] on two sequences of [n] bytes is that of the
    difference of the numbers they spell, most significant byte first. *)
Lemma memcmp_sign (n : nat) :
  forall p q : list Z,
    length p = n -> length q = n ->
    Forall (fun b => 0 <= b < 256) p -> Forall (fun b => 0 <= b < 256) q ->
    Z.sgn (memcmp p q n) = Z.sgn (le_combine (rev p) - le_combine (rev q)).
Proof.
  induction n as [|n IH]; intros p q Hp Hq Hbp Hbq.
  - destruct p, q; try discriminate. reflexivity.
  - destruct p as [|x p], q as [|y q]; try discriminate.
    injection Hp as Hp. injection Hq as Hq.
    apply Forall_cons in Hbp as [Hx Hbp]. apply Forall_cons in Hbq as [Hy Hbq].
    cbn [memcmp rev]. rewrite !le_combine_app, !length_rev, Hp, Hq.
    cbn [le_combine]. rewrite !Z.mod_small by lia.
    pose proof (le_combine_bound (rev p)) as Bp.
    pose proof (le_combine_bound (rev q)) as Bq.
    rewrite length_rev, Hp in Bp. rewrite length_rev, Hq in Bq.
    destruct (Z.eqb_spec x y) as [->|Hne].
    + rewrite (IH p q Hp Hq Hbp Hbq). f_equal. lia.
    + set (K := 256 ^ Z.of_nat n) in *.
      destruct (Z.lt_total x y) as [Hlt|[Heq|Hgt]]; [|contradiction|].
      * rewrite !Z.sgn_neg; [reflexivity| |lia]. nia.
      * rewrite !Z.sgn_pos; [reflexivity| |lia]. nia.
Qed.

(** ** What the IPv4 masks of whole bytes keep *)

Lemma rev_zeros (n : nat) : rev (replicate n 0) = replicate n 0.
Proof.
  induction n as [|n IH]; [reflexivity|].
  cbn [replicate rev]. rewrite IH. symmetry. apply replicate_S_end.
Qed.

Lemma le_split_mod_low (k : nat) :
  forall (n : nat) (w : Z), (k <= n)%nat ->
    le_split n (w mod 256 ^ Z.of_nat k) = le_split k w ++ replicate (n - k) 0.
Proof.
  induction k as [|k IH]; intros n w Hk.
  - cbn [Z.of_nat Z.pow le_split app]. rewrite Z.mod_1_r, Nat.sub_0_r.
    apply le_split_zero.
  - destruct n as [|n]; [lia|]. cbn [le_split app Nat.sub].
    rewrite Nat2Z.inj_succ, Z.pow_succ_r by lia. rewrite Z.rem_mul_r by lia.
    pose proof (Z.mod_pos_bound w 256 ltac:(lia)) as Hb.
    f_equal.
    + rewrite (Z.mul_comm 256), Z.mod_add by lia. apply Z.mod_small. exact Hb.
    + rewrite (Z.mul_comm 256), Z.div_add by lia.
      rewrite (Z.div_small (w mod 256) 256) by exact Hb. cbn [Z.add].
      apply IH. lia.
Qed.

(** Masking the little-endian lane with the table entry of [8k] bits
    rounds the number of the address down to a multiple of 2^(32-8k): the
    first [k] bytes are kept, the others cleared. *)
Lemma masked_lane_number (k : nat) (w : Z) :
  (k <= 4)%nat ->
  le_combine (rev (le_split 4 (Z.land w (Z.ones (8 * Z.of_nat k)))))
  = le_combine (rev (le_split 4 w))
    - le_combine (rev (le_split 4 w)) mod 2 ^ (32 - 8 * Z.of_nat k).
Proof.
  intros Hk. rewrite Z.land_ones by lia.
  replace (2 ^ (8 * Z.of_nat k)) with (256 ^ Z.of_nat k)
    by (rewrite Z.pow_mul_r by lia; reflexivity).
  rewrite (le_split_mod_low k 4 w Hk).
  assert (Hsplit : le_split 4 w = le_split k w ++ drop k (le_split 4 w))
    by (rewrite <- (le_split_take k 4 w Hk); symmetry; apply take_drop).
  rewrite Hsplit at 1 2.
  rewrite !rev_app_distr, !le_combine_app.
  rewrite rev_zeros, le_combine_zeros, length_replicate.
  pose proof (le_combine_bound (rev (drop k (le_split 4 w)))) as Hb.
  rewrite length_rev, length_drop, length_le_split in *.
  replace (2 ^ (32 - 8 * Z.of_nat k)) with (256 ^ Z.of_nat (4 - k))
    by (rewrite Nat2Z.inj_sub by lia; change 256 with (2 ^ 8);
        rewrite <- Z.pow_mul_r by lia; f_equal; lia).
  set (K := 256 ^ Z.of_nat (4 - k)) in *.
  rewrite Z.add_comm, Z.mul_comm, Z.mod_add by lia.
  rewrite Z.mod_small by exact Hb. lia.
Qed.

(** ** [v4_bogon_filter] decides membership in a list of disjoint prefixes *)

Lemma index_Ret {A : Type} (v : list A) (i : nat) (x : A) :
  v !! i = Some x -> index v (Z.of_nat i) = Ret x.
Proof.
  intros Hx. unfold index. destruct (Z.ltb_spec (Z.of_nat i) 0); [lia|].
  rewrite Nat2Z.id, Hx. reflexivity.
Qed.

Lemma v4_table_whole_bytes (k : Z) :
  0 <= k <= 4 -> index create_v4_mask_map (8 * k) = Ret (Z.ones (8 * k)).
Proof.
  intros Hk.
  pose proof (Forall_seqZ_elim _ _ _ v4_mask_entries (8 * k) ltac:(lia)) as He.
  unfold v4_mask_at in He. unfold index.
  destruct (Z.ltb_spec (8 * k) 0); [lia|]. rewrite He. reflexivity.
Qed.

(** One step of the lookup on a prefix of [k] whole bytes: the sign of
    the comparison is that of the prefix's number against the number of
    the address rounded down to the prefix's size. *)
Lemma v4_probe_sign pl a s m p k :
  index pl m = Ret p -> 0 <= k <= 4 -> pref_length p = 8 * k ->
  exists c t,
    v4_probe create_v4_mask_map pl a s m = Ret (c, t)
    /\ Z.sgn c
       = Z.sgn (v4_first p - (v4_number a - v4_number a mod 2 ^ (32 - 8 * k))).
Proof.
  intros Hp Hk Hl. rewrite v4_probe_compares, Hp. cbn [bind].
  rewrite Hl, (v4_table_whole_bytes k Hk). cbn [bind].
  eexists _, _. split; [reflexivity|].
  rewrite memcmp_sign;
    [|apply length_le_split|apply length_le_split
     |apply le_split_range|apply le_split_range].
  unfold v4_first, v4_number.
  replace k with (Z.of_nat (Z.to_nat k)) by lia.
  rewrite masked_lane_number by lia. reflexivity.
Qed.

Lemma v4_round_down_match (K F s : Z) :
  0 <= s -> F mod 2 ^ s = 0 ->
  (F = K - K mod 2 ^ s) <-> (F <= K < F + 2 ^ s).
Proof.
  intros Hs HF.
  assert (Hpos : 0 < 2 ^ s) by (apply Z.pow_pos_nonneg; lia).
  pose proof (Z.mod_pos_bound K (2 ^ s) Hpos) as HK.
  split; [intros ->; lia|]. intros [Hlo Hhi].
  apply Z.mod_divide in HF; [|lia]. destruct HF as [q ->].
  assert (Hq : K mod 2 ^ s = K - q * 2 ^ s).
  { symmetry. apply Z.mod_unique_pos with (q := q); lia. }
  lia.
Qed.

(** Every step of the lookup on a list of whole-byte prefixes. *)
Lemma v4_probe_at pl a s m :
  Forall v4_whole_bytes pl ->
  0 <= m <= Z.of_nat (length pl) - 1 ->
  exists p k c t,
    pl !! Z.to_nat m = Some p /\ 0 <= k <= 4
    /\ pref_length p = 8 * k
    /\ v4_first p mod 2 ^ (32 - 8 * k) = 0
    /\ v4_probe create_v4_mask_map pl a s m = Ret (c, t)
    /\ Z.sgn c
       = Z.sgn (v4_first p - (v4_number a - v4_number a mod 2 ^ (32 - 8 * k))).
Proof.
  intros Hwf Hm.
  destruct (lookup_lt_is_Some_2 pl (Z.to_nat m) ltac:(lia)) as [p Hp].
  rewrite Forall_forall in Hwf.
  destruct (Hwf p (list_elem_of_lookup_2 _ _ _ Hp)) as [(k & Hk & Hl) Hz].
  assert (Hi : index pl m = Ret p).
  { rewrite <- (Z2Nat.id m) by lia. apply index_Ret. exact Hp. }
  destruct (v4_probe_sign pl a s m p k Hi Hk Hl) as (c & t & Hc & Hs).
  exists p, k, c, t. rewrite Hl in Hz. repeat split; try assumption; lia.
Qed.

(** The lookup finds the prefix whose range holds the address, at its
    index. *)
Lemma v4_search_in_range pl a r0 m0 masked0 j pj :
  Forall v4_whole_bytes pl ->
  v4_disjoint_increasing pl ->
  pl !! j = Some pj ->
  v4_first pj <= v4_number a < v4_past_last pj ->
  exists st,
    search (v4_probe create_v4_mask_map pl a) (length pl) r0 m0 masked0 = Ret st
    /\ hit st = true /\ search_result st = 0 /\ mid st = Z.of_nat j.
Proof.
  intros Hwf Hdis Hj Hrange. set (K := v4_number a) in *.
  pose proof (lookup_lt_Some _ _ _ Hj) as Hjlt.
  destruct (search_loop_complete (v4_probe create_v4_mask_map pl a) (length pl) 0
              (Z.of_nat (length pl) - 1)
              (mk_exit false r0 m0 masked0) (Z.of_nat j) (Z.of_nat j))
    as (st & Hs & Hh & Hmid); try lia.
  - intros s m Hm. destruct (v4_probe_at pl a s m Hwf ltac:(lia))
      as (p & k & c & t & Hp & Hk & Hl & _ & Hc & Hsg).
    exists c, t. split; [exact Hc|].
    pose proof (Hdis (Z.to_nat m) j p pj ltac:(lia) Hp Hj) as Hd.
    unfold v4_past_last in Hd. rewrite Hl in Hd.
    assert (Hpos : 0 < 2 ^ (32 - 8 * k)) by (apply Z.pow_pos_nonneg; lia).
    pose proof (Z.mod_pos_bound K (2 ^ (32 - 8 * k)) Hpos).
    apply Z.sgn_neg_iff. rewrite Hsg. apply Z.sgn_neg_iff. fold (v4_first p) in Hd.
    fold K. lia.
  - intros s m Hm. assert (m = Z.of_nat j) by lia. subst m.
    destruct (v4_probe_at pl a s (Z.of_nat j) Hwf ltac:(lia))
      as (p & k & c & t & Hp & Hk & Hl & Hz & Hc & Hsg).
    rewrite Nat2Z.id, Hj in Hp. injection Hp as <-.
    exists t. rewrite Hc. do 2 f_equal.
    apply Z.sgn_null_iff. rewrite Hsg. apply Z.sgn_null_iff.
    unfold v4_past_last in Hrange. rewrite Hl in Hrange.
    pose proof (proj2 (v4_round_down_match K (v4_first pj) (32 - 8 * k)
                         ltac:(lia) Hz) Hrange).
    fold K. lia.
  - intros s m Hm. destruct (v4_probe_at pl a s m Hwf ltac:(lia))
      as (p & k & c & t & Hp & Hk & Hl & _ & Hc & Hsg).
    exists c, t. split; [exact Hc|].
    pose proof (Hdis j (Z.to_nat m) pj p ltac:(lia) Hj Hp) as Hd.
    assert (Hpos : 0 < 2 ^ (32 - 8 * k)) by (apply Z.pow_pos_nonneg; lia).
    pose proof (Z.mod_pos_bound K (2 ^ (32 - 8 * k)) Hpos).
    apply Z.sgn_pos_iff. rewrite Hsg. apply Z.sgn_pos_iff. fold K. lia.
  - exists st. split; [exact Hs|]. split; [exact Hh|].
    split; [|lia].
    apply search_loop_exit in Hs.
    destruct Hs as [(_ & Hr & _)|[(Hlt & _)|(Hh' & _)]]; [exact Hr|lia|congruence].
Qed.

(** The lookup returns; when it stops on a match, the range of the prefix
    at [mid] holds the address. *)
Lemma v4_search_returns pl a r0 m0 masked0 :
  Forall v4_whole_bytes pl ->
  exists st,
    search (v4_probe create_v4_mask_map pl a) (length pl) r0 m0 masked0 = Ret st
    /\ (hit st = true ->
        Exists (fun p => v4_first p <= v4_number a < v4_past_last p) pl).
Proof.
  intros Hwf.
  destruct (search_loop_defined (v4_probe create_v4_mask_map pl a) (length pl) 0
              (Z.of_nat (length pl) - 1)
              (mk_exit false r0 m0 masked0)) as [st Hs]; [lia| |].
  { intros s m Hm.
    destruct (v4_probe_at pl a s m Hwf Hm) as (p & k & c & t & _ & _ & _ & _ & Hc & _).
    eauto. }
  exists st. split; [exact Hs|]. intros Hh.
  destruct (search_hit _ _ _ _ _ _ Hs Hh) as [Hmid [s Hp0]].
  destruct (v4_probe_at pl a s (mid st) Hwf ltac:(lia))
    as (p & k & c & t & Hp & Hk & Hl & Hz & Hc & Hsg).
  rewrite Hc in Hp0. injection Hp0 as -> _.
  apply Exists_exists. exists p. split; [eapply list_elem_of_lookup_2; exact Hp|].
  unfold v4_past_last. rewrite Hl.
  apply (v4_round_down_match (v4_number a) (v4_first p) (32 - 8 * k) ltac:(lia) Hz).
  change (Z.sgn 0) with 0 in Hsg. symmetry in Hsg.
  apply Z.sgn_null_iff in Hsg. lia.
Qed.

(** On a list of whole-byte prefixes in increasing order with disjoint
    ranges, [v4_bogon_filter] with the table [create_v4_mask_map] returns,
    and answers POSITIVE exactly when the number of the source address
    lies in the range of one of the prefixes. *)
Theorem v4_bogon_filter_decides_membership (checked : ur_basic_flow_t)
    (prefix_list : list ip_prefix_t) (masked0 : ip_addr_t) :
  Forall v4_whole_bytes prefix_list ->
  v4_disjoint_increasing prefix_list ->
  v4_bogon_filter checked prefix_list create_v4_mask_map masked0
  = Ret (if decide (Exists (fun p => v4_first p <= v4_number (src_addr checked)
                                     < v4_past_last p) prefix_list)
         then SPOOF_POSITIVE else SPOOF_NEGATIVE).
Proof.
  intros Hwf Hdis. unfold v4_bogon_filter.
  destruct (decide _) as [Hex|Hnex].
  - apply Exists_exists in Hex. destruct Hex as (pj & Hin & Hrange).
    apply list_elem_of_lookup_1 in Hin. destruct Hin as [j Hj].
    destruct (v4_search_in_range prefix_list (src_addr checked) 0 0 masked0 j pj
                Hwf Hdis Hj Hrange) as (st & -> & Hh & _).
    cbn [bind]. unfold verdict_of_hit. rewrite Hh. reflexivity.
  - destruct (v4_search_returns prefix_list (src_addr checked) 0 0 masked0 Hwf)
      as (st & -> & Hhit).
    cbn [bind]. unfold verdict_of_hit.
    destruct (hit st); [exfalso; apply Hnex, Hhit; reflexivity|reflexivity].
Qed.

(** The list {10.0.0.0/8} and the record from 10.1.2.3. *)
Lemma v4_bogon_filter_decides_membership_10_1_2_3 :
  Forall v4_whole_bytes (bogon_list_v4 cfg_bogon_10)
  /\ v4_disjoint_increasing (bogon_list_v4 cfg_bogon_10)
  /\ v4_bogon_filter from_10_1_2_3 (bogon_list_v4 cfg_bogon_10)
       create_v4_mask_map (mk_ip 7 7)
     = Ret (if decide (Exists (fun p => v4_first p
                                        <= v4_number (src_addr from_10_1_2_3)
                                        < v4_past_last p)
                              (bogon_list_v4 cfg_bogon_10))
            then SPOOF_POSITIVE else SPOOF_NEGATIVE).
Proof.
  assert (Hwf : Forall v4_whole_bytes (bogon_list_v4 cfg_bogon_10)).
  { repeat constructor. exists 1. split; [lia|reflexivity]. }
  assert (Hdis : v4_disjoint_increasing (bogon_list_v4 cfg_bogon_10)).
  { intros i j p q Hij Hi Hj. destruct j as [|j]; [lia|]. discriminate Hj. }
  split; [exact Hwf|]. split; [exact Hdis|].
  exact (v4_bogon_filter_decides_membership from_10_1_2_3
           (bogon_list_v4 cfg_bogon_10) (mk_ip 7 7) Hwf Hdis).
Defined.

(** ** [check_new_flows_v4] counts in the bucket of the watched prefix that holds the destination *)

(** On a watched list of whole-byte prefixes in increasing order with
    disjoint ranges, [check_new_flows_v4] with the table
    [create_v4_mask_map].  When the range of the prefix at index [j]
    holds the destination address, the key is the text of the source
    address cut to its first three bytes, and bucket [j] decides: if its
    active filter holds the key the answer is NEGATIVE and nothing
    changes; if not, the key is inserted in the filters of bucket [j] on
    both sides, both counts of bucket [j] go up by one, no other bucket
    changes, and the answer is POSITIVE exactly when the new active
    count is above the threshold.  When no range holds the destination,
    the answer is NEGATIVE and nothing changes. *)
Theorem check_new_flows_v4_matches_destination {B : Type} `{Bloom B}
    (ip_to_str : ip_addr_t -> list Z) (record : ur_basic_flow_t)
    (threshold : Z) (filter : filter_pair B) (prefix_list : list ip_prefix_t)
    (masked0 : ip_addr_t) (r0 m0 : Z) (ip_key0 : list Z) :
  Forall v4_whole_bytes prefix_list ->
  v4_disjoint_increasing prefix_list ->
  prefix_list <> [] ->
  (forall (j : nat) (pj : ip_prefix_t) (fa fl : flow_count_t B),
     prefix_list !! j = Some pj ->
     v4_first pj <= v4_number (dst_addr record) < v4_past_last pj ->
     flows (bf_active filter) !! j = Some fa ->
     flows (bf_learning filter) !! j = Some fl ->
     let ip_key :=
       write_str ip_key0
         (ip_to_str (set_ui32_2 (src_addr record)
                       (ui32_2 (src_addr record) mod 2 ^ 24))) in
     check_new_flows_v4 ip_to_str record threshold filter create_v4_mask_map
       prefix_list masked0 r0 m0 ip_key0
     = Ret (if bloom_contains (sources fa) ip_key
            then (SPOOF_NEGATIVE, filter)
            else
              (if threshold <? wrap32 (count fa + 1)
               then SPOOF_POSITIVE else SPOOF_NEGATIVE,
               mk_pair
                 (mk_filter
                    (<[j := mk_count (bloom_insert (sources fa) ip_key)
                                     (wrap32 (count fa + 1))]>
                       (flows (bf_active filter))))
                 (mk_filter
                    (<[j := mk_count (bloom_insert (sources fl) ip_key)
                                     (wrap32 (count fl + 1))]>
                       (flows (bf_learning filter)))))))
  /\ (~ Exists (fun p => v4_first p <= v4_number (dst_addr record) < v4_past_last p)
          prefix_list ->
      check_new_flows_v4 ip_to_str record threshold filter create_v4_mask_map
        prefix_list masked0 r0 m0 ip_key0
      = Ret (SPOOF_NEGATIVE, filter)).
Proof.
  intros Hwf Hdis Hne. split.
  - intros j pj fa fl Hj Hrange Hfa Hfl ip_key. unfold check_new_flows_v4.
    destruct (v4_search_in_range prefix_list (dst_addr record) r0 m0 masked0 j pj
                Hwf Hdis Hj Hrange) as (st & -> & _ & Hr & Hm).
    cbn [bind]. rewrite Hr, Hm. change (negb (0 =? 0)) with false. cbv iota.
    change 24 with (8 * 3) at 1. rewrite (v4_table_whole_bytes 3) by lia.
    cbn [bind]. rewrite Z.land_ones by lia. change (8 * 3) with 24.
    pose proof (index_Ret _ _ _ Hfa) as Hia.
    pose proof (index_Ret _ _ _ Hfl) as Hil.
    fold ip_key.
    destruct (bloom_contains (sources fa) ip_key) eqn:Hc.
    + apply (count_new_flow_present ip_to_str threshold filter (Z.of_nat j) _
               ip_key0 fa Hia Hc).
    + rewrite (count_new_flow_absent ip_to_str threshold filter (Z.of_nat j) _
                 ip_key0 fa fl Hia Hil Hc).
      fold ip_key. cbn [count]. rewrite Nat2Z.id.
      destruct (threshold <? wrap32 (count fa + 1)); reflexivity.
  - intros Hnex.
    destruct (v4_search_returns prefix_list (dst_addr record) r0 m0 masked0 Hwf)
      as (st & Hs & Hhit).
    apply (check_new_flows_v4_miss ip_to_str record threshold filter
             create_v4_mask_map prefix_list masked0 r0 m0 ip_key0 st Hne Hs).
    destruct (hit st); [exfalso; apply Hnex, Hhit; reflexivity|reflexivity].
Qed.

(** The watched list {192.0.2.0/24}, threshold 2 and one pair of empty
    buckets: the first record to 192.0.2.10, from 10.0.0.1, leaves the
    key of 10.0.0.0 in bucket 0 on both sides with both counts at 1, and
    is answered NEGATIVE. *)
Lemma check_new_flows_v4_matches_destination_192_0_2 :
  Forall v4_whole_bytes watch_192_0_2
  /\ v4_disjoint_increasing watch_192_0_2
  /\ watch_192_0_2 <> []
  /\ check_new_flows_v4 bytes_as_text (inbound_to_192_0_2_10 10 0 0 1) 2
       one_bucket_pair create_v4_mask_map watch_192_0_2 (mk_ip 7 7) 7 7
       (replicate 46 7)
     = Ret (SPOOF_NEGATIVE,
            mk_pair
              (mk_filter
                 [mk_count
                    [[0; 0; 0; 0; 0; 0; 0; 0; 10; 0; 0; 0; 255; 255; 255; 255; 0]
                       ++ replicate 29 7] 1])
              (mk_filter
                 [mk_count
                    [[0; 0; 0; 0; 0; 0; 0; 0; 10; 0; 0; 0; 255; 255; 255; 255; 0]
                       ++ replicate 29 7] 1])).
Proof.
  assert (Hwf : Forall v4_whole_bytes watch_192_0_2).
  { repeat constructor. exists 3. split; [lia|reflexivity]. }
  assert (Hdis : v4_disjoint_increasing watch_192_0_2).
  { intros i j p q Hij Hi Hj. destruct j as [|j]; [lia|]. discriminate Hj. }
  assert (Hne : watch_192_0_2 <> []) by discriminate.
  split; [exact Hwf|]. split; [exact Hdis|]. split; [exact Hne|].
  etrans.
  - apply (proj1 (check_new_flows_v4_matches_destination bytes_as_text
                    (inbound_to_192_0_2_10 10 0 0 1) 2 one_bucket_pair watch_192_0_2
                    (mk_ip 7 7) 7 7 (replicate 46 7) Hwf Hdis Hne)
             0%nat (mk_prefix (v4_addr 192 0 2 0) 24)
             (mk_count bloom_new 0) (mk_count bloom_new 0)).
    + reflexivity.
    + vm_compute. split; [discriminate|reflexivity].
    + reflexivity.
    + reflexivity.
  - vm_compute. reflexivity.
Defined.

(** ** The loop stays inside its vectors and tables *)

Lemma index_defined {A : Type} (v : list A) (i : Z) :
  0 <= i < Z.of_nat (length v) -> exists x, index v i = Ret x.
Proof.
  intros Hi. unfold index. destruct (Z.ltb_spec i 0); [lia|].
  destruct (lookup_lt_is_Some_2 v (Z.to_nat i) ltac:(lia)) as [x ->]. eauto.
Qed.

Section Defined.
Context {B : Type} `{Bloom B}.
Variable ip_is4 : ip_addr_t -> bool.
Variable ip_to_str : ip_addr_t -> list Z.

Lemma v4_search_defined mm pl a r0 m0 masked0 :
  length mm = 33%nat ->
  Forall (fun p => 0 <= pref_length p <= 32) pl ->
  exists st, search (v4_probe mm pl a) (length pl) r0 m0 masked0 = Ret st.
Proof.
  intros Hmm Hall. apply search_loop_defined; [lia|].
  intros s m Hm. unfold v4_probe.
  destruct (index_defined pl m ltac:(lia)) as [p Hp]. rewrite Hp. cbn [bind].
  assert (Hl : 0 <= pref_length p <= 32).
  { rewrite Forall_forall in Hall. apply Hall.
    apply index_lookup in Hp. eapply list_elem_of_lookup_2. exact Hp. }
  destruct (index_defined mm (pref_length p) ltac:(lia)) as [msk ->]. cbn [bind].
  eauto.
Qed.

Lemma v6_search_defined (probe : list (Z * Z) -> list ip_prefix_t -> ip_addr_t ->
                                 ip_addr_t -> Z -> result (Z * ip_addr_t))
    mm pl a r0 m0 masked0 :
  probe = v6_bogon_probe \/ probe = v6_new_flows_probe ->
  length mm = 129%nat ->
  Forall (fun p => 0 <= pref_length p <= 128) pl ->
  exists st, search (probe mm pl a) (length pl) r0 m0 masked0 = Ret st.
Proof.
  intros Hpr Hmm Hall. apply search_loop_defined; [lia|].
  intros s m Hm.
  destruct (index_defined pl m ltac:(lia)) as [p Hp].
  assert (Hl : 0 <= pref_length p <= 128).
  { rewrite Forall_forall in Hall. apply Hall.
    apply index_lookup in Hp. eapply list_elem_of_lookup_2. exact Hp. }
  destruct (index_defined mm (pref_length p) ltac:(lia)) as [msk Hmsk].
  destruct Hpr as [-> | ->]; [unfold v6_bogon_probe|unfold v6_new_flows_probe];
    rewrite Hp; cbn [bind]; rewrite Hmsk; cbn [bind];
    destruct (_ : bool); eauto.
Qed.

Lemma count_new_flow_defined threshold (filter : filter_pair B) m masked ip_key0 :
  0 <= m < Z.of_nat (length (flows (bf_active filter))) ->
  0 <= m < Z.of_nat (length (flows (bf_learning filter))) ->
  exists v filter',
    count_new_flow ip_to_str threshold filter m masked ip_key0 = Ret (v, filter').
Proof.
  intros Ha Hl. unfold count_new_flow.
  destruct (index_defined _ m Ha) as [fa ->]. cbn [bind].
  destruct (bloom_contains _ _); [eauto|].
  destruct (index_defined _ m Hl) as [fl ->]. cbn [bind].
  destruct (_ <? _); eauto.
Qed.

Lemma count_new_flow_lengths threshold (filter : filter_pair B) m masked ip_key0
    v filter' :
  count_new_flow ip_to_str threshold filter m masked ip_key0 = Ret (v, filter') ->
  length (flows (bf_active filter')) = length (flows (bf_active filter))
  /\ length (flows (bf_learning filter')) = length (flows (bf_learning filter)).
Proof.
  intros Hr. apply count_new_flow_both_or_neither in Hr.
  destruct Hr as [->|(ca & cl & _ & _ & Ha & Hl)]; [split; reflexivity|].
  apply (f_equal length) in Ha, Hl.
  rewrite length_insert, !length_fmap in Ha, Hl. split; assumption.
Qed.

Lemma check_new_flows_v4_lengths record threshold (filter : filter_pair B) mm pl
    masked0 r0 m0 ip_key0 v filter' :
  check_new_flows_v4 ip_to_str record threshold filter mm pl masked0 r0 m0 ip_key0
  = Ret (v, filter') ->
  length (flows (bf_active filter')) = length (flows (bf_active filter))
  /\ length (flows (bf_learning filter')) = length (flows (bf_learning filter)).
Proof.
  unfold check_new_flows_v4.
  destruct (search _ _ _ _ _) as [st| |]; cbn [bind]; try discriminate.
  destruct (negb _); [intros [= _ <-]; split; reflexivity|].
  destruct (index mm 24) as [m24| |]; cbn [bind]; try discriminate.
  apply count_new_flow_lengths.
Qed.

Lemma check_new_flows_v6_lengths record threshold (filter : filter_pair B) mm pl
    masked0 r0 m0 ip_key0 v filter' :
  check_new_flows_v6 ip_to_str record threshold filter mm pl masked0 r0 m0 ip_key0
  = Ret (v, filter') ->
  length (flows (bf_active filter')) = length (flows (bf_active filter))
  /\ length (flows (bf_learning filter')) = length (flows (bf_learning filter)).
Proof.
  unfold check_new_flows_v6.
  destruct (search _ _ _ _ _) as [st| |]; cbn [bind]; try discriminate.
  destruct (negb _); [intros [= _ <-]; split; reflexivity|].
  destruct (index mm 64) as [m64| |]; cbn [bind]; try discriminate.
  apply count_new_flow_lengths.
Qed.

Lemma process_record_buckets_fit cfg g (d : detector B) record d' out :
  buckets_fit cfg d ->
  process_record ip_is4 ip_to_str cfg g d record = Ret (d', out) ->
  buckets_fit cfg d'.
Proof.
  intros Hfit. unfold process_record.
  destruct (bogon_stage ip_is4 cfg g record) as [vb| |]; cbn [bind];
    try discriminate.
  destruct (bool_decide (vb = SPOOF_POSITIVE)); [intros [= <- _]; exact Hfit|].
  pose proof (symetry_stage_flows ip_is4 cfg g d record) as Hs. cbv zeta in Hs.
  destruct (symetry_stage ip_is4 cfg g d record) as [[vs record'] ds].
  cbn [snd] in Hs. destruct Hs as [Hs4 Hs6].
  assert (Hfits : buckets_fit cfg ds).
  { unfold buckets_fit in *. rewrite Hs4, Hs6. exact Hfit. }
  destruct (bool_decide (vs = SPOOF_POSITIVE)); [intros [= <- _]; exact Hfits|].
  destruct (new_flows_stage ip_is4 ip_to_str cfg g ds record')
    as [[vn dn]| |] eqn:Hn; cbn [bind fst snd]; try discriminate.
  intros Hr.
  assert (d' = dn) by (destruct (bool_decide _); congruence). subst d'.
  clear Hr. unfold new_flows_stage in Hn. unfold buckets_fit in *.
  destruct Hfits as (F1 & F2 & F3 & F4).
  destruct (ip_is4 (src_addr record')).
  - destruct (check_new_flows_v4 _ _ _ _ _ _ _ _ _ _) as [[v' f']| |] eqn:Hc;
      cbn [bind fst snd] in Hn; try discriminate.
    injection Hn as _ <-. cbn [v4_flows v6_flows].
    apply check_new_flows_v4_lengths in Hc. destruct Hc as [-> ->]. auto.
  - destruct (check_new_flows_v6 _ _ _ _ _ _ _ _ _ _) as [[v' f']| |] eqn:Hc;
      cbn [bind fst snd] in Hn; try discriminate.
    injection Hn as _ <-. cbn [v4_flows v6_flows].
    apply check_new_flows_v6_lengths in Hc. destruct Hc as [-> ->]. auto.
Qed.

Lemma initial_detector_buckets_fit cfg :
  buckets_fit cfg (initial_detector (B := B) cfg).
Proof.
  unfold buckets_fit, initial_detector. cbn [v4_flows v6_flows].
  pose proof (create_nflow_filters_counts (B := B) (length (spec_list_v4 cfg))) as [A4 L4].
  pose proof (create_nflow_filters_counts (B := B) (length (spec_list_v6 cfg))) as [A6 L6].
  apply (f_equal length) in A4, L4, A6, L6.
  rewrite length_fmap, length_replicate in A4, L4, A6, L6. auto.
Qed.

Lemma reachable_buckets_fit cfg (d : detector B) :
  reachable ip_is4 ip_to_str cfg d -> buckets_fit cfg d.
Proof.
  induction 1 as [|g d record d' out _ IH Hstep].
  - apply initial_detector_buckets_fit.
  - exact (process_record_buckets_fit cfg g d record d' out IH Hstep).
Qed.
End Defined.

Section DefinedLoop.
Context {B : Type} `{Bloom B}.
Variable ip_is4 : ip_addr_t -> bool.
Variable ip_to_str : ip_addr_t -> list Z.

Lemma bogon_stage_defined cfg g record :
  lengths_in_tables cfg ->
  exists v, bogon_stage ip_is4 cfg g record = Ret v.
Proof.
  intros (H33 & H129 & H4 & H6).
  apply Forall_app in H4 as [Hb4 Hs4]. apply Forall_app in H6 as [Hb6 Hs6].
  unfold bogon_stage, v4_bogon_filter, v6_bogon_filter.
  destruct (ip_is4 (src_addr record)).
  - destruct (v4_search_defined (v4_masks cfg) (bogon_list_v4 cfg)
                (src_addr record) 0 0 (bogon_masked g) H33 Hb4) as [st ->].
    cbn [bind]. destruct (_ && _); [|eauto].
    destruct (v4_search_defined (v4_masks cfg) (spec_list_v4 cfg)
                (src_addr record) 0 0 (spec_masked g) H33 Hs4) as [st' ->].
    cbn [bind]. eauto.
  - destruct (v6_search_defined v6_bogon_probe (v6_masks cfg) (bogon_list_v6 cfg)
                (src_addr record) 0 0 (bogon_masked g) (or_introl eq_refl) H129 Hb6)
      as [st ->].
    cbn [bind]. destruct (_ && _); [|eauto].
    destruct (v6_search_defined v6_bogon_probe (v6_masks cfg) (spec_list_v6 cfg)
                (src_addr record) 0 0 (spec_masked g) (or_introl eq_refl) H129 Hs6)
      as [st' ->].
    cbn [bind]. eauto.
Qed.

(** After a search, [search_result] is 0 only on a match at an index of
    the list, unless the list is empty and the local held 0 on entry. *)
Lemma search_result_zero_mid probe (pl : list ip_prefix_t) r0 m0 masked0 st :
  (pl = [] -> r0 <> 0) ->
  search probe (length pl) r0 m0 masked0 = Ret st ->
  search_result st = 0 ->
  0 <= mid st < Z.of_nat (length pl).
Proof.
  intros Hempty Hs Hz. destruct pl as [|p pl].
  - cbn [length] in Hs. rewrite search_empty in Hs. injection Hs as <-.
    cbn in Hz. exfalso. apply Hempty; [reflexivity|exact Hz].
  - apply search_nonempty_exit in Hs; [|discriminate].
    destruct Hs as [(_ & _ & Hm)|(_ & Hr)]; [exact Hm|contradiction].
Qed.

Lemma new_flows_stage_defined cfg g (d : detector B) record :
  lengths_in_tables cfg ->
  buckets_fit cfg d ->
  (spec_list_v4 cfg = [] -> nf_search_result g <> 0) ->
  (spec_list_v6 cfg = [] -> nf_search_result g <> 0) ->
  exists v d', new_flows_stage ip_is4 ip_to_str cfg g d record = Ret (v, d').
Proof.
  intros (H33 & H129 & H4 & H6) (F1 & F2 & F3 & F4) He4 He6.
  apply Forall_app in H4 as [_ Hs4]. apply Forall_app in H6 as [_ Hs6].
  unfold new_flows_stage. destruct (ip_is4 (src_addr record)).
  - unfold check_new_flows_v4.
    destruct (v4_search_defined (v4_masks cfg) (spec_list_v4 cfg)
                (dst_addr record) (nf_search_result g) (nf_mid g) (nf_masked g)
                H33 Hs4) as [st Hs].
    rewrite Hs. cbn [bind].
    destruct (Z.eqb_spec (search_result st) 0) as [Hz|]; cbn [negb bind fst snd];
      [|eauto].
    destruct (index_defined (v4_masks cfg) 24 ltac:(lia)) as [m24 ->]. cbn [bind].
    pose proof (search_result_zero_mid _ _ _ _ _ _ He4 Hs Hz) as Hm.
    destruct (count_new_flow_defined ip_to_str (nf_threshold cfg) (v4_flows d)
                (mid st)
                (set_ui32_2 (src_addr record) (Z.land (ui32_2 (src_addr record)) m24))
                (nf_ip_key g) ltac:(lia) ltac:(lia)) as (v & f' & ->).
    cbn [bind fst snd]. eauto.
  - unfold check_new_flows_v6.
    destruct (v6_search_defined v6_new_flows_probe (v6_masks cfg) (spec_list_v6 cfg)
                (src_addr record) (nf_search_result g) (nf_mid g) (nf_masked g)
                (or_intror eq_refl) H129 Hs6) as [st Hs].
    rewrite Hs. cbn [bind].
    destruct (Z.eqb_spec (search_result st) 0) as [Hz|]; cbn [negb bind fst snd];
      [|eauto].
    destruct (index_defined (v6_masks cfg) 64 ltac:(lia)) as [m64 ->]. cbn [bind].
    pose proof (search_result_zero_mid _ _ _ _ _ _ He6 Hs Hz) as Hm.
    destruct (count_new_flow_defined ip_to_str (nf_threshold cfg) (v6_flows d)
                (mid st)
                (set_ui64_1
                   (set_ui64_0 (src_addr record)
                      (Z.land (ui64_0 (src_addr record)) (fst m64)))
                   (Z.land (ui64_1 (set_ui64_0 (src_addr record)
                              (Z.land (ui64_0 (src_addr record)) (fst m64)))) 0))
                (nf_ip_key g) ltac:(lia) ltac:(lia)) as (v & f' & ->).
    cbn [bind fst snd]. eauto.
Qed.
End DefinedLoop.

(** In a state the loop can reach, with mask tables of 33 and 129 entries
    and prefix lengths of at most 32 and 128, an iteration returns: no
    search leaves the prefix list, no prefix length leaves its table and
    no bucket index leaves the bucket vectors.  (For a family without
    watched prefix this needs the unset [search_result] not to hold 0.) *)
Theorem process_record_stays_in_bounds {B : Type} `{Bloom B}
    (ip_is4 : ip_addr_t -> bool) (ip_to_str : ip_addr_t -> list Z)
    (cfg : config) (g : indeterminate) (d : detector B)
    (record : ur_basic_flow_t) :
  lengths_in_tables cfg ->
  reachable ip_is4 ip_to_str cfg d ->
  (spec_list_v4 cfg = [] -> nf_search_result g <> 0) ->
  (spec_list_v6 cfg = [] -> nf_search_result g <> 0) ->
  exists d' out, process_record ip_is4 ip_to_str cfg g d record = Ret (d', out).
Proof.
  intros Htab Hreach He4 He6.
  pose proof (reachable_buckets_fit ip_is4 ip_to_str cfg d Hreach) as Hfit.
  unfold process_record.
  destruct (bogon_stage_defined ip_is4 cfg g record Htab) as [vb ->]. cbn [bind].
  destruct (bool_decide (vb = SPOOF_POSITIVE)); [eauto|].
  pose proof (symetry_stage_flows ip_is4 cfg g d record) as Hs. cbv zeta in Hs.
  destruct (symetry_stage ip_is4 cfg g d record) as [[vs record'] ds].
  cbn [snd] in Hs. destruct Hs as [Hs4 Hs6].
  assert (Hfits : buckets_fit cfg ds).
  { unfold buckets_fit in *. rewrite Hs4, Hs6. exact Hfit. }
  destruct (bool_decide (vs = SPOOF_POSITIVE)); [eauto|].
  destruct (new_flows_stage_defined ip_is4 ip_to_str cfg g ds record'
              Htab Hfits He4 He6) as (v & d' & ->).
  cbn [bind fst snd]. destruct (bool_decide _); eauto.
Qed.

(** The watched list {192.0.2.0/24}, no IPv6 prefix, after one record. *)
Lemma process_record_stays_in_bounds_after_one_flow :
  lengths_in_tables cfg_watch_192_0_2
  /\ reachable unirec_ip_is4 bytes_as_text cfg_watch_192_0_2 detector_after_one_flow
  /\ (spec_list_v4 cfg_watch_192_0_2 = [] -> nf_search_result locals_7 <> 0)
  /\ (spec_list_v6 cfg_watch_192_0_2 = [] -> nf_search_result locals_7 <> 0)
  /\ exists d' out,
       process_record unirec_ip_is4 bytes_as_text cfg_watch_192_0_2 locals_7
         detector_after_one_flow (inbound_to_192_0_2_10 10 0 1 1) = Ret (d', out).
Proof.
  assert (Htab : lengths_in_tables cfg_watch_192_0_2).
  { split; [reflexivity|]. split; [reflexivity|].
    split; repeat constructor; cbn; lia. }
  assert (Hr : reachable unirec_ip_is4 bytes_as_text cfg_watch_192_0_2
                 detector_after_one_flow).
  { apply (reach_step unirec_ip_is4 bytes_as_text cfg_watch_192_0_2 locals_7
             (initial_detector cfg_watch_192_0_2) (inbound_to_192_0_2_10 10 0 0 1)
             detector_after_one_flow None).
    - apply reach_init.
    - vm_compute; reflexivity. }
  assert (He : nf_search_result locals_7 <> 0) by discriminate.
  split; [exact Htab|]. split; [exact Hr|].
  split; [intros _; exact He|]. split; [intros _; exact He|].
  exact (process_record_stays_in_bounds unirec_ip_is4 bytes_as_text
           cfg_watch_192_0_2 locals_7 detector_after_one_flow
           (inbound_to_192_0_2_10 10 0 1 1) Htab Hr (fun _ => He) (fun _ => He)).
Defined.

(** ** The new-flow filter cannot flag before the threshold is passed *)

Section CountBound.
Context {B : Type} `{Bloom B}.
Variable ip_is4 : ip_addr_t -> bool.
Variable ip_to_str : ip_addr_t -> list Z.

Lemma wrap32_succ_bound (c n : Z) : 0 <= c <= n -> 0 <= wrap32 (c + 1) <= n + 1.
Proof.
  intros Hc. unfold wrap32.
  pose proof (Z.mod_pos_bound (c + 1) (2 ^ 32) ltac:(lia)).
  pose proof (Z.mod_le (c + 1) (2 ^ 32) ltac:(lia) ltac:(lia)). lia.
Qed.

Lemma count_new_flow_bound threshold (filter : filter_pair B) m masked ip_key0
    v filter' (n : Z) :
  Forall (fun c => 0 <= c <= n) (count <$> flows (bf_active filter)) ->
  count_new_flow ip_to_str threshold filter m masked ip_key0 = Ret (v, filter') ->
  Forall (fun c => 0 <= c <= n + 1) (count <$> flows (bf_active filter'))
  /\ (v = SPOOF_POSITIVE -> threshold < n + 1).
Proof.
  intros Hall. unfold count_new_flow.
  assert (Hweak : Forall (fun c => 0 <= c <= n + 1) (count <$> flows (bf_active filter))).
  { eapply Forall_impl; [exact Hall|]. cbn. intros; lia. }
  destruct (index (flows (bf_active filter)) m) as [fa| |] eqn:Hfa;
    cbn [bind]; try discriminate.
  destruct (bloom_contains _ _);
    [intros [= <- <-]; split; [exact Hweak|discriminate]|].
  destruct (index (flows (bf_learning filter)) m) as [fl| |] eqn:Hfl;
    cbn [bind]; try discriminate.
  apply index_lookup in Hfa.
  assert (Hca : 0 <= count fa <= n).
  { rewrite Forall_forall in Hall. apply Hall.
    apply list_elem_of_lookup_2 with (i := Z.to_nat m).
    rewrite list_lookup_fmap, Hfa. reflexivity. }
  pose proof (wrap32_succ_bound _ _ Hca) as Hw.
  cbn [count].
  destruct (Z.ltb_spec threshold (wrap32 (count fa + 1))); intros [= <- <-];
    cbn [bf_active flows]; rewrite list_fmap_insert;
    (split; [apply Forall_insert; [exact Hweak|exact Hw]|]);
    [intros _; lia|discriminate].
Qed.

Lemma new_flows_stage_bound cfg g (d : detector B) record v d' (n : nat) :
  counts_at_most n d ->
  new_flows_stage ip_is4 ip_to_str cfg g d record = Ret (v, d') ->
  counts_at_most (S n) d'
  /\ (v = SPOOF_POSITIVE -> nf_threshold cfg < Z.of_nat n + 1).
Proof.
  intros [H4 H6]. unfold counts_at_most. rewrite Nat2Z.inj_succ.
  assert (W4 : Forall (fun c => 0 <= c <= Z.succ (Z.of_nat n))
                 (count <$> flows (bf_active (v4_flows d))))
    by (eapply Forall_impl; [exact H4|]; cbn; intros; lia).
  assert (W6 : Forall (fun c => 0 <= c <= Z.succ (Z.of_nat n))
                 (count <$> flows (bf_active (v6_flows d))))
    by (eapply Forall_impl; [exact H6|]; cbn; intros; lia).
  unfold new_flows_stage. destruct (ip_is4 (src_addr record)).
  - unfold check_new_flows_v4.
    destruct (search _ _ _ _ _) as [st| |]; cbn [bind]; try discriminate.
    destruct (negb _); cbn [bind fst snd].
    { intros [= <- <-]. cbn [v4_flows v6_flows]. repeat split; try assumption.
      discriminate. }
    destruct (index (v4_masks cfg) 24) as [m24| |]; cbn [bind]; try discriminate.
    destruct (count_new_flow _ _ _ _ _ _) as [[v' f']| |] eqn:Hc;
      cbn [bind fst snd]; try discriminate.
    intros [= <- <-]. cbn [v4_flows v6_flows].
    destruct (count_new_flow_bound _ _ _ _ _ _ _ _ H4 Hc) as [Hb Hp].
    unfold Z.succ. repeat split; assumption.
  - unfold check_new_flows_v6.
    destruct (search _ _ _ _ _) as [st| |]; cbn [bind]; try discriminate.
    destruct (negb _); cbn [bind fst snd].
    { intros [= <- <-]. cbn [v4_flows v6_flows]. repeat split; try assumption.
      discriminate. }
    destruct (index (v6_masks cfg) 64) as [m64| |]; cbn [bind]; try discriminate.
    destruct (count_new_flow _ _ _ _ _ _) as [[v' f']| |] eqn:Hc;
      cbn [bind fst snd]; try discriminate.
    intros [= <- <-]. cbn [v4_flows v6_flows].
    destruct (count_new_flow_bound _ _ _ _ _ _ _ _ H6 Hc) as [Hb Hp].
    unfold Z.succ. repeat split; assumption.
Qed.

Lemma process_record_counts_at_most cfg g (d : detector B) record d' out (n : nat) :
  counts_at_most n d ->
  process_record ip_is4 ip_to_str cfg g d record = Ret (d', out) ->
  counts_at_most (S n) d'.
Proof.
  intros Hn.
  assert (Hweak : forall x : detector B, counts_at_most n x -> counts_at_most (S n) x).
  { intros x [A C]. split; (eapply Forall_impl; [eassumption|]); cbn; intros; lia. }
  unfold process_record.
  destruct (bogon_stage ip_is4 cfg g record) as [vb| |]; cbn [bind];
    try discriminate.
  destruct (bool_decide (vb = SPOOF_POSITIVE));
    [intros [= <- _]; apply Hweak; exact Hn|].
  pose proof (symetry_stage_flows ip_is4 cfg g d record) as Hs. cbv zeta in Hs.
  destruct (symetry_stage ip_is4 cfg g d record) as [[vs record'] ds].
  cbn [snd] in Hs. destruct Hs as [Hs4 Hs6].
  assert (Hns : counts_at_most n ds).
  { unfold counts_at_most in *. rewrite Hs4, Hs6. exact Hn. }
  destruct (bool_decide (vs = SPOOF_POSITIVE));
    [intros [= <- _]; apply Hweak; exact Hns|].
  destruct (new_flows_stage ip_is4 ip_to_str cfg g ds record')
    as [[vn dn]| |] eqn:Hnf; cbn [bind fst snd]; try discriminate.
  intros Hr.
  assert (d' = dn) by (destruct (bool_decide _); congruence). subst d'.
  exact (proj1 (new_flows_stage_bound cfg g ds record' vn dn n Hns Hnf)).
Qed.

Lemma reachable_in_counts_at_most cfg (n : nat) (d : detector B) :
  reachable_in ip_is4 ip_to_str cfg n d -> counts_at_most n d.
Proof.
  induction 1 as [|n g d record d' out _ IH Hstep].
  - unfold counts_at_most, initial_detector. cbn [v4_flows v6_flows].
    destruct (create_nflow_filters_counts (B := B) (length (spec_list_v4 cfg)))
      as [-> _].
    destruct (create_nflow_filters_counts (B := B) (length (spec_list_v6 cfg)))
      as [-> _].
    split; apply Forall_replicate; cbn; lia.
  - exact (process_record_counts_at_most cfg g d record d' out n IH Hstep).
Qed.
End CountBound.

(** The third stage of an iteration that follows [n] earlier ones answers
    POSITIVE only if the threshold is below [n + 1]: no record among the
    first [nf_threshold] ones of a run can be flagged by the new-flow
    filter. *)
Theorem new_flows_stage_positive_needs_threshold_records
    {B : Type} `{Bloom B}
    (ip_is4 : ip_addr_t -> bool) (ip_to_str : ip_addr_t -> list Z)
    (cfg : config) (g : indeterminate) (n : nat) (d ds d' : detector B)
    (record : ur_basic_flow_t) :
  reachable_in ip_is4 ip_to_str cfg n d ->
  v4_flows ds = v4_flows d -> v6_flows ds = v6_flows d ->
  new_flows_stage ip_is4 ip_to_str cfg g ds record = Ret (SPOOF_POSITIVE, d') ->
  nf_threshold cfg < Z.of_nat n + 1.
Proof.
  intros Hreach E4 E6 Hnf.
  pose proof (reachable_in_counts_at_most ip_is4 ip_to_str cfg n d Hreach) as Hn.
  assert (Hns : counts_at_most n ds).
  { unfold counts_at_most in *. rewrite E4, E6. exact Hn. }
  exact (proj2 (new_flows_stage_bound ip_is4 ip_to_str cfg g ds record
                  SPOOF_POSITIVE d' n Hns Hnf) eq_refl).
Qed.

(** Threshold 2: the third record from a new /24 network is the first the
    filter can flag. *)
Lemma new_flows_stage_positive_on_third_record :
  reachable_in unirec_ip_is4 bytes_as_text cfg_watch_192_0_2 2 detector_after_two_flows
  /\ (exists d',
        new_flows_stage unirec_ip_is4 bytes_as_text cfg_watch_192_0_2 locals_7
          detector_after_two_flows (inbound_to_192_0_2_10 10 0 2 1)
        = Ret (SPOOF_POSITIVE, d'))
  /\ nf_threshold cfg_watch_192_0_2 < Z.of_nat 2 + 1.
Proof.
  assert (Hr : reachable_in unirec_ip_is4 bytes_as_text cfg_watch_192_0_2 2
                 detector_after_two_flows).
  { apply (reach_in_step unirec_ip_is4 bytes_as_text cfg_watch_192_0_2 1 locals_7
             detector_after_one_flow (inbound_to_192_0_2_10 10 0 1 1)
             detector_after_two_flows None).
    - apply (reach_in_step unirec_ip_is4 bytes_as_text cfg_watch_192_0_2 0 locals_7
               (initial_detector cfg_watch_192_0_2) (inbound_to_192_0_2_10 10 0 0 1)
               detector_after_one_flow None).
      + apply reach_in_init.
      + vm_compute; reflexivity.
    - vm_compute; reflexivity. }
  split; [exact Hr|].
  assert (Hex : exists d',
             new_flows_stage unirec_ip_is4 bytes_as_text cfg_watch_192_0_2 locals_7
               detector_after_two_flows (inbound_to_192_0_2_10 10 0 2 1)
             = Ret (SPOOF_POSITIVE, d')).
  { eexists. vm_compute. reflexivity. }
  split; [exact Hex|]. destruct Hex as [d' Hd'].
  exact (new_flows_stage_positive_needs_threshold_records unirec_ip_is4
           bytes_as_text cfg_watch_192_0_2 locals_7 2 detector_after_two_flows
           detector_after_two_flows d' (inbound_to_192_0_2_10 10 0 2 1)
           Hr eq_refl eq_refl Hd').
Defined.

(** ** The symmetry maps only grow *)

Lemma land_lor_same (a b : Z) : Z.land a (Z.lor a b) = a.
Proof.
  apply Z.bits_inj'. intros n Hn. rewrite Z.land_spec, Z.lor_spec.
  destruct (Z.testbit a n), (Z.testbit b n); reflexivity.
Qed.


Lemma links_kept_refl (src : gmap Z sym_src_t) : links_kept src src.
Proof. intros k e He. exists e. split; [exact He|apply Z.land_diag]. Qed.

Lemma links_kept_insert_new (src : gmap Z sym_src_t) key rec :
  links_kept src (map_insert_if_absent key rec src).
Proof.
  unfold map_insert_if_absent. destruct (src !! key) eqn:Hk;
    [apply links_kept_refl|].
  intros k e He. destruct (decide (k = key)) as [->|Hne]; [congruence|].
  exists e. rewrite lookup_insert_ne by congruence.
  split; [exact He|apply Z.land_diag].
Qed.

Lemma links_kept_update (src : gmap Z sym_src_t) key e0 l ts :
  src !! key = Some e0 ->
  links_kept src (<[key := {| link := Z.lor (link e0) l; timestamp := ts |}]> src).
Proof.
  intros H0 k e He. destruct (decide (k = key)) as [->|Hne].
  - rewrite lookup_insert_eq. eexists. split; [reflexivity|].
    assert (e = e0) by congruence. subst e. cbn [link]. apply land_lor_same.
  - exists e. rewrite lookup_insert_ne by congruence.
    split; [exact He|apply Z.land_diag].
Qed.

Lemma check_symetry_v4_links_kept record src rw_time :
  links_kept src (snd (check_symetry_v4 record src rw_time)).
Proof.
  unfold check_symetry_v4.
  destruct (dirbitfield record =? 0).
  - destruct (src !! _) as [e|] eqn:He; [destruct (within_rw_time _ _ _)|];
      cbn [snd].
    + apply links_kept_update. exact He.
    + apply links_kept_insert_new.
    + apply links_kept_insert_new.
  - destruct (src !! _) as [e|]; [destruct (_ =? 0)|]; apply links_kept_refl.
Qed.

Lemma check_symetry_v6_links_kept record src rw_time ts0 :
  links_kept src (snd (check_symetry_v6 record src rw_time ts0)).
Proof.
  unfold check_symetry_v6. cbv zeta.
  destruct (dirbitfield (swap_address_halves record) =? 0).
  - destruct (src !! _) as [e|] eqn:He; [destruct (within_rw_time _ _ _)|];
      cbn [snd].
    + apply links_kept_update. exact He.
    + apply links_kept_insert_new.
    + apply links_kept_insert_new.
  - destruct (src !! _) as [e|]; [destruct (_ =? 0)|]; apply links_kept_refl.
Qed.

(** No iteration of the loop removes an entry of a symmetry map or
    clears one of its link bits: whatever the record, each entry of the
    two maps is still there afterwards with at least the same bits. *)
Theorem process_record_keeps_links {B : Type} `{Bloom B}
    (ip_is4 : ip_addr_t -> bool) (ip_to_str : ip_addr_t -> list Z)
    (cfg : config) (g : indeterminate) (d d' : detector B)
    (record : ur_basic_flow_t) (out : option ur_basic_flow_t) :
  process_record ip_is4 ip_to_str cfg g d record = Ret (d', out) ->
  links_kept (v4_route_sym d) (v4_route_sym d')
  /\ links_kept (v6_route_sym d) (v6_route_sym d').
Proof.
  unfold process_record.
  destruct (bogon_stage ip_is4 cfg g record) as [vb| |]; cbn [bind];
    try discriminate.
  destruct (bool_decide (vb = SPOOF_POSITIVE));
    [intros [= <- _]; split; apply links_kept_refl|].
  assert (Hsym : links_kept (v4_route_sym d)
                   (v4_route_sym (snd (symetry_stage ip_is4 cfg g d record)))
                 /\ links_kept (v6_route_sym d)
                      (v6_route_sym (snd (symetry_stage ip_is4 cfg g d record)))).
  { unfold symetry_stage. destruct (ip_is4 (src_addr record)).
    - pose proof (check_symetry_v4_links_kept record (v4_route_sym d)
                    (sym_rw_time cfg)) as Hk.
      destruct (check_symetry_v4 _ _ _) as [v src']. cbn [snd] in *.
      split; [exact Hk|apply links_kept_refl].
    - pose proof (check_symetry_v6_links_kept record (v6_route_sym d)
                    (sym_rw_time cfg) (sym_timestamp g)) as Hk.
      destruct (check_symetry_v6 _ _ _ _) as [[v r'] src']. cbn [snd] in *.
      split; [apply links_kept_refl|exact Hk]. }
  destruct (symetry_stage ip_is4 cfg g d record) as [[vs record'] ds].
  cbn [snd] in Hsym.
  destruct (bool_decide (vs = SPOOF_POSITIVE)); [intros [= <- _]; exact Hsym|].
  destruct (new_flows_stage ip_is4 ip_to_str cfg g ds record')
    as [[vn dn]| |] eqn:Hn; cbn [bind fst snd]; try discriminate.
  intros Hr.
  assert (d' = dn) by (destruct (bool_decide _); congruence). subst d'.
  unfold new_flows_stage in Hn.
  destruct (ip_is4 (src_addr record')).
  - destruct (check_new_flows_v4 _ _ _ _ _ _ _ _ _ _) as [[v' f']| |];
      cbn [bind fst snd] in Hn; try discriminate.
    injection Hn as _ <-. exact Hsym.
  - destruct (check_new_flows_v6 _ _ _ _ _ _ _ _ _ _) as [[v' f']| |];
      cbn [bind fst snd] in Hn; try discriminate.
    injection Hn as _ <-. exact Hsym.
Qed.

(** After outbound traffic to 203.0.113.1 and to 2001:db8::1 on link 2,
    a further outbound record to 203.0.113.1 on link 4 with the same
    time: the entry of 203.0.113.0 goes from link bits 2 to link bits 6
    and the entry of the IPv6 destination stays. *)
Lemma process_record_keeps_links_203 :
  v4_route_sym detector_after_outbound_both !! 0xCB007100
  = Some (mk_sym 2 (1000 * 2 ^ 32))
  /\ (exists e, v6_route_sym detector_after_outbound_both !! 0x20010db800000000
                = Some e /\ link e = 2)
  /\ (exists d',
        process_record unirec_ip_is4 bytes_as_text cfg_watch_both locals_7
          detector_after_outbound_both (outbound_203 4 1000)
        = Ret (d', None)
        /\ v4_route_sym d' !! 0xCB007100 = Some (mk_sym 6 (1000 * 2 ^ 32))
        /\ links_kept (v4_route_sym detector_after_outbound_both) (v4_route_sym d')
        /\ links_kept (v6_route_sym detector_after_outbound_both) (v6_route_sym d')).
Proof.
  split; [vm_compute; reflexivity|].
  split; [eexists; split; vm_compute; reflexivity|].
  destruct (process_record unirec_ip_is4 bytes_as_text cfg_watch_both locals_7
              detector_after_outbound_both (outbound_203 4 1000))
    as [[d' out]| |] eqn:Hstep; [|vm_compute in Hstep; discriminate..].
  assert (Hout : out = None) by (vm_compute in Hstep; congruence).
  assert (Hlink : v4_route_sym d' !! 0xCB007100 = Some (mk_sym 6 (1000 * 2 ^ 32))).
  { vm_compute in Hstep. injection Hstep as <- _. vm_compute. reflexivity. }
  subst out. exists d'. split; [reflexivity|]. split; [exact Hlink|].
  exact (process_record_keeps_links unirec_ip_is4 bytes_as_text cfg_watch_both
           locals_7 detector_after_outbound_both d' (outbound_203 4 1000) None
           Hstep).
Defined.

(** ** The symmetric-route filter touches one entry *)

(** [check_symetry_v4] and [check_symetry_v6] leave every entry other
    than the one of the record's aggregated destination as it is, and an
    inbound record leaves the whole map as it is. *)
Theorem check_symetry_changes_one_entry (record : ur_basic_flow_t)
    (src : gmap Z sym_src_t) (rw_time ts0 : Z) :
  (forall k,
     k <> Z.land (ip_get_v4_as_int (dst_addr record)) 0xFFFFFF00 ->
     snd (check_symetry_v4 record src rw_time) !! k = src !! k)
  /\ (forall k,
        k <> ui64_0 (dst_addr (swap_address_halves record)) ->
        snd (check_symetry_v6 record src rw_time ts0) !! k = src !! k)
  /\ (dirbitfield record <> 0 ->
      snd (check_symetry_v4 record src rw_time) = src
      /\ snd (check_symetry_v6 record src rw_time ts0) = src).
Proof.
  split; [|split].
  - intros k Hk. unfold check_symetry_v4.
    destruct (dirbitfield record =? 0).
    + unfold map_insert_if_absent.
      destruct (src !! Z.land _ _) as [e|] eqn:He;
        [destruct (within_rw_time _ _ _)|]; cbn [snd];
        rewrite ?He; try reflexivity; apply lookup_insert_ne; congruence.
    + destruct (src !! _) as [e|]; [destruct (_ =? 0)|]; reflexivity.
  - intros k Hk. unfold check_symetry_v6. cbv zeta.
    destruct (dirbitfield (swap_address_halves record) =? 0).
    + unfold map_insert_if_absent.
      destruct (src !! ui64_0 _) as [e|] eqn:He;
        [destruct (within_rw_time _ _ _)|]; cbn [snd];
        rewrite ?He; try reflexivity; apply lookup_insert_ne; congruence.
    + destruct (src !! _) as [e|]; [destruct (_ =? 0)|]; reflexivity.
  - intros Hd. rewrite check_symetry_v4_inbound, check_symetry_v6_inbound by exact Hd.
    split; reflexivity.
Qed.

(** ** A route learned from an outbound record is accepted on the way back *)




(** ** Counting the same flow again *)

(** With a Bloom filter that has no false negative, a second call of
    [check_new_flows_v4] or [check_new_flows_v6] on the same record, with
    the locals holding what they held at the first, answers NEGATIVE and
    changes nothing: the source is counted once. *)
Theorem check_new_flows_twice {B : Type} `{Bloom B} `{!BloomNoFalseNegative B}
    (ip_to_str : ip_addr_t -> list Z) (record : ur_basic_flow_t)
    (threshold : Z) (filter filter' : filter_pair B) (v : verdict)
    (mm4 : list Z) (mm6 : list (Z * Z)) (prefix_list : list ip_prefix_t)
    (masked0 : ip_addr_t) (r0 m0 : Z) (ip_key0 : list Z) :
  (check_new_flows_v4 ip_to_str record threshold filter mm4 prefix_list
     masked0 r0 m0 ip_key0 = Ret (v, filter') ->
   check_new_flows_v4 ip_to_str record threshold filter' mm4 prefix_list
     masked0 r0 m0 ip_key0 = Ret (SPOOF_NEGATIVE, filter'))
  /\ (check_new_flows_v6 ip_to_str record threshold filter mm6 prefix_list
        masked0 r0 m0 ip_key0 = Ret (v, filter') ->
      check_new_flows_v6 ip_to_str record threshold filter' mm6 prefix_list
        masked0 r0 m0 ip_key0 = Ret (SPOOF_NEGATIVE, filter')).
Proof.
  split.
  - unfold check_new_flows_v4.
    destruct (search _ _ _ _ _) as [st| |]; cbn [bind]; try discriminate.
    destruct (negb _); [intros [= _ <-]; reflexivity|].
    destruct (index mm4 24) as [m24| |]; cbn [bind]; try discriminate.
    intros Hc. eapply count_new_flow_same_key_twice; [assumption|exact Hc].
  - unfold check_new_flows_v6.
    destruct (search _ _ _ _ _) as [st| |]; cbn [bind]; try discriminate.
    destruct (negb _); [intros [= _ <-]; reflexivity|].
    destruct (index mm6 64) as [m64| |]; cbn [bind]; try discriminate.
    intros Hc. eapply count_new_flow_same_key_twice; [assumption|exact Hc].
Qed.

(** The same record to 192.0.2.10 twice, over exact sets. *)
Lemma check_new_flows_twice_192_0_2 :
  exists f1,
    check_new_flows_v4 bytes_as_text (inbound_to_192_0_2_10 10 0 0 1) 1000
      one_bucket_pair create_v4_mask_map watch_192_0_2 (mk_ip 0 0) 0 0
      (replicate 46 7) = Ret (SPOOF_NEGATIVE, f1)
    /\ count <$> flows (bf_active f1) = [1]
    /\ check_new_flows_v4 bytes_as_text (inbound_to_192_0_2_10 10 0 0 1) 1000
         f1 create_v4_mask_map watch_192_0_2 (mk_ip 0 0) 0 0
         (replicate 46 7) = Ret (SPOOF_NEGATIVE, f1).
Proof.
  eexists. split; [vm_compute; reflexivity|]. split; [reflexivity|].
  apply (proj1 (check_new_flows_twice (B := exact_set) bytes_as_text
                  (inbound_to_192_0_2_10 10 0 0 1) 1000 one_bucket_pair _
                  SPOOF_NEGATIVE create_v4_mask_map (create_v6_mask_map shr64_x86)
                  watch_192_0_2 (mk_ip 0 0) 0 0 (replicate 46 7))).
  vm_compute; reflexivity.
Defined.

(** ** An IPv4 record leaves the IPv6 state alone *)

(** An iteration on a record that [ip_is4] takes for IPv4 leaves the IPv6
    symmetry map and the IPv6 buckets as they were, and sends the record,
    if it sends one, unchanged; an iteration on any other record leaves
    the IPv4 symmetry map as it was. *)
Theorem process_record_family_frame {B : Type} `{Bloom B}
    (ip_is4 : ip_addr_t -> bool) (ip_to_str : ip_addr_t -> list Z)
    (cfg : config) (g : indeterminate) (d d' : detector B)
    (record : ur_basic_flow_t) (out : option ur_basic_flow_t) :
  process_record ip_is4 ip_to_str cfg g d record = Ret (d', out) ->
  (ip_is4 (src_addr record) = true ->
   v6_route_sym d' = v6_route_sym d /\ v6_flows d' = v6_flows d
   /\ (out = None \/ out = Some record))
  /\ (ip_is4 (src_addr record) = false -> v4_route_sym d' = v4_route_sym d).
Proof.
  unfold process_record.
  destruct (bogon_stage ip_is4 cfg g record) as [vb| |]; cbn [bind];
    try discriminate.
  destruct (bool_decide (vb = SPOOF_POSITIVE)).
  { intros [= <- <-]. split; intros _; auto. }
  unfold symetry_stage.
  destruct (ip_is4 (src_addr record)) eqn:H4.
  - destruct (check_symetry_v4 record (v4_route_sym d) (sym_rw_time cfg))
      as [vs src'].
    destruct (bool_decide (vs = SPOOF_POSITIVE)).
    { intros [= <- <-]. cbn. split; [auto|discriminate]. }
    unfold new_flows_stage. rewrite H4.
    destruct (check_new_flows_v4 _ _ _ _ _ _ _ _ _ _) as [[v' f']| |];
      cbn [bind fst snd]; try discriminate.
    destruct (bool_decide (v' = SPOOF_POSITIVE)); intros [= <- <-]; cbn;
      (split; [auto|discriminate]).
  - destruct (check_symetry_v6 record (v6_route_sym d) (sym_rw_time cfg)
                (sym_timestamp g)) as [[vs record'] src'].
    destruct (bool_decide (vs = SPOOF_POSITIVE)).
    { intros [= <- <-]. cbn. split; [discriminate|auto]. }
    unfold new_flows_stage.
    destruct (ip_is4 (src_addr record')).
    + destruct (check_new_flows_v4 _ _ _ _ _ _ _ _ _ _) as [[v' f']| |];
        cbn [bind fst snd]; try discriminate.
      destruct (bool_decide (v' = SPOOF_POSITIVE)); intros [= <- <-]; cbn;
        (split; [discriminate|auto]).
    + destruct (check_new_flows_v6 _ _ _ _ _ _ _ _ _ _) as [[v' f']| |];
        cbn [bind fst snd]; try discriminate.
      destruct (bool_decide (v' = SPOOF_POSITIVE)); intros [= <- <-]; cbn;
        (split; [discriminate|auto]).
Qed.

(** The record to 192.0.2.10 after one earlier flow. *)
Lemma process_record_family_frame_192_0_2 :
  (exists out,
     process_record unirec_ip_is4 bytes_as_text cfg_watch_192_0_2 locals_7
       detector_after_one_flow (inbound_to_192_0_2_10 10 0 1 1)
     = Ret (detector_after_two_flows, out))
  /\ v6_flows detector_after_two_flows = v6_flows detector_after_one_flow.
Proof.
  assert (Hex : exists out,
     process_record unirec_ip_is4 bytes_as_text cfg_watch_192_0_2 locals_7
       detector_after_one_flow (inbound_to_192_0_2_10 10 0 1 1)
     = Ret (detector_after_two_flows, out)).
  { eexists. vm_compute. reflexivity. }
  split; [exact Hex|]. destruct Hex as [out Hout].
  exact (proj1 (proj2 (proj1 (process_record_family_frame unirec_ip_is4
                  bytes_as_text cfg_watch_192_0_2 locals_7 detector_after_one_flow
                  detector_after_two_flows (inbound_to_192_0_2_10 10 0 1 1) out Hout)
                 eq_refl))).
Defined.

(** ** Start-up: the options *)

Section OptionFacts.
Variable atoi : string -> Z.

Lemma getopt_fold_b_flag (args : list (ascii * string)) :
  forall o,
    b_flag (fold_left (getopt_step atoi) args o)
    = b_flag o || existsb (fun a => Ascii.eqb (fst a) "b") args.
Proof.
  induction args as [|[c optarg] args IH]; intros o; cbn [fold_left existsb].
  - rewrite orb_false_r. reflexivity.
  - rewrite IH. unfold getopt_step. cbn [fst].
    destruct (Ascii.eqb c "b") eqn:Eb; cbn [b_flag orb].
    + rewrite orb_true_r. reflexivity.
    + destruct (Ascii.eqb c "c"); [reflexivity|].
      destruct (Ascii.eqb c "s"); [reflexivity|].
      destruct (Ascii.eqb c "t"); reflexivity.
Qed.

Lemma getopt_fold_times (args : list (ascii * string)) :
  forall o,
    0 <= opt_sym_rw_time o < 2 ^ 32 -> 0 <= opt_nf_threshold o < 2 ^ 32 ->
    0 <= opt_sym_rw_time (fold_left (getopt_step atoi) args o) < 2 ^ 32
    /\ 0 <= opt_nf_threshold (fold_left (getopt_step atoi) args o) < 2 ^ 32.
Proof.
  induction args as [|[c optarg] args IH]; intros o Hs Ht; cbn [fold_left];
    [split; assumption|].
  apply IH; unfold getopt_step;
    destruct (Ascii.eqb c "b"); cbn; try assumption;
    destruct (Ascii.eqb c "c"); cbn; try assumption;
    destruct (Ascii.eqb c "s"); cbn; try assumption;
    try (apply Z.mod_pos_bound; lia);
    destruct (Ascii.eqb c "t"); cbn; try assumption;
    apply Z.mod_pos_bound; lia.
Qed.
End OptionFacts.

(** When no option [-b] is given the program writes its message and
    stops with [EXIT_FAILURE], whatever the other options, the files and
    the result of [trap_init] are. *)
Theorem main_startup_needs_option_b
    (shr_undef : Z -> Z -> Z) (ip_is4 : ip_addr_t -> bool) (atoi : string -> Z)
    (open_file : string -> option string)
    (read_prefixes : string -> list ip_prefix_t)
    (args : list (ascii * string)) (init : trap_status) :
  Forall (fun a => fst a <> "b"%char) args ->
  main_startup shr_undef ip_is4 atoi open_file read_prefixes TRAP_E_OK args init
  = (Exit EXIT_FAILURE,
     ["ERROR: Bogon file not specified. Unable to continue."%string]).
Proof.
  intros Hno. unfold main_startup, getopt_loop.
  rewrite getopt_fold_b_flag. cbn [b_flag orb].
  assert (He : existsb (fun a : ascii * string => Ascii.eqb (fst a) "b") args = false).
  { induction Hno as [|a args Ha _ IH]; [reflexivity|].
    cbn [existsb]. rewrite IH, orb_false_r. apply Ascii.eqb_neq. exact Ha. }
  rewrite He. reflexivity.
Qed.

(** Only [-c], [-s] and [-t] given. *)
Lemma main_startup_needs_option_b_example :
  Forall (fun a : ascii * string => fst a <> "b"%char)
         [("c"%char, "nets.txt"%string); ("s"%char, "30"%string)]
  /\ main_startup shr64_x86 unirec_ip_is4 (fun _ => 30)
       (only_file "nets.txt" EmptyString) (fun _ => []) TRAP_E_OK
       [("c"%char, "nets.txt"%string); ("s"%char, "30"%string)] TRAP_E_OK
     = (Exit EXIT_FAILURE,
        ["ERROR: Bogon file not specified. Unable to continue."%string]).
Proof.
  assert (Hno : Forall (fun a : ascii * string => fst a <> "b"%char)
                  [("c"%char, "nets.txt"%string); ("s"%char, "30"%string)]).
  { repeat constructor; discriminate. }
  split; [exact Hno|].
  exact (main_startup_needs_option_b shr64_x86 unirec_ip_is4 (fun _ => 30)
           (only_file "nets.txt" EmptyString) (fun _ => []) _ TRAP_E_OK Hno).
Defined.

(** A configuration the program enters its loop with has a rewrite
    window and a threshold between 1 and 2^32 - 1 (an option value of 0
    selects the default) and the two mask tables as the start-up code
    builds them. *)
Theorem main_startup_configuration
    (shr_undef : Z -> Z -> Z) (ip_is4 : ip_addr_t -> bool) (atoi : string -> Z)
    (open_file : string -> option string)
    (read_prefixes : string -> list ip_prefix_t)
    (parse_params : trap_status) (args : list (ascii * string))
    (init : trap_status) (cfg : config) (err : list string) :
  main_startup shr_undef ip_is4 atoi open_file read_prefixes parse_params args init
  = (EnterLoop cfg, err) ->
  1 <= sym_rw_time cfg < 2 ^ 32
  /\ 1 <= nf_threshold cfg < 2 ^ 32
  /\ v4_masks cfg = create_v4_mask_map
  /\ v6_masks cfg = create_v6_mask_map shr_undef.
Proof.
  unfold main_startup.
  destruct parse_params; try discriminate.
  destruct (negb _); [discriminate|].
  destruct init; try discriminate.
  destruct (load_pref ip_is4 open_file read_prefixes [] [] (bog_filename _))
    as [[[rv1 b4] b6] e1].
  destruct (load_pref ip_is4 open_file read_prefixes [] [] (cnet_filename _))
    as [[[rv2 s4] s6] e2].
  destruct (rv2 =? BOGON_FILE_ERROR); [discriminate|].
  intros [= <- _]. cbn [sym_rw_time nf_threshold v4_masks v6_masks].
  destruct (getopt_fold_times atoi args (mk_options false EmptyString EmptyString 0 0)
              ltac:(cbn; lia) ltac:(cbn; lia)) as [Hs Ht].
  fold (getopt_loop atoi args) in Hs, Ht.
  unfold SYM_RW_DEFAULT, NEW_FLOW_DEFAULT.
  destruct (Z.eqb_spec (opt_sym_rw_time (getopt_loop atoi args)) 0);
    destruct (Z.eqb_spec (opt_nf_threshold (getopt_loop atoi args)) 0);
    repeat split; try reflexivity; lia.
Qed.

(** [-b] and [-c] naming a file that can be opened, [-s 0]. *)
Lemma main_startup_configuration_example :
  exists cfg,
    main_startup shr64_x86 unirec_ip_is4 (fun _ => 0)
      (only_file "nets.txt" EmptyString) (fun _ => []) TRAP_E_OK
      [("b"%char, "nets.txt"%string); ("c"%char, "nets.txt"%string);
       ("s"%char, "0"%string)] TRAP_E_OK
    = (EnterLoop cfg, [])
    /\ sym_rw_time cfg = 45
    /\ 1 <= sym_rw_time cfg < 2 ^ 32
    /\ 1 <= nf_threshold cfg < 2 ^ 32
    /\ v4_masks cfg = create_v4_mask_map
    /\ v6_masks cfg = create_v6_mask_map shr64_x86.
Proof.
  eexists. split; [reflexivity|]. split; [reflexivity|].
  eapply (main_startup_configuration shr64_x86 unirec_ip_is4 (fun _ => 0)
            (only_file "nets.txt" EmptyString) (fun _ => []) TRAP_E_OK
            [("b"%char, "nets.txt"%string); ("c"%char, "nets.txt"%string);
             ("s"%char, "0"%string)] TRAP_E_OK _ []).
  reflexivity.
Defined.

(** ** [load_pref] sorts what it reads *)

Lemma insert_by_perm {A : Type} (lt : A -> A -> bool) (x : A) (l : list A) :
  insert_by lt x l ≡ₚ x :: l.
Proof.
  induction l as [|y l IH]; [reflexivity|]. cbn [insert_by].
  destruct (lt x y); [reflexivity|]. rewrite IH. apply Permutation_swap.
Qed.

Lemma sort_by_perm {A : Type} (lt : A -> A -> bool) (l : list A) :
  sort_by lt l ≡ₚ l.
Proof.
  induction l as [|x l IH]; [reflexivity|]. unfold sort_by in *. cbn [foldr].
  rewrite insert_by_perm, IH. reflexivity.
Qed.

Lemma sort_by_ext {A : Type} (lt lt' : A -> A -> bool) (l : list A) :
  (forall a b, lt a b = lt' a b) -> sort_by lt l = sort_by lt' l.
Proof.
  intros Hext. unfold sort_by. induction l as [|x l IH]; [reflexivity|].
  cbn [foldr]. rewrite IH. generalize (foldr (insert_by lt') [] l). intros m.
  induction m as [|y m IHm]; [reflexivity|]. cbn [insert_by].
  rewrite Hext, IHm. reflexivity.
Qed.

Lemma insert_by_ordered {A : Type} (key : A -> Z) (x : A) (l : list A) :
  ordered_by key l ->
  ordered_by key (insert_by (fun a b => key a <? key b) x l).
Proof.
  induction l as [|y l IH]; intros Hl; [cbn; auto|].
  destruct Hl as [Hy Hl]. cbn [insert_by].
  destruct (Z.ltb_spec (key x) (key y)) as [Hlt|Hge]; cbn [ordered_by].
  - split; [|split; assumption]. constructor; [lia|].
    eapply Forall_impl; [exact Hy|]. cbn. intros; lia.
  - split; [|apply IH; exact Hl].
    rewrite insert_by_perm. constructor; [lia|exact Hy].
Qed.

Lemma sort_by_ordered {A : Type} (key : A -> Z) (l : list A) :
  ordered_by key (sort_by (fun a b => key a <? key b) l).
Proof.
  unfold sort_by. induction l as [|x l IH]; [exact I|].
  cbn [foldr]. apply insert_by_ordered. exact IH.
Qed.

Lemma ltb_of_sgn (c x y : Z) : Z.sgn c = Z.sgn (x - y) -> (c <? 0) = (x <? y).
Proof.
  intros Hs. destruct (Z.ltb_spec c 0) as [Hc|Hc], (Z.ltb_spec x y) as [Hx|Hx];
    try reflexivity; exfalso.
  - apply Z.sgn_neg_iff in Hc. rewrite Hs in Hc. apply Z.sgn_neg_iff in Hc. lia.
  - assert (Hn : x - y < 0) by lia. apply Z.sgn_neg_iff in Hn.
    rewrite <- Hs in Hn. apply Z.sgn_neg_iff in Hn. lia.
Qed.

(** The two comparators order prefixes by the number of their address. *)
Lemma sort_by_prefix_v4_number (addr1 addr2 : ip_prefix_t) :
  sort_by_prefix_v4 addr1 addr2 = (v4_first addr1 <? v4_first addr2).
Proof.
  unfold sort_by_prefix_v4. apply ltb_of_sgn.
  rewrite <- memcmp_take, !lane_2_bytes.
  apply memcmp_sign; try apply length_le_split; apply le_split_range.
Qed.

Lemma ui8_range (a : ip_addr_t) : Forall (fun b => 0 <= b < 256) (ui8 a).
Proof. unfold ui8. apply Forall_app. split; apply le_split_range. Qed.

Lemma length_ui8 (a : ip_addr_t) : length (ui8 a) = 16%nat.
Proof. unfold ui8. rewrite length_app, !length_le_split. reflexivity. Qed.

Lemma sort_by_prefix_v6_number (addr1 addr2 : ip_prefix_t) :
  sort_by_prefix_v6 addr1 addr2 = (v6_number (ip addr1) <? v6_number (ip addr2)).
Proof.
  unfold sort_by_prefix_v6. apply ltb_of_sgn.
  apply memcmp_sign; try apply length_ui8; apply ui8_range.
Qed.

(** When the file can be opened, [load_pref] returns [ALL_OK] and writes
    nothing to [cerr]; each of the two lists it leaves holds the prefixes
    it was given and those read for its family, no others and none twice,
    in non-decreasing order of the number of their address. *)
Theorem load_pref_sorts_by_family
    (ip_is4 : ip_addr_t -> bool) (open_file : string -> option string)
    (read_prefixes : string -> list ip_prefix_t)
    (prefix_list_v4 prefix_list_v6 : list ip_prefix_t)
    (bogon_file contents : string) :
  open_file bogon_file = Some contents ->
  exists l4 l6,
    load_pref ip_is4 open_file read_prefixes prefix_list_v4 prefix_list_v6 bogon_file
    = (ALL_OK, l4, l6, [])
    /\ l4 ≡ₚ prefix_list_v4
             ++ filter (fun p => ip_is4 (ip p) = true) (read_prefixes contents)
    /\ l6 ≡ₚ prefix_list_v6
             ++ filter (fun p => ip_is4 (ip p) = false) (read_prefixes contents)
    /\ ordered_by v4_first l4
    /\ ordered_by (fun p => v6_number (ip p)) l6.
Proof.
  intros Hopen. unfold load_pref. rewrite Hopen.
  eexists _, _. split; [reflexivity|].
  split; [apply sort_by_perm|]. split; [apply sort_by_perm|].
  split.
  - rewrite (sort_by_ext _ (fun a b => v4_first a <? v4_first b))
      by apply sort_by_prefix_v4_number.
    apply sort_by_ordered.
  - rewrite (sort_by_ext _ (fun a b => v6_number (ip a) <? v6_number (ip b)))
      by apply sort_by_prefix_v6_number.
    apply (sort_by_ordered (fun p => v6_number (ip p))).
Qed.

(** A file with 203.0.113.0/24 before 10.0.0.0/8. *)
Lemma load_pref_sorts_by_family_example :
  only_file "bogons.txt" EmptyString "bogons.txt"%string = Some EmptyString
  /\ exists l4 l6,
       load_pref unirec_ip_is4 (only_file "bogons.txt" EmptyString)
         (fun _ => [mk_prefix (v4_addr 203 0 113 0) 24; mk_prefix (v4_addr 10 0 0 0) 8])
         [] [] "bogons.txt"
       = (ALL_OK, l4, l6, [])
       /\ l4 ≡ₚ [] ++ filter (fun p => unirec_ip_is4 (ip p) = true)
                        [mk_prefix (v4_addr 203 0 113 0) 24;
                         mk_prefix (v4_addr 10 0 0 0) 8]
       /\ l6 ≡ₚ [] ++ filter (fun p => unirec_ip_is4 (ip p) = false)
                        [mk_prefix (v4_addr 203 0 113 0) 24;
                         mk_prefix (v4_addr 10 0 0 0) 8]
       /\ ordered_by v4_first l4
       /\ ordered_by (fun p => v6_number (ip p)) l6.
Proof.
  split; [reflexivity|].
  apply (load_pref_sorts_by_family unirec_ip_is4 (only_file "bogons.txt" EmptyString)
           (fun _ => [mk_prefix (v4_addr 203 0 113 0) 24;
                      mk_prefix (v4_addr 10 0 0 0) 8])
           [] [] "bogons.txt" EmptyString).
  reflexivity.
Defined.

(** ** [destroy_filters] deletes every filter once *)

Lemma destroy_loop_frees (filters : filter_pair positive) (todo : nat) :
  forall (i : nat) (live : gset positive),
    (i + todo)%nat = length (flows (bf_active filters)) ->
    length (flows (bf_learning filters)) = length (flows (bf_active filters)) ->
    NoDup ((sources <$> drop i (flows (bf_active filters)))
           ++ (sources <$> drop i (flows (bf_learning filters)))) ->
    (forall p, p ∈ (sources <$> drop i (flows (bf_active filters)))
                   ++ (sources <$> drop i (flows (bf_learning filters))) ->
               p ∈ live) ->
    destroy_loop filters (Z.of_nat i) todo live
    = Ret (live ∖ list_to_set
                    ((sources <$> drop i (flows (bf_active filters)))
                     ++ (sources <$> drop i (flows (bf_learning filters))))).
Proof.
  induction todo as [|todo IH]; intros i live Hlen Heq Hnd Hlive.
  - cbn [destroy_loop]. rewrite !drop_ge by lia. cbn. f_equal. set_solver.
  - cbn [destroy_loop].
    destruct (lookup_lt_is_Some_2 (flows (bf_active filters)) i ltac:(lia))
      as [fa Hfa].
    destruct (lookup_lt_is_Some_2 (flows (bf_learning filters)) i ltac:(lia))
      as [fl Hfl].
    rewrite (index_Ret _ _ _ Hfa). cbn [bind].
    rewrite (drop_S _ _ _ Hfa), (drop_S _ _ _ Hfl) in Hnd, Hlive |- *.
    rewrite !fmap_cons in Hnd, Hlive |- *.
    set (A := sources <$> drop (S i) (flows (bf_active filters))) in *.
    set (L := sources <$> drop (S i) (flows (bf_learning filters))) in *.
    cbn [app] in Hnd, Hlive |- *.
    apply NoDup_cons in Hnd as [Hfa_fresh Hnd].
    apply NoDup_app in Hnd as (HndA & Hdisj & HndL).
    apply NoDup_cons in HndL as [Hfl_fresh HndL].
    assert (Hne : sources fl <> sources fa).
    { intros He. apply Hfa_fresh. rewrite <- He. set_solver. }
    unfold delete_object.
    rewrite decide_True by (apply Hlive; set_solver). cbn [bind].
    rewrite (index_Ret _ _ _ Hfl). cbn [bind].
    rewrite decide_True by (apply elem_of_difference; split;
                            [apply Hlive; set_solver|set_solver]).
    cbn [bind].
    replace (Z.of_nat i + 1) with (Z.of_nat (S i)) by lia.
    rewrite (IH (S i)); [|lia|exact Heq| |].
    + f_equal. fold A L. apply set_eq. intros p.
      rewrite !elem_of_difference, !elem_of_list_to_set.
      rewrite !elem_of_app, !elem_of_cons, !elem_of_app, !elem_of_singleton.
      rewrite elem_of_cons. tauto.
    + fold A L. apply NoDup_app. repeat split; try assumption.
      intros p Hp HpL. apply (Hdisj p Hp). set_solver.
    + fold A L. intros p Hp.
      apply elem_of_difference. split; [apply elem_of_difference; split|].
      * apply Hlive. set_solver.
      * intros Hin. apply elem_of_singleton in Hin. subst p.
        apply elem_of_app in Hp as [Hp|Hp]; [|].
        -- apply Hfa_fresh. set_solver.
        -- apply Hfa_fresh. set_solver.
      * intros Hin. apply elem_of_singleton in Hin. subst p.
        apply elem_of_app in Hp as [Hp|Hp].
        -- apply (Hdisj _ Hp). set_solver.
        -- contradiction.
Qed.

(** When the two sides have as many buckets and their filters are
    distinct live objects, [destroy_filters] deletes each of them once
    and nothing else, empties the active vector, and leaves the learning
    vector with all its buckets, which now point to deleted filters. *)
Theorem destroy_filters_deletes_each_once (filters : filter_pair positive)
    (live : gset positive) :
  length (flows (bf_learning filters)) = length (flows (bf_active filters)) ->
  NoDup ((sources <$> flows (bf_active filters))
         ++ (sources <$> flows (bf_learning filters))) ->
  (forall p, p ∈ (sources <$> flows (bf_active filters))
                 ++ (sources <$> flows (bf_learning filters)) -> p ∈ live) ->
  destroy_filters filters live
  = Ret (mk_pair (mk_filter []) (bf_learning filters),
         live ∖ list_to_set ((sources <$> flows (bf_active filters))
                             ++ (sources <$> flows (bf_learning filters)))).
Proof.
  intros Heq Hnd Hlive. unfold destroy_filters.
  rewrite (destroy_loop_frees filters _ 0 live); try assumption; [|lia].
  reflexivity.
Qed.

(** Four live filters, two per side, and a fifth object. *)
Lemma destroy_filters_deletes_each_once_four :
  destroy_filters four_filters {[1; 2; 3; 4; 5]}%positive
  = Ret (mk_pair (mk_filter []) (bf_learning four_filters),
         {[1; 2; 3; 4; 5]}%positive
           ∖ list_to_set ((sources <$> flows (bf_active four_filters))
                          ++ (sources <$> flows (bf_learning four_filters)))).
Proof.
  apply (destroy_filters_deletes_each_once four_filters {[1; 2; 3; 4; 5]}%positive).
  - reflexivity.
  - cbn. repeat (apply NoDup_cons; split; [set_solver|]). apply NoDup_nil. exact I.
  - cbn. intros p Hp. set_solver.
Defined.

(** ** The main loop ends at the first delivery it does not accept *)

Section MainLoopFacts.
Context {B : Type} `{Bloom B}.
Variable ip_is4 : ip_addr_t -> bool.
Variable ip_to_str : ip_addr_t -> list Z.
Variable TRAP_E_TERMINATED : Z.
Variable sizeof_ur_basic_flow_t : Z.

Lemma loop_exit_accepts (m : delivery) :
  stop_seen m = false -> get_retval m = 0 -> data_size m = sizeof_ur_basic_flow_t ->
  loop_exit TRAP_E_TERMINATED sizeof_ur_basic_flow_t m = None.
Proof.
  intros Hs Hr Hz. unfold loop_exit. rewrite Hs, Hr, Hz.
  cbn [trap_code]. rewrite !Z.eqb_refl. reflexivity.
Qed.

Lemma loop_exit_refuses (m : delivery) :
  stop_seen m = true \/ get_retval m <> 0 \/ data_size m <> sizeof_ur_basic_flow_t ->
  exists why, loop_exit TRAP_E_TERMINATED sizeof_ur_basic_flow_t m = Some why
              /\ why <> no_more_input.
Proof.
  intros Hbad. unfold loop_exit. cbn [trap_code].
  destruct (stop_seen m); [eexists; split; [reflexivity|discriminate]|].
  destruct (Z.eqb_spec (get_retval m) 0) as [Hr|Hr]; cbn [negb].
  - destruct (Z.eqb_spec (data_size m) sizeof_ur_basic_flow_t) as [Hz|Hz]; cbn [negb].
    + exfalso. destruct Hbad as [Hbad|[Hbad|Hbad]];
        [discriminate|contradiction|contradiction].
    + destruct (data_size m <=? 1); eexists; split; try reflexivity; discriminate.
  - destruct (get_retval m =? TRAP_E_TERMINATED);
      eexists; split; try reflexivity; discriminate.
Qed.

(** When the deliveries [good] all come with [stop] unset, return value
    [TRAP_E_OK] and the size of a record, and the one after them does
    not, the loop processes the records of [good] as [run] does, leaves
    for one of its five reasons, and nothing delivered later has any
    effect: the record of the refused delivery is neither filtered nor
    sent, and the state is the one after the last accepted record. *)
Theorem main_loop_ends_at_first_refused (cfg : config) (d : detector B)
    (good : list delivery) (bad : delivery) (rest : list delivery) :
  Forall (fun m => stop_seen m = false /\ get_retval m = 0
                   /\ data_size m = sizeof_ur_basic_flow_t) good ->
  stop_seen bad = true \/ get_retval bad <> 0
    \/ data_size bad <> sizeof_ur_basic_flow_t ->
  exists why,
    why <> no_more_input
    /\ main_loop ip_is4 ip_to_str TRAP_E_TERMINATED sizeof_ur_basic_flow_t
         cfg d (good ++ bad :: rest)
       = (dr <~ run ip_is4 ip_to_str cfg d ((fun m => (locals m, data m)) <$> good) ;;
          Ret (dr, why)).
Proof.
  intros Hgood Hbad.
  destruct (loop_exit_refuses bad Hbad) as (why & Hwhy & Hne).
  exists why. split; [exact Hne|].
  revert d. induction Hgood as [|m good (Hs & Hr & Hz) Hgood IH]; intros d.
  - cbn [app fmap list_fmap main_loop run bind]. rewrite Hwhy. reflexivity.
  - cbn [app fmap list_fmap main_loop run].
    rewrite (loop_exit_accepts m Hs Hr Hz).
    destruct (process_record ip_is4 ip_to_str cfg (locals m) d (data m))
      as [[d1 out]| |]; cbn [bind]; try reflexivity.
    cbn [fst snd]. rewrite IH.
    destruct (run ip_is4 ip_to_str cfg d1 _) as [[d2 outs]| |];
      cbn [bind fst snd]; reflexivity.
Qed.
End MainLoopFacts.

(** One record of the right size, then the end-of-data message, then
    one more record. *)
Lemma main_loop_ends_at_first_refused_end_of_data :
  exists why,
    why <> no_more_input
    /\ main_loop unirec_ip_is4 bytes_as_text 30 88 cfg_no_lists
         (initial_detector (B := exact_set) cfg_no_lists)
         ([deliver_88 locals_7 (outbound_203 2 1000)]
            ++ deliver_end locals_7 (inbound_203 2 1000)
            :: [deliver_88 locals_7 (inbound_203 2 1000)])
       = (dr <~ run unirec_ip_is4 bytes_as_text cfg_no_lists
                  (initial_detector (B := exact_set) cfg_no_lists)
                  ((fun m => (locals m, data m))
                     <$> [deliver_88 locals_7 (outbound_203 2 1000)]) ;;
          Ret (dr, why)).
Proof.
  apply (main_loop_ends_at_first_refused (B := exact_set)
           unirec_ip_is4 bytes_as_text 30 88 cfg_no_lists).
  - repeat constructor.
  - right. right. cbn. discriminate.
Defined.

(** ** C1: the mask tables off the byte boundaries *)

Lemma v4_bogon_filter_any_masked (checked : ur_basic_flow_t)
    (prefix_list : list ip_prefix_t) (mm : list Z) (masked0 masked0' : ip_addr_t) :
  v4_bogon_filter checked prefix_list mm masked0
  = v4_bogon_filter checked prefix_list mm masked0'.
Proof.
  unfold v4_bogon_filter.
  pose proof (search_blind _ (length prefix_list) 0 0 masked0 masked0'
                (v4_probe_blind mm prefix_list (src_addr checked))) as Hs.
  destruct (search _ _ _ _ masked0) as [st| |],
           (search _ _ _ _ masked0') as [st'| |];
    cbn in Hs; try contradiction; try reflexivity.
  cbn [bind]. unfold verdict_of_hit. destruct Hs as (-> & _). reflexivity.
Qed.

Lemma v6_bogon_filter_any_masked (checked : ur_basic_flow_t)
    (prefix_list : list ip_prefix_t) (v6mm : list (Z * Z))
    (masked0 masked0' : ip_addr_t) :
  Forall (fun p => pref_length p <= 64) prefix_list ->
  v6_bogon_filter checked prefix_list v6mm masked0
  = v6_bogon_filter checked prefix_list v6mm masked0'.
Proof.
  intros Hall. unfold v6_bogon_filter.
  pose proof (search_blind _ (length prefix_list) 0 0 masked0 masked0'
                (v6_bogon_probe_blind v6mm prefix_list (src_addr checked) Hall)) as Hs.
  destruct (search _ _ _ _ masked0) as [st| |],
           (search _ _ _ _ masked0') as [st'| |];
    cbn in Hs; try contradiction; try reflexivity.
  cbn [bind]. unfold verdict_of_hit. destruct Hs as (-> & _). reflexivity.
Qed.

(** C1 at the prefix lengths 12 and 7.  Entry 12 of the IPv4 table is
    0xFFF where the formula of the design document gives the netmask
    0xFFF00000, and [v4_bogon_filter] with the list {172.16.0.0/12}
    answers NEGATIVE for the source 172.20.1.1, an address of that
    prefix; with the netmask of the design document at entry 12, stored
    in network byte order like the addresses, the same call answers
    POSITIVE.  Entry 7 of the IPv6 table has first word 0x7F where the
    formula gives 0xFE00000000000000, and [v6_bogon_filter] with the list
    {fc00::/7} answers NEGATIVE for the source fd00::1, an address of
    that prefix.  This holds whatever [masked] held and whatever a shift
    by an out-of-range count gives. *)
Theorem C1_entries_off_byte_boundaries_are_not_netmasks
    (undef : Z -> Z -> Z) (masked0 : ip_addr_t) :
  (v4_mask_at create_v4_mask_map 12 = Some 0xFFF
   /\ spec_mask_v4 12 = 0xFFF00000
   /\ v4_first prefix_172_16_12 <= v4_number (src_addr from_172_20_1_1)
      < v4_past_last prefix_172_16_12
   /\ v4_bogon_filter from_172_20_1_1 [prefix_172_16_12] create_v4_mask_map masked0
      = Ret SPOOF_NEGATIVE
   /\ v4_bogon_filter from_172_20_1_1 [prefix_172_16_12]
        (<[12%nat := network_order_32 (spec_mask_v4 12)]> create_v4_mask_map) masked0
      = Ret SPOOF_POSITIVE)
  /\ (v6_mask_at (create_v6_mask_map undef) 7 = Some (0x7F, 0)
      /\ spec_mask_v6 7 = (0xFE00000000000000, 0)
      /\ v6_number (ip prefix_fc00_7) <= v6_number (src_addr from_fd00_1)
         < v6_number (ip prefix_fc00_7) + 2 ^ (128 - 7)
      /\ v6_bogon_filter from_fd00_1 [prefix_fc00_7] (create_v6_mask_map undef) masked0
         = Ret SPOOF_NEGATIVE).
Proof.
  split.
  - split; [reflexivity|]. split; [reflexivity|].
    split; [vm_compute; split; [discriminate|reflexivity]|].
    split.
    + rewrite (v4_bogon_filter_any_masked _ _ _ masked0 (mk_ip 0 0)).
      vm_compute. reflexivity.
    + rewrite (v4_bogon_filter_any_masked _ _ _ masked0 (mk_ip 0 0)).
      vm_compute. reflexivity.
  - split; [reflexivity|]. split; [reflexivity|].
    split; [vm_compute; split; [discriminate|reflexivity]|].
    rewrite (v6_bogon_filter_any_masked _ _ _ masked0 (mk_ip 0 0)).
    + vm_compute. reflexivity.
    + repeat constructor. cbn. lia.
Qed.
